(** * Writing Coach: sensor, condition evaluator, trigger engine and
      coaching session, embedded from the TypeScript sources.

    Layout
    - [JS]       : the JavaScript primitives the sources call (UTF-16
                   strings, [trim], [split], [Math.round], [parseFloat]).
    - [Types]    : types.ts.
    - [Sensor]   : [WritingSensor] (sensor.ts, both revisions).
    - [Evaluator]: [evaluateCondition] and [evaluateConditions]
                   (trigger-engine.ts).
    - [Engine]   : [TriggerEngine] (trigger-engine.ts) and the default
                   rules of config-manager.ts.
    - [Session]  : the conversation part of main.ts, coaching-view.ts and
                   claude-client.ts.
    - [Spec]     : the notions of the specification the theorems are
                   stated with.
    - [Client]   : the parts of the prompts [ClaudeClient] cuts to size.
    - [Plugin]   : [forceTrigger] of main.ts.
    - [Notions]  : further notions the theorems are stated with.
    - [JSFacts], [SensorFacts], [EvaluatorFacts], [EngineFacts],
      [SessionFacts] : the proofs.
    - [SensorMore], [EvaluatorMore], [EngineMore], [SessionMore],
      [ClientFacts] : further properties of the same code.

    Numbers are exact: integers are [Z], other JavaScript numbers are
    rationals [Q] (plus NaN and the infinities where [parseFloat] can
    produce them).  The code computes with IEEE doubles, which are the
    numbers themselves for integers up to 2^53 - 1 in magnitude; a
    comparison of other numbers can differ from the exact one where a
    double was rounded, so the theorems that give a comparison a meaning
    are about integers in that range.  Times are milliseconds since the
    epoch, as [Date.now()]. *)

From Stdlib Require Import ZArith NArith QArith Qround List Bool String Ascii.
From Stdlib Require Import Lia Lqa Permutation.
Import ListNotations.

Local Open Scope Z_scope.

(* ================================================================== *)
(** ** JavaScript primitives *)
(* ================================================================== *)

Module JS.

(** A JavaScript string is a sequence of UTF-16 code units. *)
Definition jsstring := list N.

(** Literals of the sources are ASCII; [js "abc"] is the string "abc". *)
Definition js (s : string) : jsstring :=
  map N_of_ascii (list_ascii_of_string s).

Definition str_eqb (a b : jsstring) : bool :=
  if list_eq_dec N.eq_dec a b then true else false.

(** [s.length] *)
Definition strlen (s : jsstring) : Z := Z.of_nat (List.length s).

(** The class [\s] of regular expressions, which is also the set of code
    units removed by [String.prototype.trim] (WhiteSpace and
    LineTerminator of ECMA-262). *)
Definition isWhiteSpace (c : N) : bool :=
  ((9 <=? c) && (c <=? 13) || (c =? 32) || (c =? 160) || (c =? 5760)
   || (8192 <=? c) && (c <=? 8202) || (c =? 8232) || (c =? 8233)
   || (c =? 8239) || (c =? 8287) || (c =? 12288) || (c =? 65279))%N.

(** The class [\u4e00-\u9fff] (CJK unified ideographs). *)
Definition isChinese (c : N) : bool := ((19968 <=? c) && (c <=? 40959))%N.

(** [/\d/] *)
Definition isDigit (c : N) : bool := ((48 <=? c) && (c <=? 57))%N.

Fixpoint dropWhile {A} (p : A -> bool) (l : list A) : list A :=
  match l with
  | [] => []
  | x :: r => if p x then dropWhile p r else l
  end.

Definition trimStart (s : jsstring) : jsstring := dropWhile isWhiteSpace s.
Definition trimEnd (s : jsstring) : jsstring :=
  rev (dropWhile isWhiteSpace (rev s)).

(** [s.trim()] *)
Definition trim (s : jsstring) : jsstring := trimEnd (trimStart s).

(** [s.split(re)] for a regular expression [re] of the shape [[class]+]:
    the pieces between the maximal runs of separator code units, empty
    pieces included (["".split(/\s+/)] is [[""]], [" a".split(/\s+/)] is
    [["", "a"]]).  [cur] is the piece being read, reversed; [insep] tells
    that the previous code unit was a separator. *)
Fixpoint split_go (sep : N -> bool) (s : jsstring) (cur : jsstring)
         (insep : bool) : list jsstring :=
  match s with
  | [] => [rev cur]
  | c :: r =>
      if sep c then
        if insep then split_go sep r cur true
        else rev cur :: split_go sep r [] true
      else split_go sep r (c :: cur) false
  end.

Definition split_runs (sep : N -> bool) (s : jsstring) : list jsstring :=
  split_go sep s [] false.

(** [s.split(/\s+/)] *)
Definition split_ws (s : jsstring) : list jsstring := split_runs isWhiteSpace s.

(** [w => w.length > 0] *)
Definition nonEmpty (w : jsstring) : bool :=
  match w with [] => false | _ => true end.

(** [s.substring(n)] for [0 <= n <= s.length] *)
Definition substringFrom (n : nat) (s : jsstring) : jsstring := skipn n s.

(** [s.endsWith(suffix)] *)
Definition endsWith (s suffix : jsstring) : bool :=
  (List.length suffix <=? List.length s)%nat
  && str_eqb (skipn (List.length s - List.length suffix) s) suffix.

(** [Math.round(x)]: the integer nearest to [x], ties towards +infinity. *)
Definition Math_round (x : Q) : Z := Qfloor (x + (1 # 2))%Q.

(** A JavaScript number, exactly: NaN, an infinity or a rational. *)
Inductive jsnum := NaN | PosInf | NegInf | Fin (q : Q).

Definition isNaN (n : jsnum) : bool :=
  match n with NaN => true | _ => false end.

(** [a < b]; false as soon as one side is NaN. *)
Definition num_ltb (a b : jsnum) : bool :=
  match a, b with
  | NaN, _ | _, NaN => false
  | PosInf, _ => false
  | _, NegInf => false
  | NegInf, _ => true
  | _, PosInf => true
  | Fin x, Fin y => negb (Qle_bool y x)
  end.

(** [a === b] on numbers. *)
Definition num_eqb (a b : jsnum) : bool :=
  match a, b with
  | PosInf, PosInf | NegInf, NegInf => true
  | Fin x, Fin y => Qeq_bool x y
  | _, _ => false
  end.

Definition num_leb (a b : jsnum) : bool := num_ltb a b || num_eqb a b.

(** The longest prefix of [l] whose members satisfy [p], and the rest. *)
Fixpoint span {A} (p : A -> bool) (l : list A) : list A * list A :=
  match l with
  | [] => ([], [])
  | x :: r => if p x then let (a, b) := span p r in (x :: a, b) else ([], l)
  end.

(** The value of a sequence of decimal digits. *)
Definition digitsValue (ds : list N) : Z :=
  fold_left (fun acc d => 10 * acc + (Z.of_N d - 48)) ds 0.

Fixpoint isPrefix (p s : jsstring) : bool :=
  match p, s with
  | [], _ => true
  | a :: p', b :: s' => (a =? b)%N && isPrefix p' s'
  | _ :: _, [] => false
  end.

(** StrUnsignedDecimalLiteral of ECMA-262, read as the longest prefix of
    [s]: [Infinity], digits with an optional fraction, or a fraction that
    starts with the point; then an optional exponent part. *)
Definition parseUnsigned (s : jsstring) : jsnum :=
  if isPrefix (js "Infinity") s then PosInf
  else
    let (intDigits, r1) := span isDigit s in
    let (fracDigits, r2) :=
      match r1 with
      | 46%N :: r => span isDigit r
      | _ => ([], r1)
      end in
    if negb (nonEmpty intDigits) && negb (nonEmpty fracDigits) then NaN
    else
      let mantissa :=
        (inject_Z (digitsValue intDigits)
         + inject_Z (digitsValue fracDigits)
           / inject_Z (10 ^ Z.of_nat (List.length fracDigits)))%Q in
      let exponent :=
        match r2 with
        | e :: r =>
            if ((e =? 101) || (e =? 69))%N then
              match r with
              | 43%N :: r' =>
                  let (ds, _) := span isDigit r' in
                  if nonEmpty ds then digitsValue ds else 0
              | 45%N :: r' =>
                  let (ds, _) := span isDigit r' in
                  if nonEmpty ds then - digitsValue ds else 0
              | _ =>
                  let (ds, _) := span isDigit r in
                  if nonEmpty ds then digitsValue ds else 0
              end
            else 0
        | [] => 0
        end in
      Fin (mantissa * Qpower 10 exponent)%Q.

Definition num_neg (n : jsnum) : jsnum :=
  match n with
  | NaN => NaN | PosInf => NegInf | NegInf => PosInf | Fin q => Fin (- q)%Q
  end.

(** [parseFloat(s)] for a string [s]: leading white space is skipped,
    the longest prefix that is a StrDecimalLiteral is read, NaN when
    there is none. *)
Definition parseFloat (s : jsstring) : jsnum :=
  match trimStart s with
  | 43%N :: r => parseUnsigned r
  | 45%N :: r => num_neg (parseUnsigned r)
  | t => parseUnsigned t
  end.

End JS.

(* ================================================================== *)
(** ** types.ts *)
(* ================================================================== *)

Module Types.
Import JS.

Inductive PauseLocation :=
  PLStart | PLMidSentence | PLEndSentence | PLEndParagraph | PLUnknown.

Inductive Trend := Increasing | Decreasing | Stable.

(** [WritingMetrics].  [wpm], [totalWords], [currentParagraphLength] and
    [paragraphsSinceLastCoaching] only ever hold integers. *)
Record WritingMetrics := {
  wpm : Z;
  totalWords : Z;
  sessionDuration : Q;
  adjectiveRatio : Q;
  verbRatio : Q;
  abstractNounRatio : Q;
  averageSentenceLength : Q;
  pauseDuration : Q;
  pauseLocation : PauseLocation;
  deletionRatio : Q;
  wpmTrend : Trend;
  recentWPM : list Z;
  currentParagraphLength : Z;
  paragraphsSinceLastCoaching : Z
}.

(** [EditEvent]; the fields [from] and [to] are always [{line: 0, ch: 0}]
    and are never read. *)
Record EditEvent := {
  timestamp : Z;
  text : jsstring;
  removed : jsstring
}.

End Types.

(* ================================================================== *)
(** ** sensor.ts *)
(* ================================================================== *)

Module Sensor.
Import JS Types.

(** The repository holds two revisions of sensor.ts.  [Basic] is
    src/sensor.ts; [Segmenting] is the later one, which adds paste
    detection to [getAddedText], Chinese word segmentation to
    [analyzeText] and the methods [pause], [resume], [resetForNewFile].
    Every other method is the same text in both. *)
Variant revision := Basic | Segmenting.

(** What the sensor takes from outside its own file: the built-in
    [String.prototype.toLowerCase], the segmentit library ([None] when
    [doSegment] throws) and the three sets of chinese-words.ts. *)
Record Host := {
  toLowerCase : jsstring -> jsstring;
  doSegment : jsstring -> option (list jsstring);
  CHINESE_ADJECTIVES : jsstring -> bool;
  CHINESE_VERBS : jsstring -> bool;
  CHINESE_ABSTRACT_NOUNS : jsstring -> bool
}.

(** The part of the Obsidian [Editor] the sensor reads: [getValue()],
    [getCursor().ch], [getLine(cursor.line)] and [getLine(cursor.line + 1)]
    ([None] past the last line). *)
Record Editor := {
  getValue : jsstring;
  cursor_ch : nat;
  cursor_lineText : jsstring;
  next_lineText : option jsstring
}.

Definition ADJECTIVE_ENDINGS : list jsstring := map js
  [ "ful"; "less"; "ous"; "ive"; "al"; "ic"; "able"; "ible"; "ish"; "ly";
    "ary"; "ory" ]%string.

Definition COMMON_ADJECTIVES : list jsstring := map js
  [ "good"; "bad"; "big"; "small"; "large"; "little"; "old"; "young"; "new";
    "long"; "short"; "high"; "low"; "great"; "beautiful"; "dark"; "light";
    "hot"; "cold"; "warm"; "cool"; "fast"; "slow"; "hard"; "soft"; "loud";
    "quiet"; "happy"; "sad"; "angry"; "afraid"; "brave"; "calm"; "clear";
    "deep"; "dry"; "wet"; "empty"; "full"; "heavy"; "thick"; "thin"; "wide";
    "narrow"; "rough"; "smooth"; "sharp"; "sweet"; "sour"; "bitter";
    "fresh"; "strange"; "familiar"; "certain"; "possible"; "real"; "true";
    "false" ]%string.

Definition ABSTRACT_NOUNS : list jsstring := map js
  [ "love"; "hate"; "fear"; "anxiety"; "hope"; "despair"; "joy"; "sorrow";
    "anger"; "peace"; "war"; "truth"; "lie"; "beauty"; "ugliness";
    "justice"; "injustice"; "freedom"; "slavery"; "power"; "weakness";
    "strength"; "knowledge"; "ignorance"; "wisdom"; "folly"; "courage";
    "cowardice"; "faith"; "doubt"; "belief"; "disbelief"; "trust";
    "distrust"; "honor"; "shame"; "pride"; "humility"; "guilt"; "innocence";
    "grief"; "loss"; "happiness"; "sadness"; "loneliness"; "friendship";
    "enmity"; "loyalty"; "betrayal"; "identity"; "self"; "soul"; "spirit";
    "mind"; "heart"; "memory"; "dream"; "reality"; "fantasy"; "imagination";
    "thought"; "feeling"; "emotion"; "sensation"; "perception";
    "consciousness"; "meaning"; "purpose"; "reason"; "logic"; "intuition";
    "instinct"; "desire"; "need"; "want"; "wish"; "ambition"; "aspiration";
    "goal"; "success"; "failure"; "achievement"; "disappointment";
    "satisfaction"; "frustration"; "contentment"; "discontent"; "pleasure";
    "pain"; "suffering"; "bliss"; "agony"; "ecstasy"; "melancholy";
    "nostalgia"; "regret"; "remorse"; "forgiveness"; "resentment";
    "gratitude"; "envy"; "jealousy"; "compassion"; "empathy"; "sympathy";
    "apathy"; "indifference"; "relationship"; "connection"; "bond";
    "attachment"; "separation" ]%string.

Definition COMMON_VERBS : list jsstring := map js
  [ "be"; "is"; "am"; "are"; "was"; "were"; "been"; "being"; "have"; "has";
    "had"; "having"; "do"; "does"; "did"; "doing"; "say"; "said"; "go";
    "went"; "gone"; "get"; "got"; "make"; "made"; "know"; "knew"; "think";
    "thought"; "take"; "took"; "see"; "saw"; "come"; "came"; "want";
    "wanted"; "look"; "looked"; "use"; "used"; "find"; "found"; "give";
    "gave"; "tell"; "told"; "work"; "worked"; "call"; "called"; "try";
    "tried"; "ask"; "asked"; "need"; "needed"; "feel"; "felt"; "become";
    "became"; "leave"; "left"; "put"; "mean"; "keep"; "kept"; "let";
    "begin"; "began"; "seem"; "seemed"; "help"; "show"; "showed"; "hear";
    "heard"; "play"; "played"; "run"; "ran"; "move"; "moved"; "live";
    "lived"; "believe"; "believed"; "hold"; "held"; "bring"; "brought";
    "happen"; "happened"; "write"; "wrote"; "written"; "sit"; "sat";
    "stand"; "stood"; "lose"; "lost"; "pay"; "paid"; "meet"; "met";
    "include"; "included"; "continue"; "continued"; "set"; "learn";
    "learned"; "change"; "changed"; "lead"; "led"; "understand";
    "understood"; "watch"; "watched"; "follow"; "followed"; "stop";
    "stopped"; "create"; "created"; "speak"; "spoke"; "spoken"; "read";
    "allow"; "allowed"; "add"; "added"; "spend"; "spent"; "grow"; "grew";
    "grown"; "open"; "opened"; "walk"; "walked"; "win"; "won"; "offer";
    "offered"; "remember"; "remembered"; "consider"; "considered"; "appear";
    "appeared"; "buy"; "bought"; "wait"; "waited"; "serve"; "served"; "die";
    "died"; "send"; "sent"; "expect"; "expected"; "build"; "built"; "stay";
    "stayed"; "fall"; "fell" ]%string.

Definition has (set : list jsstring) (w : jsstring) : bool :=
  existsb (str_eqb w) set.

Record state := {
  metrics : WritingMetrics;
  lastText : jsstring;
  lastEditTime : Z;
  sessionStartTime : Z;
  editHistory : list EditEvent;
  recentWPMReadings : list Z;
  isFirstEdit : bool;
  isPaused : bool;
  currentFilePath : jsstring
}.

Definition getDefaultMetrics : WritingMetrics :=
  {| wpm := 0; totalWords := 0; sessionDuration := 0;
     adjectiveRatio := 0; verbRatio := 0; abstractNounRatio := 0;
     averageSentenceLength := 0; pauseDuration := 0;
     pauseLocation := PLUnknown; deletionRatio := 0;
     wpmTrend := Stable; recentWPM := [];
     currentParagraphLength := 0; paragraphsSinceLastCoaching := 0 |}.

(** The sensor as constructed at time [now]. *)
Definition init (now : Z) : state :=
  {| metrics := getDefaultMetrics; lastText := []; lastEditTime := now;
     sessionStartTime := now; editHistory := []; recentWPMReadings := [];
     isFirstEdit := true; isPaused := false; currentFilePath := [] |}.

(** [countWords] *)
Definition countWords (text : jsstring) : Z :=
  if negb (nonEmpty text) || (strlen (trim text) =? 0) then 0
  else
    let chineseChars := filter isChinese text in
    let englishOnly := map (fun c => if isChinese c then 32%N else c) text in
    let englishWords := filter nonEmpty (split_ws (trim englishOnly)) in
    let chineseWordCount := (inject_Z (strlen chineseChars) * (1 # 2))%Q in
    let englishWordCount := inject_Z (Z.of_nat (List.length englishWords)) in
    Math_round (chineseWordCount + englishWordCount)%Q.

(** [getAddedText] *)
Definition getAddedText (r : revision) (oldText newText : jsstring)
  : jsstring :=
  match r with
  | Basic =>
      if strlen newText >? strlen oldText
      then substringFrom (List.length oldText) newText
      else []
  | Segmenting =>
      let lengthDiff := strlen newText - strlen oldText in
      if lengthDiff >? 50 then []
      else if lengthDiff >? 0
           then substringFrom (Z.to_nat (strlen newText - lengthDiff)) newText
           else []
  end.

(** [getRemovedText] *)
Definition getRemovedText (oldText newText : jsstring) : jsstring :=
  if strlen newText <? strlen oldText then
    let diff := strlen oldText - strlen newText in
    substringFrom (Z.to_nat (strlen oldText - diff)) oldText
  else [].

(** [calculateWPM]; [now] is the value of [Date.now()] read inside it. *)
Definition calculateWPM (st : state) (now : Z) : Z :=
  let oneMinuteAgo := now - 60000 in
  let recentEdits :=
    filter (fun e => timestamp e >? oneMinuteAgo) (editHistory st) in
  fold_left (fun sum edit => sum + countWords (text edit)) recentEdits 0.

(** [calculateDeletionRatio] *)
Definition calculateDeletionRatio (st : state) (now : Z) : Q :=
  let fiveMinutesAgo := now - 300000 in
  let recentEdits :=
    filter (fun e => timestamp e >? fiveMinutesAgo) (editHistory st) in
  let written := fold_left (fun w e => w + strlen (text e)) recentEdits 0 in
  let deleted := fold_left (fun d e => d + strlen (removed e)) recentEdits 0 in
  if written >? 0 then deleted # Z.to_pos written else 0%Q.

(** [text.toLowerCase().split(/\s+/).filter(w => w.length > 0)] *)
Definition whitespaceWords (h : Host) (t : jsstring) : list jsstring :=
  filter nonEmpty (split_ws (toLowerCase h t)).

(** [segmentText]; in revision [Basic] the first line of [analyzeText]. *)
Definition segmentText (r : revision) (h : Host) (t : jsstring)
  : list jsstring :=
  match r with
  | Basic => whitespaceWords h t
  | Segmenting =>
      if existsb isChinese t then
        match doSegment h t with
        | Some segments =>
            filter nonEmpty (map (fun w => toLowerCase h (trim w)) segments)
        | None => whitespaceWords h t
        end
      else whitespaceWords h t
  end.

(** [isAdjective] *)
Definition isAdjective (r : revision) (h : Host) (word : jsstring) : bool :=
  match r with
  | Basic =>
      if has COMMON_ADJECTIVES word then true
      else existsb (fun ending => endsWith word ending) ADJECTIVE_ENDINGS
  | Segmenting =>
      if has COMMON_ADJECTIVES word then true
      else if existsb (fun ending => endsWith word ending) ADJECTIVE_ENDINGS
      then true
      else if CHINESE_ADJECTIVES h word then true
      else false
  end.

(** [isVerb] *)
Definition isVerb (r : revision) (h : Host) (word : jsstring) : bool :=
  if has COMMON_VERBS word then true
  else if endsWith word (js "ing") || endsWith word (js "ed") then true
  else match r with
       | Basic => false
       | Segmenting => if CHINESE_VERBS h word then true else false
       end.

(** [isAbstractNoun]; in revision [Basic] the test [ABSTRACT_NOUNS.has(w)]. *)
Definition isAbstractNoun (r : revision) (h : Host) (word : jsstring)
  : bool :=
  match r with
  | Basic => has ABSTRACT_NOUNS word
  | Segmenting =>
      if has ABSTRACT_NOUNS word then true
      else if CHINESE_ABSTRACT_NOUNS h word then true
      else false
  end.

(** [a / b] for lengths [a] and [b > 0]. *)
Definition ratio (a b : nat) : Q := Z.of_nat a # Pos.of_nat b.

(** The separator class of the sentence split: '.', '!', '?' and the
    full-width forms U+3002, U+FF01, U+FF1F. *)
Definition isSentenceEnd (c : N) : bool :=
  ((c =? 46) || (c =? 33) || (c =? 63)
   || (c =? 12290) || (c =? 65281) || (c =? 65311))%N.

(** [s.split(/\n\n+/)] *)
Fixpoint split_paragraphs_go (s cur : jsstring) (insep : bool)
  : list jsstring :=
  match s with
  | [] => [rev cur]
  | c :: r =>
      if (c =? 10)%N then
        if insep then split_paragraphs_go r cur true
        else match r with
             | c' :: _ =>
                 if (c' =? 10)%N then rev cur :: split_paragraphs_go r [] true
                 else split_paragraphs_go r (c :: cur) false
             | [] => split_paragraphs_go r (c :: cur) false
             end
      else split_paragraphs_go r (c :: cur) false
  end.

Definition split_paragraphs (s : jsstring) : list jsstring :=
  split_paragraphs_go s [] false.

(** [analyzeText]: the metrics after the call. *)
Definition analyzeText (r : revision) (h : Host) (m : WritingMetrics)
           (t : jsstring) : WritingMetrics :=
  let words := segmentText r h t in
  let totalWords_ := List.length words in
  if (totalWords_ =? 0)%nat then
    {| wpm := wpm m; totalWords := totalWords m;
       sessionDuration := sessionDuration m;
       adjectiveRatio := 0; verbRatio := 0; abstractNounRatio := 0;
       averageSentenceLength := 0;
       pauseDuration := pauseDuration m; pauseLocation := pauseLocation m;
       deletionRatio := deletionRatio m; wpmTrend := wpmTrend m;
       recentWPM := recentWPM m;
       currentParagraphLength := currentParagraphLength m;
       paragraphsSinceLastCoaching := paragraphsSinceLastCoaching m |}
  else
    let adjectives := filter (isAdjective r h) words in
    let verbs := filter (isVerb r h) words in
    let abstractNouns := filter (isAbstractNoun r h) words in
    let sentences :=
      filter (fun s => nonEmpty (trim s)) (split_runs isSentenceEnd t) in
    let totalSentenceWords :=
      fold_left (fun sum s => sum + countWords s) sentences 0 in
    let paragraphs := split_paragraphs t in
    let lastParagraph := last paragraphs [] in
    {| wpm := wpm m; totalWords := totalWords m;
       sessionDuration := sessionDuration m;
       adjectiveRatio := ratio (List.length adjectives) totalWords_;
       verbRatio := ratio (List.length verbs) totalWords_;
       abstractNounRatio := ratio (List.length abstractNouns) totalWords_;
       averageSentenceLength :=
         if (0 <? List.length sentences)%nat
         then totalSentenceWords # Pos.of_nat (List.length sentences)
         else 0%Q;
       pauseDuration := pauseDuration m; pauseLocation := pauseLocation m;
       deletionRatio := deletionRatio m; wpmTrend := wpmTrend m;
       recentWPM := recentWPM m;
       currentParagraphLength := countWords lastParagraph;
       paragraphsSinceLastCoaching := paragraphsSinceLastCoaching m |}.

(** [x > y] on exact numbers. *)
Definition Qgtb (x y : Q) : bool := negb (Qle_bool x y).

(** [values.slice(-n)] *)
Definition sliceLast {A} (n : nat) (l : list A) : list A :=
  skipn (List.length l - n) l.

(** [a.reduce((a, b) => a + b, 0)] *)
Definition sumZ (l : list Z) : Z := fold_left Z.add l 0.

(** [calculateTrend] *)
Definition calculateTrend (values : list Z) : Trend :=
  if (List.length values <? 3)%nat then Stable
  else
    let recent := sliceLast 5 values in
    let first := sumZ (firstn 2 recent) # 2 in
    let last := sumZ (sliceLast 2 recent) # 2 in
    let diff := (last - first)%Q in
    if Qgtb diff 5 then Increasing
    else if Qgtb (-5) diff then Decreasing
    else Stable.

(** [updatePauseLocation]: the new value of [metrics.pauseLocation]. *)
Definition updatePauseLocation (ed : Editor) : PauseLocation :=
  let line := cursor_lineText ed in
  let beforeCursor := firstn (cursor_ch ed) line in
  if str_eqb (trim beforeCursor) [] then PLStart
  else if endsWith beforeCursor (js ".") || endsWith beforeCursor [12290%N]
          || endsWith beforeCursor (js "!") || endsWith beforeCursor (js "?")
  then PLEndSentence
  else if str_eqb (trim line) (trim beforeCursor)
          && (cursor_ch ed =? List.length line)%nat
  then match next_lineText ed with
       | None => PLEndParagraph
       | Some nextLine =>
           if negb (nonEmpty nextLine) || str_eqb (trim nextLine) []
           then PLEndParagraph else PLEndSentence
       end
  else PLMidSentence.

Definition set_pauseLocation (l : PauseLocation) (m : WritingMetrics)
  : WritingMetrics :=
  {| wpm := wpm m; totalWords := totalWords m;
     sessionDuration := sessionDuration m;
     adjectiveRatio := adjectiveRatio m; verbRatio := verbRatio m;
     abstractNounRatio := abstractNounRatio m;
     averageSentenceLength := averageSentenceLength m;
     pauseDuration := pauseDuration m; pauseLocation := l;
     deletionRatio := deletionRatio m; wpmTrend := wpmTrend m;
     recentWPM := recentWPM m;
     currentParagraphLength := currentParagraphLength m;
     paragraphsSinceLastCoaching := paragraphsSinceLastCoaching m |}.

(** [onEditorChange(editor)], called at time [now]. *)
Definition onEditorChange (r : revision) (st : state) (ed : Editor)
           (now : Z) : state :=
  let currentText := getValue ed in
  if isFirstEdit st then
    {| metrics := metrics st; lastText := currentText;
       lastEditTime := lastEditTime st;
       sessionStartTime := sessionStartTime st;
       editHistory := editHistory st;
       recentWPMReadings := recentWPMReadings st;
       isFirstEdit := false; isPaused := isPaused st;
       currentFilePath := currentFilePath st |}
  else
    let addedText := getAddedText r (lastText st) currentText in
    let removedText := getRemovedText (lastText st) currentText in
    let changed := nonEmpty addedText || nonEmpty removedText in
    let tenMinutesAgo := now - 600000 in
    {| metrics := set_pauseLocation (updatePauseLocation ed) (metrics st);
       lastText := currentText;
       lastEditTime := if changed then now else lastEditTime st;
       sessionStartTime := sessionStartTime st;
       editHistory :=
         if changed then
           filter (fun e => timestamp e >? tenMinutesAgo)
                  (editHistory st ++
                   [{| timestamp := now; text := addedText;
                       removed := removedText |}])
         else editHistory st;
       recentWPMReadings := recentWPMReadings st;
       isFirstEdit := false; isPaused := isPaused st;
       currentFilePath := currentFilePath st |}.

(** [recentWPMReadings.push(wpm)] followed by [shift()] past 10 entries. *)
Definition pushReading (readings : list Z) (w : Z) : list Z :=
  let pushed := readings ++ [w] in
  if (10 <? List.length pushed)%nat then tl pushed else pushed.

(** [updateMetrics]: one metrics recomputation.  [now] is the clock read
    on its first line, [nowWPM] and [nowDel] the later readings inside
    [calculateWPM] and [calculateDeletionRatio].  The listener
    [onMetricsUpdate] receives a copy of the resulting metrics. *)
Definition updateMetrics (r : revision) (h : Host) (st : state)
           (now nowWPM nowDel : Z) : state :=
  let m0 := metrics st in
  let wpm_ := calculateWPM st nowWPM in
  let readings := pushReading (recentWPMReadings st) wpm_ in
  let m1 :=
    {| wpm := wpm_; totalWords := totalWords m0;
       sessionDuration := (now - sessionStartTime st) # 60000;
       adjectiveRatio := adjectiveRatio m0; verbRatio := verbRatio m0;
       abstractNounRatio := abstractNounRatio m0;
       averageSentenceLength := averageSentenceLength m0;
       pauseDuration := pauseDuration m0; pauseLocation := pauseLocation m0;
       deletionRatio := deletionRatio m0;
       wpmTrend := calculateTrend readings; recentWPM := readings;
       currentParagraphLength := currentParagraphLength m0;
       paragraphsSinceLastCoaching := paragraphsSinceLastCoaching m0 |} in
  let m2 := if nonEmpty (lastText st)
            then analyzeText r h m1 (lastText st) else m1 in
  let m3 :=
    {| wpm := wpm m2; totalWords := countWords (lastText st);
       sessionDuration := sessionDuration m2;
       adjectiveRatio := adjectiveRatio m2; verbRatio := verbRatio m2;
       abstractNounRatio := abstractNounRatio m2;
       averageSentenceLength := averageSentenceLength m2;
       pauseDuration := (now - lastEditTime st) # 1000;
       pauseLocation := pauseLocation m2;
       deletionRatio := calculateDeletionRatio st nowDel;
       wpmTrend := wpmTrend m2; recentWPM := recentWPM m2;
       currentParagraphLength := currentParagraphLength m2;
       paragraphsSinceLastCoaching := paragraphsSinceLastCoaching m2 |} in
  {| metrics := m3; lastText := lastText st;
     lastEditTime := lastEditTime st;
     sessionStartTime := sessionStartTime st;
     editHistory := editHistory st;
     recentWPMReadings := readings;
     isFirstEdit := isFirstEdit st; isPaused := isPaused st;
     currentFilePath := currentFilePath st |}.

(** [getMetrics] *)
Definition getMetrics (st : state) : WritingMetrics := metrics st.

(** [reset], called at time [now]; [isPaused] and [currentFilePath] are
    left as they are. *)
Definition reset (st : state) (now : Z) : state :=
  {| metrics := getDefaultMetrics; lastText := []; lastEditTime := now;
     sessionStartTime := now; editHistory := []; recentWPMReadings := [];
     isFirstEdit := true; isPaused := isPaused st;
     currentFilePath := currentFilePath st |}.

(** [resetForNewFile] (revision [Segmenting] only) *)
Definition resetForNewFile (st : state) (filePath : jsstring) (now : Z)
  : state :=
  if str_eqb filePath (currentFilePath st) then st
  else
    {| metrics := metrics st; lastText := []; lastEditTime := now;
       sessionStartTime := sessionStartTime st; editHistory := [];
       recentWPMReadings := recentWPMReadings st;
       isFirstEdit := true; isPaused := isPaused st;
       currentFilePath := filePath |}.

(** [pause] (revision [Segmenting] only) *)
Definition pause (st : state) : state :=
  {| metrics := metrics st; lastText := lastText st;
     lastEditTime := lastEditTime st;
     sessionStartTime := sessionStartTime st;
     editHistory := editHistory st;
     recentWPMReadings := recentWPMReadings st;
     isFirstEdit := isFirstEdit st; isPaused := true;
     currentFilePath := currentFilePath st |}.

(** [resume] (revision [Segmenting] only), called at time [now]. *)
Definition resume (st : state) (now : Z) : state :=
  {| metrics := metrics st; lastText := lastText st;
     lastEditTime := now;
     sessionStartTime := sessionStartTime st;
     editHistory := editHistory st;
     recentWPMReadings := recentWPMReadings st;
     isFirstEdit := isFirstEdit st; isPaused := false;
     currentFilePath := currentFilePath st |}.

(** [markCoachingEvent] *)
Definition markCoachingEvent (st : state) : state :=
  let m := metrics st in
  {| metrics :=
       {| wpm := wpm m; totalWords := totalWords m;
          sessionDuration := sessionDuration m;
          adjectiveRatio := adjectiveRatio m; verbRatio := verbRatio m;
          abstractNounRatio := abstractNounRatio m;
          averageSentenceLength := averageSentenceLength m;
          pauseDuration := pauseDuration m;
          pauseLocation := pauseLocation m;
          deletionRatio := deletionRatio m; wpmTrend := wpmTrend m;
          recentWPM := recentWPM m;
          currentParagraphLength := currentParagraphLength m;
          paragraphsSinceLastCoaching := 0 |};
     lastText := lastText st;
     lastEditTime := lastEditTime st;
     sessionStartTime := sessionStartTime st;
     editHistory := editHistory st;
     recentWPMReadings := recentWPMReadings st;
     isFirstEdit := isFirstEdit st; isPaused := isPaused st;
     currentFilePath := currentFilePath st |}.

(** What happens to a sensor: the host reports a change, the 5-second
    timer recomputes the metrics, or one of the other public methods is
    called. *)
Inductive event :=
| Change (ed : Editor) (now : Z)
| Recompute (now nowWPM nowDel : Z)
| NewFile (filePath : jsstring) (now : Z)
| PauseSensor
| ResumeSensor (now : Z)
| MarkCoaching
| ResetSensor (now : Z).

Definition step (r : revision) (h : Host) (st : state) (e : event) : state :=
  match e with
  | Change ed now => onEditorChange r st ed now
  | Recompute now nowWPM nowDel => updateMetrics r h st now nowWPM nowDel
  | NewFile p now => resetForNewFile st p now
  | PauseSensor => pause st
  | ResumeSensor now => resume st now
  | MarkCoaching => markCoachingEvent st
  | ResetSensor now => reset st now
  end.

Definition run (r : revision) (h : Host) (st : state) (es : list event)
  : state :=
  fold_left (step r h) es st.

End Sensor.

(* ================================================================== *)
(** ** trigger-engine.ts: conditions *)
(* ================================================================== *)

Module Evaluator.
Import JS Types.

(** The values [evaluateCondition] is called on, [metrics[metricKey]]:
    a number, a string, an array of numbers, a boolean, or [undefined]
    for a key the metrics do not have. *)
Inductive jsval :=
| VUndefined
| VBool (b : bool)
| VNum (n : jsnum)
| VStr (s : jsstring)
| VArr (l : list jsnum).

(** [parseFloat(value)] for a value that is not a number.  The argument
    is first converted to a string: "undefined", "true" and "false" hold
    no number; an array becomes its members joined by commas, of which
    [parseFloat] reads the first member and gets back that number. *)
Definition parseFloatOf (v : jsval) : jsnum :=
  match v with
  | VUndefined => NaN
  | VBool _ => NaN
  | VNum n => n
  | VStr s => parseFloat s
  | VArr [] => NaN
  | VArr (n :: _) => n
  end.

(** [value === condition], the right side being a string. *)
Definition strictEqStr (v : jsval) (s : jsstring) : bool :=
  match v with VStr t => str_eqb t s | _ => false end.

(** [value === true] and [value === false]. *)
Definition strictEqBool (v : jsval) (b : bool) : bool :=
  match v with VBool c => Bool.eqb c b | _ => false end.

Inductive operator := OpGt | OpLt | OpGe | OpLe | OpEq.

(** The regular expression of [evaluateCondition] is an operator (its
    first group: [>], [<], [>=], [<=] or [=]), any white space, and a
    numeral (its second group: an optional [-], digits, an optional
    point, any digits).  [matchNumeral] tries the part after the
    operator at [s] and gives the text of the second group.  Every quantifier is greedy and none
    of them has to give anything back, since what follows a run of white
    space, a sign or a run of digits can never start with a member of
    that run. *)
Definition matchNumeral (s : jsstring) : option jsstring :=
  let r1 := dropWhile isWhiteSpace s in
  let (sign, r2) :=
    match r1 with
    | c :: r => if (c =? 45)%N then ([45%N], r) else ([], r1)
    | [] => ([], r1)
    end in
  let (intDigits, r3) := span isDigit r2 in
  if nonEmpty intDigits then
    let (point, r4) :=
      match r3 with
      | c :: r => if (c =? 46)%N then ([46%N], r) else ([], r3)
      | [] => ([], r3)
      end in
    let (fracDigits, _) := span isDigit r4 in
    Some (sign ++ intDigits ++ point ++ fracDigits)
  else None.

(** What follows a leading [=], if [s] starts with one. *)
Definition afterEquals (s : jsstring) : option jsstring :=
  match s with
  | c :: r => if (c =? 61)%N then Some r else None
  | [] => None
  end.

(** The whole regular expression tried at the first code unit of [s].
    After [>] or [<] the optional [=] is taken when it is there: without
    it the numeral would have to start with that [=]. *)
Definition matchHere (s : jsstring) : option (operator * jsstring) :=
  match s with
  | [] => None
  | c :: r =>
      if (c =? 62)%N then
        match afterEquals r with
        | Some r' => option_map (pair OpGe) (matchNumeral r')
        | None => option_map (pair OpGt) (matchNumeral r)
        end
      else if (c =? 60)%N then
        match afterEquals r with
        | Some r' => option_map (pair OpLe) (matchNumeral r')
        | None => option_map (pair OpLt) (matchNumeral r)
        end
      else if (c =? 61)%N then option_map (pair OpEq) (matchNumeral r)
      else None
  end.

(** [condition.match(re)]: the leftmost match, as the pair of its two
    groups. *)
Fixpoint numericMatch (s : jsstring) : option (operator * jsstring) :=
  match matchHere s with
  | Some m => Some m
  | None =>
      match s with
      | [] => None
      | _ :: r => numericMatch r
      end
  end.

Definition compareNum (op : operator) (numValue threshold : jsnum) : bool :=
  match op with
  | OpGt => num_ltb threshold numValue
  | OpLt => num_ltb numValue threshold
  | OpGe => num_leb threshold numValue
  | OpLe => num_leb numValue threshold
  | OpEq => num_eqb numValue threshold
  end.

Definition trendKeywords : list jsstring :=
  map js ["increasing"; "decreasing"; "stable"]%string.

Definition pauseKeywords : list jsstring :=
  map js ["start"; "mid-sentence"; "end-sentence"; "end-paragraph"]%string.

Definition isKeyword (ks : list jsstring) (c : jsstring) : bool :=
  existsb (str_eqb c) ks.

(** [evaluateCondition] *)
Definition evaluateCondition (value : jsval) (condition : jsstring) : bool :=
  match numericMatch condition with
  | Some (op, numeral) =>
      let threshold := parseFloat numeral in
      let numValue :=
        match value with VNum n => n | _ => parseFloatOf value end in
      if isNaN numValue then false
      else compareNum op numValue threshold
  | None =>
      if isKeyword trendKeywords condition then strictEqStr value condition
      else if isKeyword pauseKeywords condition
      then strictEqStr value condition
      else if str_eqb condition (js "true") then strictEqBool value true
      else if str_eqb condition (js "false") then strictEqBool value false
      else false
  end.

Definition pauseLocationName (l : PauseLocation) : jsstring :=
  match l with
  | PLStart => js "start"
  | PLMidSentence => js "mid-sentence"
  | PLEndSentence => js "end-sentence"
  | PLEndParagraph => js "end-paragraph"
  | PLUnknown => js "unknown"
  end.

Definition trendName (t : Trend) : jsstring :=
  match t with
  | Increasing => js "increasing"
  | Decreasing => js "decreasing"
  | Stable => js "stable"
  end.

Definition intVal (z : Z) : jsval := VNum (Fin (inject_Z z)).

(** [metrics[metricKey]].  A key that is no field of the metrics gives
    [undefined]; the members every object inherits ("constructor",
    "toString", ...) are functions, on which [evaluateCondition] answers
    as it does on [undefined]. *)
Definition metricValue (m : WritingMetrics) (key : jsstring) : jsval :=
  if str_eqb key (js "wpm") then intVal (wpm m)
  else if str_eqb key (js "totalWords") then intVal (totalWords m)
  else if str_eqb key (js "sessionDuration")
  then VNum (Fin (sessionDuration m))
  else if str_eqb key (js "adjectiveRatio") then VNum (Fin (adjectiveRatio m))
  else if str_eqb key (js "verbRatio") then VNum (Fin (verbRatio m))
  else if str_eqb key (js "abstractNounRatio")
  then VNum (Fin (abstractNounRatio m))
  else if str_eqb key (js "averageSentenceLength")
  then VNum (Fin (averageSentenceLength m))
  else if str_eqb key (js "pauseDuration") then VNum (Fin (pauseDuration m))
  else if str_eqb key (js "pauseLocation")
  then VStr (pauseLocationName (pauseLocation m))
  else if str_eqb key (js "deletionRatio") then VNum (Fin (deletionRatio m))
  else if str_eqb key (js "wpmTrend") then VStr (trendName (wpmTrend m))
  else if str_eqb key (js "recentWPM")
  then VArr (map (fun z => Fin (inject_Z z)) (recentWPM m))
  else if str_eqb key (js "currentParagraphLength")
  then intVal (currentParagraphLength m)
  else if str_eqb key (js "paragraphsSinceLastCoaching")
  then intVal (paragraphsSinceLastCoaching m)
  else VUndefined.

(** [TriggerConditions]: the entries of the object, in the order
    [Object.entries] yields them. *)
Definition TriggerConditions := list (jsstring * jsstring).

(** [evaluateConditions] *)
Fixpoint evaluateConditions (conditions : TriggerConditions)
         (m : WritingMetrics) : bool :=
  match conditions with
  | [] => true
  | (key, condition) :: rest =>
      let metricKey :=
        if str_eqb key (js "duration") then js "sessionDuration" else key in
      let value := metricValue m metricKey in
      if negb (evaluateCondition value condition) then false
      else evaluateConditions rest m
  end.

End Evaluator.

(* ================================================================== *)
(** ** trigger-engine.ts: the engine *)
(* ================================================================== *)

Module Engine.
Import JS Types Evaluator.

Inductive Priority := High | Medium | Low.

(** [TriggerRule] *)
Record TriggerRule := {
  name : jsstring;
  description : jsstring;
  conditions : TriggerConditions;
  appliesTo : list jsstring;
  timing_delay : Z;
  priority : Priority;
  coachingStyle : jsstring;
  enableChat : bool;
  systemPrompt : jsstring;
  initialMessage : option jsstring
}.

Record ConversationRules := {
  autoCloseOnWriting : bool;
  maxConversationLength : Z
}.

(** [TriggerRules.globalSettings]; [priorityOverride] holds the field
    [high] when the object is there. *)
Record GlobalSettings := {
  minimumIntervalBetweenTriggers : Z;
  priorityOverride : option Z;
  conversationRules : option ConversationRules
}.

(** [TriggerRules]; [triggers] lists the entries of the object in the
    order [Object.entries] yields them. *)
Record TriggerRules := {
  triggers : list (jsstring * TriggerRule);
  globalSettings : GlobalSettings
}.

Record WritingContext := {
  writingType : jsstring;
  recentContent : jsstring;
  currentFile : jsstring
}.

Record TriggerResult := {
  triggerName : jsstring;
  rule : TriggerRule;
  result_metrics : WritingMetrics;
  context : WritingContext
}.

Record TriggerEvent := {
  event_name : jsstring;
  event_timestamp : Z;
  event_metrics : WritingMetrics;
  event_writingType : jsstring
}.

(** The fields of a [TriggerEngine]; the timer handle [checkInterval] and
    the listener [onTrigger] are kept apart. *)
Record engine := {
  rules : TriggerRules;
  lastTriggerTime : Z;
  triggerHistory : list TriggerEvent;
  isPaused : bool;
  devMode : bool
}.

(** [onTrigger]: nothing, or a callback.  The callback runs in the middle
    of the engine's method and may call the engine back, so it is given
    the engine and returns it. *)
Definition listener := option (TriggerResult -> engine -> engine).

(** [this.onTrigger?.(result)] *)
Definition notify (onTrigger : listener) (result : TriggerResult)
           (st : engine) : engine :=
  match onTrigger with
  | Some callback => callback result st
  | None => st
  end.

(** [new TriggerEngine(rules)] *)
Definition create (rs : TriggerRules) : engine :=
  {| rules := rs; lastTriggerTime := 0; triggerHistory := [];
     isPaused := false; devMode := false |}.

Definition pause (st : engine) : engine :=
  {| rules := rules st; lastTriggerTime := lastTriggerTime st;
     triggerHistory := triggerHistory st; isPaused := true;
     devMode := devMode st |}.

Definition resume (st : engine) : engine :=
  {| rules := rules st; lastTriggerTime := lastTriggerTime st;
     triggerHistory := triggerHistory st; isPaused := false;
     devMode := devMode st |}.

Definition updateRules (st : engine) (rs : TriggerRules) : engine :=
  {| rules := rs; lastTriggerTime := lastTriggerTime st;
     triggerHistory := triggerHistory st; isPaused := isPaused st;
     devMode := devMode st |}.

Definition setDevMode (st : engine) (enabled : bool) : engine :=
  {| rules := rules st; lastTriggerTime := lastTriggerTime st;
     triggerHistory := triggerHistory st; isPaused := isPaused st;
     devMode := enabled |}.

Definition reset (st : engine) : engine :=
  {| rules := rules st; lastTriggerTime := 0; triggerHistory := [];
     isPaused := isPaused st; devMode := devMode st |}.

(** [arr.includes(s)] *)
Definition includes (arr : list jsstring) (s : jsstring) : bool :=
  existsb (str_eqb s) arr.

(** [appliesToType] *)
Definition appliesToType (rl : TriggerRule) (wt : jsstring) : bool :=
  if includes (appliesTo rl) (js "all") then true
  else includes (appliesTo rl) wt.

(** [minInterval] of [checkTriggers], in milliseconds. *)
Definition minInterval (st : engine) : Z :=
  if devMode st then 60000
  else minimumIntervalBetweenTriggers (globalSettings (rules st)) * 1000.

(** [priorityOverride?.high || 180]: 180 when the object is missing and
    when [high] is 0. *)
Definition highOverride (gs : GlobalSettings) : Z :=
  match priorityOverride gs with
  | Some high => if high =? 0 then 180 else high
  | None => 180
  end.

(** [highPriorityInterval] of [checkTriggers], in milliseconds. *)
Definition highPriorityInterval (st : engine) : Z :=
  if devMode st then 30000
  else highOverride (globalSettings (rules st)) * 1000.

Definition isHigh (p : Priority) : bool :=
  match p with High => true | _ => false end.

(** [requiredInterval] for a rule *)
Definition requiredInterval (st : engine) (rl : TriggerRule) : Z :=
  if isHigh (priority rl) then highPriorityInterval st else minInterval st.

(** [triggerHistory.push(event)], then [slice(-100)] past 100 entries. *)
Definition pushEvent (h : list TriggerEvent) (ev : TriggerEvent)
  : list TriggerEvent :=
  let pushed := h ++ [ev] in
  if (100 <? List.length pushed)%nat
  then skipn (List.length pushed - 100) pushed
  else pushed.

(** The engine once a fire at [now] is recorded, before the listener
    is told. *)
Definition recordFire (st : engine) (now : Z) (tname : jsstring)
           (m : WritingMetrics) (wt : jsstring) : engine :=
  {| rules := rules st;
     lastTriggerTime := now;
     triggerHistory :=
       pushEvent (triggerHistory st)
                 {| event_name := tname; event_timestamp := now;
                    event_metrics := m; event_writingType := wt |};
     isPaused := isPaused st;
     devMode := devMode st |}.

(** The [for] loop of [checkTriggers] over the remaining entries. *)
Fixpoint checkLoop (onTrigger : listener) (st : engine) (now : Z)
         (m : WritingMetrics) (wt : jsstring) (ctx : WritingContext)
         (entries : list (jsstring * TriggerRule))
  : engine * option TriggerResult :=
  match entries with
  | [] => (st, None)
  | (tname, rl) :: rest =>
      if negb (appliesToType rl wt)
      then checkLoop onTrigger st now m wt ctx rest
      else if evaluateConditions (conditions rl) m then
        let timeSinceLastTrigger := now - lastTriggerTime st in
        if timeSinceLastTrigger <? requiredInterval st rl
        then checkLoop onTrigger st now m wt ctx rest
        else
          let st1 := recordFire st now tname m wt in
          let result :=
            {| triggerName := tname; rule := rl;
               result_metrics := m; context := ctx |} in
          (notify onTrigger result st1, Some result)
      else checkLoop onTrigger st now m wt ctx rest
  end.

(** [checkTriggers(metrics, writingType, context)], called at [now]. *)
Definition checkTriggers (onTrigger : listener) (st : engine) (now : Z)
           (m : WritingMetrics) (wt : jsstring) (ctx : WritingContext)
  : engine * option TriggerResult :=
  if isPaused st then (st, None)
  else checkLoop onTrigger st now m wt ctx (triggers (rules st)).

(** [this.rules.triggers[triggerName]] for the names the object holds
    itself; the members it inherits from [Object.prototype] are left
    out. *)
Fixpoint lookupRule (entries : list (jsstring * TriggerRule))
         (tname : jsstring) : option TriggerRule :=
  match entries with
  | [] => None
  | (k, rl) :: rest => if str_eqb k tname then Some rl else lookupRule rest tname
  end.

(** [forceTrigger(triggerName, metrics, context)] *)
Definition forceTrigger (onTrigger : listener) (st : engine)
           (tname : jsstring) (m : WritingMetrics) (ctx : WritingContext)
  : engine * option TriggerResult :=
  match lookupRule (triggers (rules st)) tname with
  | None => (st, None)
  | Some rl =>
      let result :=
        {| triggerName := tname; rule := rl;
           result_metrics := m; context := ctx |} in
      (notify onTrigger result st, Some result)
  end.

(** [getTimeUntilNextTrigger], called at [now]. *)
Definition getTimeUntilNextTrigger (st : engine) (now : Z) : Z :=
  Z.max 0 (minInterval st - (now - lastTriggerTime st)).

(** A call on the engine. *)
Inductive call :=
| Tick (now : Z) (m : WritingMetrics) (wt : jsstring) (ctx : WritingContext)
| Force (tname : jsstring) (m : WritingMetrics) (ctx : WritingContext)
| Pause
| Resume
| UpdateRules (rs : TriggerRules)
| SetDevMode (enabled : bool)
| Reset.

(** What a call gives back to its caller: for a tick that fired, the
    time of the tick and the result; for a forced trigger, the result. *)
Inductive outcome :=
| Scheduled (now : Z) (res : TriggerResult)
| Forced (res : TriggerResult)
| Quiet.

Definition exec (onTrigger : listener) (st : engine) (c : call)
  : engine * outcome :=
  match c with
  | Tick now m wt ctx =>
      let (st', res) := checkTriggers onTrigger st now m wt ctx in
      (st', match res with Some r => Scheduled now r | None => Quiet end)
  | Force tname m ctx =>
      let (st', res) := forceTrigger onTrigger st tname m ctx in
      (st', match res with Some r => Forced r | None => Quiet end)
  | Pause => (pause st, Quiet)
  | Resume => (resume st, Quiet)
  | UpdateRules rs => (updateRules st rs, Quiet)
  | SetDevMode b => (setDevMode st b, Quiet)
  | Reset => (reset st, Quiet)
  end.

(** A sequence of calls: the engine at the end and the outcomes in order. *)
Fixpoint execAll (onTrigger : listener) (st : engine) (cs : list call)
  : engine * list outcome :=
  match cs with
  | [] => (st, [])
  | c :: rest =>
      let (st1, o) := exec onTrigger st c in
      let (st2, os) := execAll onTrigger st1 rest in
      (st2, o :: os)
  end.

(** The fires of the scheduler among the outcomes, oldest first. *)
Fixpoint scheduledFires (os : list outcome) : list (Z * TriggerResult) :=
  match os with
  | [] => []
  | Scheduled now r :: rest => (now, r) :: scheduledFires rest
  | _ :: rest => scheduledFires rest
  end.

(** [getDefaultTriggerRules] of config-manager.ts *)
Definition rushing : TriggerRule :=
  {| name := js "Writing Too Fast";
     description := js "User is moving through material quickly";
     conditions := [ (js "wpm", js "> 40");
                     (js "adjectiveRatio", js "< 0.05");
                     (js "duration", js "> 120") ];
     appliesTo := [js "scene"; js "observation"];
     timing_delay := 30;
     priority := Medium;
     coachingStyle := js "gentle-brake";
     enableChat := false;
     systemPrompt :=
       js "The user is writing quickly. Gently remind them to slow down.";
     initialMessage := None |}.

Definition stuck : TriggerRule :=
  {| name := js "Stuck/Blocked";
     description := js "User has paused for extended period";
     conditions := [ (js "pauseDuration", js "> 180");
                     (js "currentParagraphLength", js "< 50") ];
     appliesTo := [js "all"];
     timing_delay := 0;
     priority := High;
     coachingStyle := js "conversational";
     enableChat := true;
     systemPrompt :=
       js "The user has been paused. Open with a gentle acknowledgment.";
     initialMessage :=
       Some (js "Paused here for a bit. Want to talk about what's happening?")
  |}.

Definition getDefaultTriggerRules : TriggerRules :=
  {| triggers := [ (js "rushing", rushing); (js "stuck", stuck) ];
     globalSettings :=
       {| minimumIntervalBetweenTriggers := 300;
          priorityOverride := Some 180;
          conversationRules :=
            Some {| autoCloseOnWriting := true;
                    maxConversationLength := 10 |} |} |}.

End Engine.

(* ================================================================== *)
(** ** main.ts, coaching-view.ts, claude-client.ts: the conversation *)
(* ================================================================== *)

Module Session.
Import JS Types Engine.

Inductive Role := User | Assistant.

(** [ConversationMessage] *)
Record ConversationMessage := {
  role : Role;
  content : jsstring;
  msg_timestamp : Z
}.

Inductive MessageType := Single | ConversationStart.

(** [CoachingMessage] *)
Record CoachingMessage := {
  msg_type : MessageType;
  message : jsstring;
  msg_triggerName : jsstring;
  cm_timestamp : Z;
  cm_context : WritingContext;
  cm_metrics : WritingMetrics
}.

(** What the coaching section of the panel holds. *)
Inductive Panel :=
| NoPanel
| Coaching (cm : CoachingMessage)
| ErrorPanel (text : jsstring).

(** A [CoachingView] whose panel is open ([onOpen] has built
    [coachingEl] and [chatEl]).  [chatRendered] is what the
    [.chat-history] element shows, when [chatEl] holds one. *)
Record View := {
  coachingVisible : bool;
  loading : bool;
  panel : Panel;
  chatVisible : bool;
  chatRendered : option (list ConversationMessage);
  isInConversation : bool;
  conversationHistory : list ConversationMessage
}.

(** The fields of [ClaudeClient] the conversation uses; [hasApiKey] is
    [apiKey.length > 0]. *)
Record Client := {
  hasApiKey : bool;
  client_history : list ConversationMessage
}.

(** A call of the backend that has not returned yet. *)
Inductive request :=
| ReqCoaching (res : TriggerResult) (userMessage : jsstring)
| ReqChat.

(** The plugin while its panel is open.  [triggerRules] is what
    [configManager.getTriggerRules()] returns; [inflight] lists the
    pending [callAPI] promises, oldest first. *)
Record plugin := {
  coachingView : View;
  claudeClient : Client;
  lastContent : jsstring;
  triggerRules : TriggerRules;
  enabledTriggers : list jsstring;
  inflight : list request
}.

(** *** CoachingView *)

(** [updateChatHistory] on the element found by [querySelector], if any. *)
Definition rerender (v : View) (h : list ConversationMessage)
  : option (list ConversationMessage) :=
  match chatRendered v with
  | Some _ => Some h
  | None => None
  end.

(** [showChatInterface] *)
Definition showChatInterface (v : View) : View :=
  {| coachingVisible := coachingVisible v; loading := loading v;
     panel := panel v;
     chatVisible := true;
     chatRendered := Some (conversationHistory v);
     isInConversation := true;
     conversationHistory := conversationHistory v |}.

(** [hideChatInterface] *)
Definition hideChatInterface (v : View) : View :=
  {| coachingVisible := coachingVisible v; loading := loading v;
     panel := panel v;
     chatVisible := false;
     chatRendered := chatRendered v;
     isInConversation := false;
     conversationHistory := [] |}.

(** [addChatMessage] *)
Definition addChatMessage (v : View) (msg : ConversationMessage) : View :=
  let h := conversationHistory v ++ [msg] in
  {| coachingVisible := coachingVisible v; loading := loading v;
     panel := panel v;
     chatVisible := chatVisible v;
     chatRendered := rerender v h;
     isInConversation := isInConversation v;
     conversationHistory := h |}.

(** [showCoaching] *)
Definition showCoaching (v : View) (cm : CoachingMessage) : View :=
  let v1 :=
    {| coachingVisible := true; loading := false; panel := Coaching cm;
       chatVisible := chatVisible v; chatRendered := chatRendered v;
       isInConversation := isInConversation v;
       conversationHistory := conversationHistory v |} in
  match msg_type cm with
  | ConversationStart => showChatInterface v1
  | Single => v1
  end.

(** [hideCoaching] *)
Definition hideCoaching (v : View) : View :=
  hideChatInterface
    {| coachingVisible := false; loading := loading v; panel := panel v;
       chatVisible := chatVisible v; chatRendered := chatRendered v;
       isInConversation := isInConversation v;
       conversationHistory := conversationHistory v |}.

(** [showLoading] *)
Definition showLoading (v : View) : View :=
  if loading v then v
  else
    {| coachingVisible := true; loading := true; panel := panel v;
       chatVisible := chatVisible v; chatRendered := chatRendered v;
       isInConversation := isInConversation v;
       conversationHistory := conversationHistory v |}.

(** [hideLoading] *)
Definition hideLoading (v : View) : View :=
  {| coachingVisible := coachingVisible v; loading := false;
     panel := panel v;
     chatVisible := chatVisible v; chatRendered := chatRendered v;
     isInConversation := isInConversation v;
     conversationHistory := conversationHistory v |}.

(** [showError] *)
Definition showError (v : View) (text : jsstring) : View :=
  {| coachingVisible := true; loading := false; panel := ErrorPanel text;
     chatVisible := chatVisible v; chatRendered := chatRendered v;
     isInConversation := isInConversation v;
     conversationHistory := conversationHistory v |}.

(** *** ClaudeClient *)

(** [resetConversation] *)
Definition resetConversation (c : Client) : Client :=
  {| hasApiKey := hasApiKey c; client_history := [] |}.

Definition pushMessage (c : Client) (msg : ConversationMessage) : Client :=
  {| hasApiKey := hasApiKey c; client_history := client_history c ++ [msg] |}.

(** [isInConversation] of the client *)
Definition clientInConversation (c : Client) : bool :=
  match client_history c with [] => false | _ => true end.

Definition noKeyCoaching : jsstring :=
  js "Please add your Claude API key in settings to enable coaching.".

Definition noKeyChat : jsstring :=
  js "Please add your Claude API key in settings.".

(** *** WritingCoachPlugin *)

Definition with_view (p : plugin) (v : View) : plugin :=
  {| coachingView := v; claudeClient := claudeClient p;
     lastContent := lastContent p; triggerRules := triggerRules p;
     enabledTriggers := enabledTriggers p; inflight := inflight p |}.

Definition with_client (p : plugin) (c : Client) : plugin :=
  {| coachingView := coachingView p; claudeClient := c;
     lastContent := lastContent p; triggerRules := triggerRules p;
     enabledTriggers := enabledTriggers p; inflight := inflight p |}.

Definition with_inflight (p : plugin) (l : list request) : plugin :=
  {| coachingView := coachingView p; claudeClient := claudeClient p;
     lastContent := lastContent p; triggerRules := triggerRules p;
     enabledTriggers := enabledTriggers p; inflight := l |}.

(** [globalSettings.conversationRules?.autoCloseOnWriting], as a
    condition. *)
Definition autoClose (rs : TriggerRules) : bool :=
  match conversationRules (globalSettings rs) with
  | Some cr => autoCloseOnWriting cr
  | None => false
  end.

(** [onEditorChange(editor)] with [editor.getValue()] being [content];
    its call of [sensor.onEditorChange] acts on the sensor alone. *)
Definition onEditorChange (p : plugin) (content : jsstring) : plugin :=
  let p1 :=
    if isInConversation (coachingView p)
       && negb (str_eqb content (lastContent p))
    then
      if autoClose (triggerRules p) then
        with_client (with_view p (hideChatInterface (coachingView p)))
                    (resetConversation (claudeClient p))
      else p
    else p in
  {| coachingView := coachingView p1; claudeClient := claudeClient p1;
     lastContent := content; triggerRules := triggerRules p1;
     enabledTriggers := enabledTriggers p1; inflight := inflight p1 |}.

(** The end of [handleTrigger] once [generateCoaching] has returned
    [text]: the message is shown. *)
Definition coachingDone (p : plugin) (res : TriggerResult)
           (text : jsstring) (now : Z) : plugin :=
  let cm :=
    {| msg_type := if enableChat (rule res)
                   then ConversationStart else Single;
       message := text;
       msg_triggerName := name (rule res);
       cm_timestamp := now;
       cm_context := context res;
       cm_metrics := result_metrics res |} in
  with_view p (showCoaching (hideLoading (coachingView p)) cm).

(** [handleTrigger(result)] up to the point where it waits for the
    backend.  [userMessage] is the text [buildUserMessage] makes. *)
Definition handleTrigger (p : plugin) (res : TriggerResult)
           (userMessage : jsstring) (now : Z) : plugin :=
  if negb (includes (enabledTriggers p) (triggerName res)) then p
  else
    let p1 := with_view p (showLoading (coachingView p)) in
    if hasApiKey (claudeClient p1)
    then with_inflight p1 (inflight p1 ++ [ReqCoaching res userMessage])
    else coachingDone p1 res noKeyCoaching now.

(** [handleChatMessage(message)] up to the point where it waits for the
    backend. *)
Definition handleChatMessage (p : plugin) (text : jsstring) (now : Z)
  : plugin :=
  let userMsg := {| role := User; content := text; msg_timestamp := now |} in
  let p1 := with_view p (addChatMessage (coachingView p) userMsg) in
  if hasApiKey (claudeClient p1) then
    with_inflight (with_client p1 (pushMessage (claudeClient p1) userMsg))
                  (inflight p1 ++ [ReqChat])
  else
    with_view p1
      (addChatMessage (coachingView p1)
         {| role := Assistant; content := noKeyChat; msg_timestamp := now |}).

Fixpoint removeNth {A} (n : nat) (l : list A) : list A :=
  match l, n with
  | [], _ => []
  | _ :: r, O => r
  | x :: r, S k => x :: removeNth k r
  end.

(** The backend answers the [n]-th pending call with [text]: the rest of
    [generateCoaching] and [handleTrigger], or of [continueConversation]
    and [handleChatMessage], runs. *)
Definition backendReply (p : plugin) (n : nat) (text : jsstring) (now : Z)
  : plugin :=
  match nth_error (inflight p) n with
  | None => p
  | Some req =>
      let p1 := with_inflight p (removeNth n (inflight p)) in
      match req with
      | ReqCoaching res userMessage =>
          let c := claudeClient p1 in
          let c1 :=
            if enableChat (rule res) then
              {| hasApiKey := hasApiKey c;
                 client_history :=
                   [ {| role := User; content := userMessage;
                        msg_timestamp := now |};
                     {| role := Assistant; content := text;
                        msg_timestamp := now |} ] |}
            else c in
          coachingDone (with_client p1 c1) res text now
      | ReqChat =>
          let reply :=
            {| role := Assistant; content := text; msg_timestamp := now |} in
          let p2 := with_client p1 (pushMessage (claudeClient p1) reply) in
          with_view p2 (addChatMessage (coachingView p2) reply)
      end
  end.

(** The [n]-th pending call fails with the error message [err]: the
    [catch] blocks run. *)
Definition backendFailure (p : plugin) (n : nat) (err : jsstring) : plugin :=
  match nth_error (inflight p) n with
  | None => p
  | Some req =>
      let p1 := with_inflight p (removeNth n (inflight p)) in
      match req with
      | ReqCoaching _ _ =>
          with_view p1 (showError (hideLoading (coachingView p1)) err)
      | ReqChat => with_view p1 (showError (coachingView p1) err)
      end
  end.

(** The close button of the coaching message: [hideCoaching], then
    [onDismiss]. *)
Definition clickClose (p : plugin) : plugin :=
  with_client (with_view p (hideCoaching (coachingView p)))
              (resetConversation (claudeClient p)).

(** The two feedback buttons: [onFeedback], then [hideCoaching]. *)
Definition clickFeedback (p : plugin) : plugin :=
  with_view p (hideCoaching (coachingView p)).

Inductive event :=
| EditorChange (content : jsstring)
| TriggerFired (res : TriggerResult) (userMessage : jsstring) (now : Z)
| ChatMessage (text : jsstring) (now : Z)
| Reply (n : nat) (text : jsstring) (now : Z)
| Failure (n : nat) (err : jsstring)
| ClickClose
| ClickFeedback
| ConfigReload (rs : TriggerRules).

Definition step (p : plugin) (e : event) : plugin :=
  match e with
  | EditorChange content => onEditorChange p content
  | TriggerFired res userMessage now => handleTrigger p res userMessage now
  | ChatMessage text now => handleChatMessage p text now
  | Reply n text now => backendReply p n text now
  | Failure n err => backendFailure p n err
  | ClickClose => clickClose p
  | ClickFeedback => clickFeedback p
  | ConfigReload rs =>
      {| coachingView := coachingView p; claudeClient := claudeClient p;
         lastContent := lastContent p; triggerRules := rs;
         enabledTriggers := enabledTriggers p; inflight := inflight p |}
  end.

Definition run (p : plugin) (es : list event) : plugin := fold_left step es p.

(** The panel as [onOpen] leaves it, and the plugin after [onload]. *)
Definition freshView : View :=
  {| coachingVisible := false; loading := false; panel := NoPanel;
     chatVisible := false; chatRendered := None;
     isInConversation := false; conversationHistory := [] |}.

Definition start (rs : TriggerRules) (enabled : list jsstring)
           (apiKey : bool) : plugin :=
  {| coachingView := freshView;
     claudeClient := {| hasApiKey := apiKey; client_history := [] |};
     lastContent := []; triggerRules := rs;
     enabledTriggers := enabled; inflight := [] |}.

(** One exchange of a conversation: the user sends [text] and the
    backend answers the call with [answer]. *)
Definition exchange (text answer : jsstring) (now : Z) : list event :=
  [ChatMessage text now; Reply 0 answer now].

Fixpoint exchanges (n : nat) (text answer : jsstring) (now : Z)
  : list event :=
  match n with
  | O => []
  | S k => exchange text answer now ++ exchanges k text answer now
  end.

End Session.

(* ================================================================== *)
(** ** The specification's side: what the claims are stated with *)
(* ================================================================== *)

Module Spec.
Import JS Types.

(** The number of words of [s] when the code units satisfying [delim]
    separate words: the number of code units that start a word.
    [outside] tells that the previous code unit was a separator. *)
Fixpoint wordStarts (delim : N -> bool) (outside : bool) (s : jsstring)
  : nat :=
  match s with
  | [] => 0
  | c :: r =>
      if delim c then wordStarts delim true r
      else ((if outside then 1 else 0) + wordStarts delim false r)%nat
  end.

(** A token of a text is a maximal run of code units that are neither
    white space nor logographic (CJK ideographs). *)
Definition isDelimiter (c : N) : bool := isWhiteSpace c || isChinese c.

Definition tokenCount (t : jsstring) : Z :=
  Z.of_nat (wordStarts isDelimiter true t).

Definition cjkCount (t : jsstring) : Z :=
  Z.of_nat (List.length (filter isChinese t)).

(** The trend of the specification: of the last five readings (all of
    them when there are fewer), the mean of the first two and the mean
    of the last two, read by position. *)
Definition olderAverage (values : list Z) : Q :=
  let k := (List.length values - 5)%nat in
  (nth k values 0 + nth (S k) values 0) # 2.

Definition newerAverage (values : list Z) : Q :=
  let n := List.length values in
  (nth (n - 2) values 0 + nth (n - 1) values 0) # 2.

Definition trendStep (values : list Z) : Q :=
  (newerAverage values - olderAverage values)%Q.

(** The speed of the specification: the word counts of the inserted
    texts of the recorded edits whose time stamp lies in the 60 seconds
    before [now], added up. *)
Fixpoint windowWordSum (now : Z) (history : list EditEvent) : Z :=
  match history with
  | [] => 0
  | e :: r =>
      (if now - 60000 <? timestamp e
       then Sensor.countWords (text e) else 0)
      + windowWordSum now r
  end.


(** *** Typing at the end of the text *)









(** [a / b] *)
Definition quotient (a b : nat) : Q :=
  (inject_Z (Z.of_nat a) / inject_Z (Z.of_nat b))%Q.

(** *** Conditions *)

Definition operatorText (op : Evaluator.operator) : jsstring :=
  match op with
  | Evaluator.OpGt => js ">"
  | Evaluator.OpLt => js "<"
  | Evaluator.OpGe => js ">="
  | Evaluator.OpLe => js "<="
  | Evaluator.OpEq => js "="
  end.

Definition isSign (s : jsstring) : Prop := s = [] \/ s = js "-".

(** A number as the conditions write it: an optional minus sign, digits,
    and optionally a point and more digits. *)
Definition isNumeral (s : jsstring) : Prop :=
  exists sign d ds frac,
    s = sign ++ d :: ds ++ frac
    /\ isSign sign
    /\ isDigit d = true /\ forallb isDigit ds = true
    /\ (frac = [] \/ exists fs, frac = js "." ++ fs
                              /\ forallb isDigit fs = true).

(** The relational form of the grammar: an operator followed by a
    number, white space allowed between them. *)
Definition isRelational (c : jsstring) : Prop :=
  exists op ws num,
    c = operatorText op ++ ws ++ num
    /\ forallb isWhiteSpace ws = true /\ isNumeral num.

Definition isKeywordOrLiteral (c : jsstring) : Prop :=
  In c Evaluator.trendKeywords \/ In c Evaluator.pauseKeywords
  \/ c = js "true" \/ c = js "false".

(** The supported grammar of the specification. *)
Definition supportedGrammar (c : jsstring) : Prop :=
  isRelational c \/ isKeywordOrLiteral c.

(** The value is not of the type the condition is about: a relational
    condition is about numbers, a keyword about strings, a boolean
    literal about booleans. *)
Definition typeMismatch (v : Evaluator.jsval) (c : jsstring) : Prop :=
  (isRelational c /\ forall n, v <> Evaluator.VNum n)
  \/ ((In c Evaluator.trendKeywords \/ In c Evaluator.pauseKeywords)
      /\ forall s, v <> Evaluator.VStr s)
  \/ ((c = js "true" \/ c = js "false")
      /\ forall b, v <> Evaluator.VBool b).

(** The condition holds a comparison somewhere: an operator, any white
    space, an optional minus sign and a digit. *)
Definition containsComparison (c : jsstring) : Prop :=
  exists pre op ws sign d rest,
    c = pre ++ operatorText op ++ ws ++ sign ++ d :: rest
    /\ forallb isWhiteSpace ws = true /\ isSign sign /\ isDigit d = true.

(** The number a value is compared as:
    [typeof value === 'number' ? value : parseFloat(value)]. *)
Definition numberOf (v : Evaluator.jsval) : jsnum :=
  match v with
  | Evaluator.VNum n => n
  | _ => Evaluator.parseFloatOf v
  end.

(** *** Scheduling *)

(** The cooldown before a rule of priority [p] may fire, in
    milliseconds: the configured one (the override for [High], 180
    seconds when it is missing or 0; the minimum interval otherwise),
    or, in dev mode, 30 seconds for [High] and 60 seconds otherwise. *)
Definition configuredCooldown (rs : Engine.TriggerRules)
           (p : Engine.Priority) : Z :=
  let gs := Engine.globalSettings rs in
  match p with
  | Engine.High =>
      match Engine.priorityOverride gs with
      | Some high => if high =? 0 then 180000 else 1000 * high
      | None => 180000
      end
  | _ => 1000 * Engine.minimumIntervalBetweenTriggers gs
  end.

Definition devCooldown (p : Engine.Priority) : Z :=
  match p with Engine.High => 30000 | _ => 60000 end.

Definition cooldown (st : Engine.engine) (p : Engine.Priority) : Z :=
  if Engine.devMode st then devCooldown p
  else configuredCooldown (Engine.rules st) p.

(** Calls that leave the rules, the dev mode and the history alone,
    fires apart: ticks, forced triggers, pause and resume. *)
Definition steady (c : Engine.call) : Prop :=
  match c with
  | Engine.Tick _ _ _ _ | Engine.Force _ _ _
  | Engine.Pause | Engine.Resume => True
  | _ => False
  end.

(** Each fire of the list comes at least the cooldown of its rule after
    the fire before it, the first one after [last]. *)
Fixpoint spaced (st : Engine.engine) (last : Z)
         (fires : list (Z * Engine.TriggerResult)) : Prop :=
  match fires with
  | [] => True
  | (t, r) :: rest =>
      cooldown st (Engine.priority (Engine.rule r)) <= t - last
      /\ spaced st t rest
  end.

(** A listener that does not call the engine back. *)
Definition passive (onTrigger : Engine.listener) : Prop :=
  forall r s, Engine.notify onTrigger r s = s.

(** The scheduled fires of a sequence of calls. *)
Definition firesOf (onTrigger : Engine.listener) (st : Engine.engine)
           (cs : list Engine.call) : list (Z * Engine.TriggerResult) :=
  Engine.scheduledFires (snd (Engine.execAll onTrigger st cs)).

(** Metrics of a writer who stopped 200 seconds ago, and of one who
    writes 45 words a minute with 2 % adjectives for 130 minutes. *)
Definition pausedMetrics : WritingMetrics :=
  {| wpm := 0; totalWords := 0; sessionDuration := 0;
     adjectiveRatio := 0; verbRatio := 0; abstractNounRatio := 0;
     averageSentenceLength := 0; pauseDuration := 200;
     pauseLocation := PLUnknown; deletionRatio := 0;
     wpmTrend := Stable; recentWPM := [];
     currentParagraphLength := 0; paragraphsSinceLastCoaching := 0 |}.

Definition rushingMetrics : WritingMetrics :=
  {| wpm := 45; totalWords := 0; sessionDuration := 130;
     adjectiveRatio := 2 # 100; verbRatio := 0; abstractNounRatio := 0;
     averageSentenceLength := 0; pauseDuration := 0;
     pauseLocation := PLUnknown; deletionRatio := 0;
     wpmTrend := Stable; recentWPM := [];
     currentParagraphLength := 0; paragraphsSinceLastCoaching := 0 |}.

Definition sceneContext : Engine.WritingContext :=
  {| Engine.writingType := js "scene";
     Engine.recentContent := [];
     Engine.currentFile := js "note.md" |}.

Definition resultOf (tname : jsstring) (rl : Engine.TriggerRule)
           (m : WritingMetrics) (ctx : Engine.WritingContext)
  : Engine.TriggerResult :=
  {| Engine.triggerName := tname; Engine.rule := rl;
     Engine.result_metrics := m; Engine.context := ctx |}.

Definition eventOf (tname : jsstring) (now : Z) (m : WritingMetrics)
           (wt : jsstring) : Engine.TriggerEvent :=
  {| Engine.event_name := tname; Engine.event_timestamp := now;
     Engine.event_metrics := m; Engine.event_writingType := wt |}.

(** *** Sessions *)

(** A session converses while the view is in conversation; it is idle
    when the view is not in conversation and the turn histories of the
    view and of the client are both empty. *)
Definition conversing (p : Session.plugin) : Prop :=
  Session.isInConversation (Session.coachingView p) = true.

Definition idle (p : Session.plugin) : Prop :=
  Session.isInConversation (Session.coachingView p) = false
  /\ Session.conversationHistory (Session.coachingView p) = []
  /\ Session.client_history (Session.claudeClient p) = [].

Definition assistantSays (text : jsstring) (now : Z)
  : Session.ConversationMessage :=
  {| Session.role := Session.Assistant; Session.content := text;
     Session.msg_timestamp := now |}.

(** The default rules with the conversation limit set to [n]. *)
Definition rulesWithLimit (n : Z) : Engine.TriggerRules :=
  {| Engine.triggers := Engine.triggers Engine.getDefaultTriggerRules;
     Engine.globalSettings :=
       {| Engine.minimumIntervalBetweenTriggers := 300;
          Engine.priorityOverride := Some 180;
          Engine.conversationRules :=
            Some {| Engine.autoCloseOnWriting := true;
                    Engine.maxConversationLength := n |} |} |}.

(** A plugin with an API key in which the rule "stuck" has just opened
    a conversation. *)
Definition stuckResult : Engine.TriggerResult :=
  resultOf (js "stuck") Engine.stuck pausedMetrics sceneContext.

Definition inConversation (rs : Engine.TriggerRules) : Session.plugin :=
  Session.run (Session.start rs [js "stuck"; js "rushing"] true)
    [ Session.TriggerFired stuckResult (js "metrics and text") 1000;
      Session.Reply 0 (js "Paused here for a bit?") 2000 ].

(** A host for texts in ASCII: lower case is that of the letters A to Z,
    the segmenter is not available and the Chinese word lists are empty. *)
Definition asciiLower (c : N) : N :=
  if ((65 <=? c) && (c <=? 90))%N then (c + 32)%N else c.

Definition asciiHost : Sensor.Host :=
  {| Sensor.toLowerCase := map asciiLower;
     Sensor.doSegment := fun _ => None;
     Sensor.CHINESE_ADJECTIVES := fun _ => false;
     Sensor.CHINESE_VERBS := fun _ => false;
     Sensor.CHINESE_ABSTRACT_NOUNS := fun _ => false |}.

(** An editor holding the one-line document [t], the cursor at its end. *)
Definition editorOf (t : jsstring) : Sensor.Editor :=
  {| Sensor.getValue := t;
     Sensor.cursor_ch := List.length t;
     Sensor.cursor_lineText := t;
     Sensor.next_lineText := None |}.

End Spec.

(* ================================================================== *)
(** ** claude-client.ts: what the prompts are built from *)
(* ================================================================== *)

Module Client.
Import JS.

(** [pieces.join(' ')] *)
Fixpoint joinSpace (pieces : list jsstring) : jsstring :=
  match pieces with
  | [] => []
  | [p] => p
  | p :: rest => p ++ 32%N :: joinSpace rest
  end.

(** The text appended to a methodology that was cut: two line feeds and
    the note. *)
Definition truncationMarker : jsstring :=
  [10%N; 10%N] ++ js "[Methodology truncated...]".

(** [truncatedMethodology] of [buildSystemPrompt] *)
Definition truncatedMethodology (methodology : jsstring) : jsstring :=
  if strlen methodology >? 10000
  then firstn (Z.to_nat 10000) methodology ++ truncationMarker
  else methodology.

(** [last500Words] of [buildUserMessage]:
    [recentContent.split(/\s+/).slice(-500).join(' ')] *)
Definition last500Words (recentContent : jsstring) : jsstring :=
  joinSpace (Sensor.sliceLast 500 (split_ws recentContent)).

(** The code units of the pieces and one more for each piece: one more
    than the length of the pieces joined by single spaces. *)
Definition spread (l : list jsstring) : Z :=
  fold_right (fun p acc => strlen p + 1 + acc) 0 l.

(** [last500Words || '[No content yet]'] *)
Definition recentWriting (recentContent : jsstring) : jsstring :=
  let w := last500Words recentContent in
  if nonEmpty w then w else js "[No content yet]".

End Client.

(* ================================================================== *)
(** ** main.ts: forcing a trigger *)
(* ================================================================== *)

Module Plugin.
Import JS Types Engine Session.

(** [forceTrigger(triggerName)] of the plugin.  The engine looks the rule
    up and, when it is there, calls its listener, which the plugin has
    set to [handleTrigger]; the plugin then calls [handleTrigger] on the
    returned result once more.  [m] is [sensor.getMetrics()], [ctx] is
    [getWritingContext()] and [userMessage] the text [buildUserMessage]
    makes of them. *)
Definition forceTrigger (eng : engine) (p : plugin) (tname : jsstring)
           (m : WritingMetrics) (ctx : WritingContext)
           (userMessage : jsstring) (now : Z) : plugin :=
  match snd (Engine.forceTrigger None eng tname m ctx) with
  | Some res =>
      let listened := handleTrigger p res userMessage now in
      handleTrigger listened res userMessage now
  | None => p
  end.

(** [onActiveLeafChange(leaf)] for a leaf that shows a Markdown file, as
    far as the sensor goes: the editor of the file is reported to the
    sensor as a change.  The sensor is not reset and is not told the
    path of the file. *)
Definition onActiveLeafChange (r : Sensor.revision) (s : Sensor.state)
           (editor : Sensor.Editor) (now : Z) : Sensor.state :=
  Sensor.onEditorChange r s editor now.

End Plugin.

(* ================================================================== *)
(** ** Further notions the theorems are stated with *)
(* ================================================================== *)

Module Notions.
Import JS Types.

(** A ratio lies between 0 and 1. *)
Definition unitRatio (q : Q) : Prop := (0 <= q)%Q /\ (q <= 1)%Q.

(** The sensor events other than [reset]. *)
Definition keepsSession (e : Sensor.event) : Prop :=
  match e with Sensor.ResetSensor _ => False | _ => True end.

(** A sensor that waits for a file to be loaded: nothing is recorded
    and the next change is the first. *)
Definition fresh (st : Sensor.state) : Prop :=
  Sensor.isFirstEdit st = true /\ Sensor.editHistory st = [].

(** Two sensors agree in everything but the pause flag. *)
Definition sameMeasurement (a b : Sensor.state) : Prop :=
  Sensor.metrics a = Sensor.metrics b
  /\ Sensor.lastText a = Sensor.lastText b
  /\ Sensor.lastEditTime a = Sensor.lastEditTime b
  /\ Sensor.sessionStartTime a = Sensor.sessionStartTime b
  /\ Sensor.editHistory a = Sensor.editHistory b
  /\ Sensor.recentWPMReadings a = Sensor.recentWPMReadings b
  /\ Sensor.isFirstEdit a = Sensor.isFirstEdit b
  /\ Sensor.currentFilePath a = Sensor.currentFilePath b.

(** The characters inserted, and removed, by the edits of the five
    minutes before [now]. *)
Fixpoint writtenChars (now : Z) (history : list EditEvent) : Z :=
  match history with
  | [] => 0
  | e :: r =>
      (if now - 300000 <? timestamp e then strlen (text e) else 0)
      + writtenChars now r
  end.

Fixpoint deletedChars (now : Z) (history : list EditEvent) : Z :=
  match history with
  | [] => 0
  | e :: r =>
      (if now - 300000 <? timestamp e then strlen (removed e) else 0)
      + deletedChars now r
  end.

(** The fourteen fields of the metrics. *)
Definition metricKeys : list jsstring :=
  map js [ "wpm"; "totalWords"; "sessionDuration"; "adjectiveRatio";
           "verbRatio"; "abstractNounRatio"; "averageSentenceLength";
           "pauseDuration"; "pauseLocation"; "deletionRatio"; "wpmTrend";
           "recentWPM"; "currentParagraphLength";
           "paragraphsSinceLastCoaching" ]%string.

(** The key a rule may write so that a condition is about a metric:
    the name of the field, or "duration" for [sessionDuration]. *)
Definition knownKey (key : jsstring) : Prop :=
  In key metricKeys \/ key = js "duration".

(** The tail of a numeral: nothing, or a point and digits. *)
Definition fractionText (fs : option (list N)) : jsstring :=
  match fs with Some f => js "." ++ f | None => [] end.

(** A number written in decimal: an optional minus sign, the digits
    [ds] and, when [fs] is given, a point and the digits [fs]. *)
Definition numeralText (negative : bool) (ds : list N)
           (fs : option (list N)) : jsstring :=
  (if negative then js "-" else []) ++ ds ++ fractionText fs.

Fixpoint decimalValue (acc : Z) (ds : list N) : Z :=
  match ds with
  | [] => acc
  | d :: r => decimalValue (10 * acc + (Z.of_N d - 48)) r
  end.

(** The number [numeralText] denotes. *)
Definition numeralValue (negative : bool) (ds : list N)
           (fs : option (list N)) : Q :=
  let f := match fs with Some f => f | None => [] end in
  let v := (inject_Z (decimalValue 0 ds)
            + inject_Z (decimalValue 0 f)
              / inject_Z (10 ^ Z.of_nat (List.length f)))%Q in
  if negative then (- v)%Q else v.

(** An integer that a JavaScript number holds exactly: at most
    2^53 - 1 in magnitude. *)
Definition safeInteger (n : Z) : Prop := Z.abs n <= 9007199254740991.

(** The integer a numeral without a fraction denotes. *)
Definition numeralInteger (negative : bool) (ds : list N) : Z :=
  if negative then - decimalValue 0 ds else decimalValue 0 ds.

(** What a comparison asks of the value [q] against the number [v]. *)
Definition holds (op : Evaluator.operator) (q v : Q) : Prop :=
  match op with
  | Evaluator.OpGt => (v < q)%Q
  | Evaluator.OpLt => (q < v)%Q
  | Evaluator.OpGe => (v <= q)%Q
  | Evaluator.OpLe => (q <= v)%Q
  | Evaluator.OpEq => (q == v)%Q
  end.

(** The time stamp of the newest event of a history, 0 for none. *)
Definition lastStamp (h : list Engine.TriggerEvent) : Z :=
  last (map Engine.event_timestamp h) 0.

(** A rule may fire at a tick: it applies to the writing type, its
    conditions hold, and its cooldown since the last fire is over. *)
Definition eligible (st : Engine.engine) (now : Z) (m : WritingMetrics)
           (wt : jsstring) (entry : jsstring * Engine.TriggerRule) : bool :=
  Engine.appliesToType (snd entry) wt
  && Evaluator.evaluateConditions (Engine.conditions (snd entry)) m
  && (Engine.requiredInterval st (snd entry)
      <=? now - Engine.lastTriggerTime st).

Definition isTick (c : Engine.call) : Prop :=
  match c with Engine.Tick _ _ _ _ => True | _ => False end.

(** The chat shows the turn history of the view whenever the view is in
    conversation, and is visible exactly then. *)
Definition chatInStep (v : Session.View) : Prop :=
  Session.chatVisible v = Session.isInConversation v
  /\ (Session.isInConversation v = true ->
      Session.chatRendered v = Some (Session.conversationHistory v)).

Definition userSays (text : jsstring) (now : Z)
  : Session.ConversationMessage :=
  {| Session.role := Session.User; Session.content := text;
     Session.msg_timestamp := now |}.

End Notions.

(* ================================================================== *)
(** ** Facts about the primitives *)
(* ================================================================== *)

Module JSFacts.
Import JS Spec.

Lemma str_eqb_eq a b : str_eqb a b = true <-> a = b.
Proof.
  unfold str_eqb. destruct (list_eq_dec N.eq_dec a b); split; congruence.
Qed.

Lemma str_eqb_refl a : str_eqb a a = true.
Proof. apply str_eqb_eq. reflexivity. Qed.

Lemma str_eqb_neq a b : str_eqb a b = false <-> a <> b.
Proof.
  unfold str_eqb. destruct (list_eq_dec N.eq_dec a b); split; congruence.
Qed.

Lemma nonEmpty_rev (s : jsstring) : nonEmpty (rev s) = nonEmpty s.
Proof.
  destruct s as [|c r]; [reflexivity|].
  simpl. destruct (rev r); reflexivity.
Qed.

Lemma nonEmpty_false (s : jsstring) : nonEmpty s = false <-> s = [].
Proof. destruct s; simpl; split; congruence. Qed.

Lemma strlen_zero (s : jsstring) : (strlen s =? 0) = true <-> s = [].
Proof.
  unfold strlen. rewrite Z.eqb_eq. destruct s; simpl; split; try lia; congruence.
Qed.

Section DropWhile.
Context {A : Type} (p : A -> bool).

Lemma dropWhile_nil_iff (l : list A) :
  dropWhile p l = [] <-> forallb p l = true.
Proof.
  induction l as [|x r IH]; simpl; [tauto|].
  destruct (p x); simpl; [exact IH|]. split; discriminate.
Qed.

Lemma dropWhile_decompose (l : list A) :
  exists w, l = w ++ dropWhile p l /\ forallb p w = true.
Proof.
  induction l as [|x r [w [E F]]]; simpl.
  - exists []. split; reflexivity.
  - destruct (p x) eqn:Px.
    + exists (x :: w). simpl. rewrite Px, F. split; [congruence | reflexivity].
    + exists []. split; reflexivity.
Qed.

Lemma dropWhile_head (l : list A) x r :
  dropWhile p l = x :: r -> p x = false.
Proof.
  induction l as [|y l IH]; simpl; [discriminate|].
  destruct (p y) eqn:Py; [exact IH|]. intros E. congruence.
Qed.
End DropWhile.

(** A trimmed string is empty exactly when the string is all white space. *)
Lemma trim_nil_iff (s : jsstring) :
  trim s = [] <-> forallb isWhiteSpace s = true.
Proof.
  unfold trim, trimEnd, trimStart. split.
  - intros E.
    assert (E' : dropWhile isWhiteSpace (rev (dropWhile isWhiteSpace s)) = []).
    { rewrite <- (rev_involutive (dropWhile _ (rev _))), E. reflexivity. }
    destruct (dropWhile isWhiteSpace s) as [|x r] eqn:D.
    + apply dropWhile_nil_iff. exact D.
    + apply dropWhile_head in D.
      apply dropWhile_nil_iff in E'. rewrite forallb_forall in E'.
      rewrite E' in D; [discriminate|]. apply in_rev.
      rewrite rev_involutive. left. reflexivity.
  - intros F. apply dropWhile_nil_iff in F. rewrite F. reflexivity.
Qed.

(** White space is not logographic. *)
Lemma whitespace_not_chinese c : isWhiteSpace c = true -> isChinese c = false.
Proof.
  unfold isWhiteSpace, isChinese. intros H.
  repeat rewrite ?orb_true_iff, ?andb_true_iff, ?N.leb_le, ?N.eqb_eq in H.
  apply andb_false_iff. rewrite !N.leb_gt. lia.
Qed.

Section WordStarts.
Variable sep : N -> bool.

Lemma wordStarts_dropWhile (s : jsstring) :
  (forall c, isWhiteSpace c = true -> sep c = true) ->
  wordStarts sep true (dropWhile isWhiteSpace s) = wordStarts sep true s.
Proof.
  intros W. induction s as [|c r IH]; simpl; [reflexivity|].
  destruct (isWhiteSpace c) eqn:Wc; [|reflexivity].
  rewrite (W c Wc). exact IH.
Qed.

Lemma wordStarts_app_seps (a w : jsstring) b :
  forallb sep w = true ->
  wordStarts sep b (a ++ w) = wordStarts sep b a.
Proof.
  intros F. revert b. induction a as [|c r IH]; intros b; simpl.
  - clear - F. revert b. induction w as [|c w IH]; intros b; simpl; [reflexivity|].
    simpl in F. apply andb_true_iff in F as [Fc Fw]. rewrite Fc. apply IH, Fw.
  - destruct (sep c); rewrite IH; reflexivity.
Qed.

Lemma wordStarts_all_seps (w : jsstring) b :
  forallb sep w = true -> wordStarts sep b w = 0%nat.
Proof. intros F. apply (wordStarts_app_seps [] w b F). Qed.

Lemma wordStarts_trim (s : jsstring) :
  (forall c, isWhiteSpace c = true -> sep c = true) ->
  wordStarts sep true (trim s) = wordStarts sep true s.
Proof.
  intros W. unfold trim, trimStart.
  rewrite <- (wordStarts_dropWhile s W).
  set (t := dropWhile isWhiteSpace s). unfold trimEnd.
  destruct (dropWhile_decompose isWhiteSpace (rev t)) as [w [E F]].
  assert (Et : t = rev (dropWhile isWhiteSpace (rev t)) ++ rev w).
  { rewrite <- rev_app_distr, <- E, rev_involutive. reflexivity. }
  rewrite Et at 2. symmetry. apply wordStarts_app_seps.
  rewrite forallb_forall in *. intros c Hc. apply W, F, in_rev, Hc.
Qed.

(** The pieces of a split that are not empty are the words. *)
Lemma split_go_count (s cur : jsstring) (insep : bool) :
  (insep = true -> cur = []) ->
  List.length (filter nonEmpty (split_go sep s cur insep)) =
  (wordStarts sep (negb (nonEmpty cur)) s
   + (if nonEmpty cur then 1 else 0))%nat.
Proof.
  revert cur insep. induction s as [|c r IH]; intros cur insep Inv; simpl.
  - rewrite nonEmpty_rev. destruct (nonEmpty cur); reflexivity.
  - destruct (sep c) eqn:Sc.
    + destruct insep.
      * rewrite (Inv eq_refl). rewrite IH by reflexivity. reflexivity.
      * simpl. rewrite nonEmpty_rev.
        destruct (nonEmpty cur); simpl; rewrite IH by reflexivity; simpl; lia.
    + rewrite IH by discriminate. simpl.
      destruct (nonEmpty cur); simpl; lia.
Qed.

Lemma split_runs_count (s : jsstring) :
  List.length (filter nonEmpty (split_runs sep s)) = wordStarts sep true s.
Proof.
  unfold split_runs. rewrite split_go_count by discriminate. simpl. lia.
Qed.
End WordStarts.

(** Replacing the separators of a wider class by a space before counting
    white-space-separated words counts the words of the wider class. *)
Lemma wordStarts_replace (p : N -> bool) (s : jsstring) b :
  wordStarts isWhiteSpace b (map (fun c => if p c then 32%N else c) s) =
  wordStarts (fun c => isWhiteSpace c || p c) b s.
Proof.
  revert b. induction s as [|c r IH]; intros b; simpl; [reflexivity|].
  destruct (p c) eqn:Pc.
  - rewrite orb_true_r. simpl. apply IH.
  - rewrite orb_false_r. destruct (isWhiteSpace c); rewrite IH; reflexivity.
Qed.

(** [Math.round] of a whole number plus a number of halves. *)
Lemma Math_round_halves (c e : Z) :
  Math_round (inject_Z c * (1 # 2) + inject_Z e)%Q = e + (c + 1) / 2.
Proof.
  unfold Math_round, Qfloor, Qplus, Qmult, inject_Z. simpl.
  apply eq_sym, Z.div_unique with (r := 2 * ((c + 1) mod 2)).
  - left. pose proof (Z.mod_pos_bound (c + 1) 2 ltac:(lia)). lia.
  - pose proof (Z.div_mod (c + 1) 2 ltac:(lia)). lia.
Qed.

End JSFacts.

(* ================================================================== *)
(** ** The sensor: word counts and trend *)
(* ================================================================== *)

Module SensorFacts.
Import JS Types Spec JSFacts Sensor.

(** The English words [countWords] finds are the tokens of the text. *)
Lemma englishWords_are_tokens (t : jsstring) :
  Z.of_nat
    (List.length
       (filter nonEmpty
          (split_ws (trim (map (fun c => if isChinese c then 32%N else c) t)))))
  = tokenCount t.
Proof.
  unfold tokenCount, split_ws. f_equal.
  rewrite split_runs_count, wordStarts_trim by auto.
  apply wordStarts_replace.
Qed.

Lemma blank_text_counts (t : jsstring) :
  forallb isWhiteSpace t = true -> tokenCount t = 0 /\ cjkCount t = 0.
Proof.
  intros F. unfold tokenCount, cjkCount. split.
  - rewrite wordStarts_all_seps; [reflexivity|].
    rewrite forallb_forall in *. intros c Hc.
    unfold isDelimiter. rewrite (F c Hc). reflexivity.
  - replace (filter isChinese t) with (@nil N); [reflexivity|].
    symmetry. induction t as [|c r IH]; simpl in *; [reflexivity|].
    apply andb_true_iff in F as [Fc Fr].
    rewrite (whitespace_not_chinese c Fc). apply IH, Fr.
Qed.

Lemma countWords_closed_form (t : jsstring) :
  countWords t = tokenCount t + (cjkCount t + 1) / 2.
Proof.
  unfold countWords.
  destruct (negb (nonEmpty t) || (strlen (trim t) =? 0)) eqn:Blank.
  - assert (F : forallb isWhiteSpace t = true).
    { apply orb_true_iff in Blank as [E|E].
      - apply negb_true_iff, nonEmpty_false in E. subst. reflexivity.
      - apply trim_nil_iff, strlen_zero, E. }
    destruct (blank_text_counts t F) as [-> ->]. reflexivity.
  - rewrite Math_round_halves, englishWords_are_tokens. reflexivity.
Qed.


Lemma Math_round_tokens_halves (e c : Z) :
  Math_round (inject_Z e + (1 # 2) * inject_Z c)%Q = e + (c + 1) / 2.
Proof.
  unfold Math_round, Qfloor, Qplus, Qmult, inject_Z. simpl.
  apply eq_sym, Z.div_unique with (r := 2 * ((c + 1) mod 2)).
  - left. pose proof (Z.mod_pos_bound (c + 1) 2 ltac:(lia)). lia.
  - pose proof (Z.div_mod (c + 1) 2 ltac:(lia)).
    destruct c; lia.
Qed.

(** C8, as the code has it: the word count is the number of tokens plus
    half the number of CJK characters, rounded to the nearest integer
    with a half rounded up; that is, tokens plus the CJK count halved
    and rounded up. *)
Theorem countWords_rounds_half_up (t : jsstring) :
  countWords t =
    Math_round (inject_Z (tokenCount t) + (1 # 2) * inject_Z (cjkCount t))%Q
  /\ countWords t = tokenCount t + (cjkCount t + 1) / 2.
Proof.
  split.
  - rewrite Math_round_tokens_halves. apply countWords_closed_form.
  - apply countWords_closed_form.
Qed.

(** C8 as stated fails: the text of the single character U+4E2D has no
    token and one CJK character, so the stated count is one half, and
    [countWords] answers 1. *)
Lemma countWords_not_exact_sum :
  countWords [20013%N] = 1 /\
  ~ (inject_Z (countWords [20013%N]) ==
     inject_Z (tokenCount [20013%N])
     + (1 # 2) * inject_Z (cjkCount [20013%N]))%Q.
Proof.
  split; [reflexivity|]. vm_compute. discriminate.
Qed.

(** *** Trend *)

Lemma Qgtb_true_iff (x y : Q) : Qgtb x y = true <-> (y < x)%Q.
Proof.
  unfold Qgtb. rewrite negb_true_iff. split.
  - intros H. apply Qnot_le_lt. intros L.
    apply Qle_bool_iff in L. congruence.
  - intros H. destruct (Qle_bool x y) eqn:E; [|reflexivity].
    apply Qle_bool_iff in E. lra.
Qed.

Lemma Qgtb_false_iff (x y : Q) : Qgtb x y = false <-> (x <= y)%Q.
Proof.
  unfold Qgtb. rewrite negb_false_iff. apply Qle_bool_iff.
Qed.

Lemma firstn2_skipn (k : nat) (l : list Z) :
  (k + 2 <= List.length l)%nat ->
  firstn 2 (skipn k l) = [nth k l 0; nth (S k) l 0].
Proof.
  revert l. induction k as [|k IH]; intros l L.
  - destruct l as [|a [|b r]]; simpl in *; try lia. reflexivity.
  - destruct l as [|a r]; simpl in *; [lia|]. apply IH. lia.
Qed.

Lemma sliceLast2 (l : list Z) :
  (2 <= List.length l)%nat ->
  sliceLast 2 l =
    [nth (List.length l - 2) l 0; nth (List.length l - 1) l 0].
Proof.
  intros L. unfold sliceLast.
  rewrite <- (firstn_all2 (n := 2) (skipn (List.length l - 2) l)).
  - rewrite firstn2_skipn by lia.
    replace (S (List.length l - 2)) with (List.length l - 1)%nat by lia.
    reflexivity.
  - rewrite length_skipn. lia.
Qed.

Lemma sliceLast2_of_sliceLast5 (l : list Z) :
  (2 <= List.length l)%nat -> sliceLast 2 (sliceLast 5 l) = sliceLast 2 l.
Proof.
  intros L. unfold sliceLast. rewrite skipn_skipn, length_skipn.
  f_equal. lia.
Qed.

(** The two means [calculateTrend] takes are those of the specification. *)
Lemma calculateTrend_unfold (values : list Z) :
  (3 <= List.length values)%nat ->
  calculateTrend values =
    if Qgtb (trendStep values) 5 then Increasing
    else if Qgtb (-5) (trendStep values) then Decreasing
    else Stable.
Proof.
  intros L. unfold calculateTrend.
  destruct (List.length values <? 3)%nat eqn:E;
    [apply Nat.ltb_lt in E; lia|].
  rewrite sliceLast2_of_sliceLast5, sliceLast2 by lia.
  unfold sliceLast. rewrite !firstn2_skipn by lia.
  reflexivity.
Qed.

(** C7: fewer than three readings are stable; from three readings on
    the trend is increasing exactly when the mean of the last two of
    the last five readings exceeds the mean of their first two by more
    than 5, decreasing exactly when it is lower by more than 5, and
    stable otherwise. *)
Theorem calculateTrend_classifies (values : list Z) :
  ((List.length values < 3)%nat -> calculateTrend values = Stable) /\
  ((3 <= List.length values)%nat ->
     (calculateTrend values = Increasing <-> (5 < trendStep values)%Q) /\
     (calculateTrend values = Decreasing <-> (trendStep values < -5)%Q) /\
     (calculateTrend values = Stable <->
        (-5 <= trendStep values)%Q /\ (trendStep values <= 5)%Q)).
Proof.
  split.
  - intros L. unfold calculateTrend.
    apply Nat.ltb_lt in L. rewrite L. reflexivity.
  - intros L. rewrite (calculateTrend_unfold values L).
    destruct (Qgtb (trendStep values) 5) eqn:Up;
      [apply Qgtb_true_iff in Up | apply Qgtb_false_iff in Up];
      (destruct (Qgtb (-5) (trendStep values)) eqn:Down;
       [apply Qgtb_true_iff in Down | apply Qgtb_false_iff in Down]);
      repeat split; intros; try discriminate; try lra;
      try (destruct H; lra).
Qed.

(** Five readings 0, 0, 0, 20, 20: the step is 20 and the trend rises. *)
Lemma calculateTrend_classifies_witness :
  (3 <= List.length [0; 0; 0; 20; 20])%nat /\
  calculateTrend [0; 0; 0; 20; 20] = Increasing.
Proof.
  split; [simpl; lia|].
  apply (proj2 (calculateTrend_classifies [0; 0; 0; 20; 20]));
    [simpl; lia | reflexivity].
Defined.

(** *** Speed *)

Lemma fold_countWords_shift (l : list EditEvent) (acc : Z) :
  fold_left (fun sum edit => sum + countWords (text edit)) l acc =
  acc + fold_left (fun sum edit => sum + countWords (text edit)) l 0.
Proof.
  revert acc. induction l as [|e r IH]; intros acc; simpl; [lia|].
  rewrite IH, (IH (countWords (text e))). lia.
Qed.

Lemma calculateWPM_windowWordSum (st : state) (now : Z) :
  calculateWPM st now = windowWordSum now (editHistory st).
Proof.
  unfold calculateWPM. induction (editHistory st) as [|e r IH]; simpl;
    [reflexivity|].
  rewrite Z.gtb_ltb.
  destruct (now - 60000 <? timestamp e); simpl.
  - rewrite fold_countWords_shift, IH. reflexivity.
  - exact IH.
Qed.


Lemma wpm_updateMetrics (r : revision) (h : Host) (st : state)
      (now nowWPM nowDel : Z) :
  wpm (metrics (updateMetrics r h st now nowWPM nowDel)) =
  calculateWPM st nowWPM.
Proof.
  unfold updateMetrics. simpl.
  destruct (nonEmpty (lastText st)); [|reflexivity].
  unfold analyzeText.
  destruct (List.length (segmentText r h (lastText st)) =? 0)%nat;
    reflexivity.
Qed.












(** The legacy revision has no paste rule: an insertion of 60 code
    units is recorded and counted. *)
Remark basic_revision_counts_a_paste :
  let st := run Basic asciiHost (init 0)
                [ Change (editorOf []) 1000;
                  Change (editorOf (repeat 120%N 60)) 2000 ] in
  wpm (metrics (updateMetrics Basic asciiHost st 5000 5000 5000)) = 1.
Proof. reflexivity. Qed.

(** *** Speed of typing at the end of the text *)











(** *** Lexical ratios *)

Lemma ratio_is_quotient (a b : nat) :
  (0 < b)%nat -> (ratio a b == quotient a b)%Q.
Proof.
  intros B. unfold ratio, quotient. rewrite Qmake_Qdiv.
  replace (Z.pos (Pos.of_nat b)) with (Z.of_nat b) by lia.
  reflexivity.
Qed.

(** What [analyzeText] leaves in the three ratios. *)
Lemma analyzeText_ratios (r : revision) (h : Host) (m : WritingMetrics)
      (t : jsstring) :
  let words := segmentText r h t in
  let m' := analyzeText r h m t in
  (words = [] ->
     adjectiveRatio m' = 0%Q /\ verbRatio m' = 0%Q
     /\ abstractNounRatio m' = 0%Q)
  /\ (words <> [] ->
      (adjectiveRatio m' ==
         quotient (List.length (filter (isAdjective r h) words))
                  (List.length words))%Q
      /\ (verbRatio m' ==
            quotient (List.length (filter (isVerb r h) words))
                     (List.length words))%Q
      /\ (abstractNounRatio m' ==
            quotient (List.length (filter (isAbstractNoun r h) words))
                     (List.length words))%Q).
Proof.
  intros words m'. subst m'. unfold analyzeText. fold words.
  destruct words as [|w ws] eqn:W.
  - split; [intros _; simpl; repeat split | intros C; congruence].
  - split; [discriminate|]. intros _.
    replace (List.length (w :: ws) =? 0)%nat with false by reflexivity.
    cbn [adjectiveRatio verbRatio abstractNounRatio].
    repeat split; apply ratio_is_quotient; simpl; lia.
Qed.

(** A recomputation analyses the text when it is not the empty string. *)
Lemma updateMetrics_analyses (r : revision) (h : Host) (st : state)
      (now nowWPM nowDel : Z) :
  lastText st <> [] ->
  let m' := metrics (updateMetrics r h st now nowWPM nowDel) in
  exists m,
    adjectiveRatio m' = adjectiveRatio (analyzeText r h m (lastText st))
    /\ verbRatio m' = verbRatio (analyzeText r h m (lastText st))
    /\ abstractNounRatio m' =
       abstractNounRatio (analyzeText r h m (lastText st)).
Proof.
  intros NE m'. subst m'. unfold updateMetrics.
  destruct (lastText st) as [|c t] eqn:T; [congruence|].
  cbn [nonEmpty metrics adjectiveRatio verbRatio abstractNounRatio].
  eexists. repeat split.
Qed.

(** A recomputation on the empty string leaves the three ratios as
    they were. *)
Lemma updateMetrics_skips_empty_text (r : revision) (h : Host) (st : state)
      (now nowWPM nowDel : Z) :
  lastText st = [] ->
  let m' := metrics (updateMetrics r h st now nowWPM nowDel) in
  adjectiveRatio m' = adjectiveRatio (metrics st)
  /\ verbRatio m' = verbRatio (metrics st)
  /\ abstractNounRatio m' = abstractNounRatio (metrics st).
Proof.
  intros E m'. subst m'. unfold updateMetrics. rewrite E.
  repeat split.
Qed.

(** C9 at the failing input: the document "good love is" is loaded and
    analysed (one adjective, one abstract noun, one verb among three
    tokens), then emptied.  The next recomputation finds no token and
    zero words in all, and still reports the three ratios as one third,
    in both revisions of the sensor. *)
Theorem ratios_stale_on_emptied_document (r : revision) :
  let st := run r asciiHost (init 0)
                [ Change (editorOf (js "good love is")) 1000;
                  Recompute 5000 5000 5000;
                  Change (editorOf []) 6000;
                  Recompute 10000 10000 10000 ] in
  lastText st = []
  /\ segmentText r asciiHost (lastText st) = []
  /\ totalWords (metrics st) = 0
  /\ adjectiveRatio (metrics st) = 1 # 3
  /\ verbRatio (metrics st) = 1 # 3
  /\ abstractNounRatio (metrics st) = 1 # 3.
Proof. destruct r; vm_compute; repeat split. Qed.

End SensorFacts.

(* ================================================================== *)
(** ** The condition evaluator *)
(* ================================================================== *)

Module EvaluatorFacts.
Import JS Types Spec JSFacts Evaluator.

Lemma span_decompose {A} (p : A -> bool) (l a b : list A) :
  span p l = (a, b) -> l = a ++ b /\ forallb p a = true.
Proof.
  revert a b. induction l as [|x r IH]; intros a b E; simpl in E.
  - inversion E. split; reflexivity.
  - destruct (p x) eqn:Px.
    + destruct (span p r) as [a' b'] eqn:S. inversion E; subst.
      destruct (IH a' b eq_refl) as [-> F]. simpl. rewrite Px, F.
      split; reflexivity.
    + inversion E. split; reflexivity.
Qed.

Lemma span_head {A} (p : A -> bool) (x : A) (r : list A) :
  p x = true -> exists a b, span p (x :: r) = (x :: a, b).
Proof.
  intros Px. simpl. rewrite Px. destruct (span p r) as [a b].
  exists a, b. reflexivity.
Qed.

Lemma dropWhile_app_all {A} (p : A -> bool) (w l : list A) :
  forallb p w = true -> dropWhile p (w ++ l) = dropWhile p l.
Proof.
  induction w as [|x w IH]; simpl; [reflexivity|].
  intros F. apply andb_true_iff in F as [Fx Fw]. rewrite Fx. apply IH, Fw.
Qed.

Lemma digit_not_space d : isDigit d = true -> isWhiteSpace d = false.
Proof.
  unfold isDigit, isWhiteSpace. intros H.
  apply andb_true_iff in H as [L U]. apply N.leb_le in L, U.
  repeat (apply orb_false_iff; split);
    try apply andb_false_iff; rewrite ?N.leb_gt, ?N.eqb_neq; lia.
Qed.

Lemma digit_codes d : isDigit d = true -> (48 <= d <= 57)%N.
Proof.
  unfold isDigit. intros H. apply andb_true_iff in H as [L U].
  apply N.leb_le in L, U. lia.
Qed.

Lemma space_not_equals c : isWhiteSpace c = true -> (c =? 61)%N = false.
Proof.
  intros W. apply N.eqb_neq. intros ->. discriminate W.
Qed.

(** *** What a match tells about the string *)

Lemma matchNumeral_sound (s num : jsstring) :
  matchNumeral s = Some num ->
  exists ws sign d rest,
    s = ws ++ sign ++ d :: rest
    /\ forallb isWhiteSpace ws = true /\ isSign sign /\ isDigit d = true.
Proof.
  unfold matchNumeral.
  destruct (dropWhile_decompose isWhiteSpace s) as [ws [E F]].
  set (r1 := dropWhile isWhiteSpace s) in *.
  intros M.
  assert (G : forall sign r2,
             r1 = sign ++ r2 -> isSign sign ->
             (let (intDigits, r3) := span isDigit r2 in
              if nonEmpty intDigits
              then
                let (point, r4) :=
                  match r3 with
                  | c :: r => if (c =? 46)%N then ([46%N], r) else ([], r3)
                  | [] => ([], r3)
                  end in
                let (fracDigits, _) := span isDigit r4 in
                Some (sign ++ intDigits ++ point ++ fracDigits)
              else None) = Some num ->
             exists d rest, r2 = d :: rest /\ isDigit d = true).
  { intros sign r2 _ _ H.
    destruct (span isDigit r2) as [ds r3] eqn:S.
    destruct ds as [|d ds]; [discriminate|].
    apply span_decompose in S as [-> Fd]. simpl in Fd.
    apply andb_true_iff in Fd as [Fd _].
    exists d, (ds ++ r3). split; [reflexivity | exact Fd]. }
  destruct r1 as [|c r] eqn:R1.
  - destruct (G [] [] eq_refl (or_introl eq_refl) M) as (d & rest & X & _).
    discriminate.
  - destruct (c =? 45)%N eqn:C.
    + apply N.eqb_eq in C. subst c.
      destruct (G [45%N] r eq_refl (or_intror eq_refl) M) as (d & rest & -> & D).
      exists ws, [45%N], d, rest. rewrite E.
      repeat split; auto. right. reflexivity.
    + destruct (G [] (c :: r) eq_refl (or_introl eq_refl) M)
        as (d & rest & X & D).
      exists ws, [], d, rest. rewrite E, X.
      repeat split; auto. left. reflexivity.
Qed.

Lemma matchHere_sound (s : jsstring) (op : operator) (num : jsstring) :
  matchHere s = Some (op, num) ->
  exists ws sign d rest,
    s = operatorText op ++ ws ++ sign ++ d :: rest
    /\ forallb isWhiteSpace ws = true /\ isSign sign /\ isDigit d = true.
Proof.
  destruct s as [|c r]; [discriminate|]. unfold matchHere.
  assert (K : forall o r' pre,
             option_map (pair o) (matchNumeral r') = Some (op, num) ->
             c :: r = pre ++ r' -> pre = operatorText o ->
             exists ws sign d rest,
               c :: r = operatorText op ++ ws ++ sign ++ d :: rest
               /\ forallb isWhiteSpace ws = true /\ isSign sign
               /\ isDigit d = true).
  { intros o r' pre M E P.
    destruct (matchNumeral r') as [n|] eqn:N; [|discriminate].
    simpl in M. inversion M; subst o n.
    destruct (matchNumeral_sound r' num N) as (ws & sign & d & rest & -> & H).
    exists ws, sign, d, rest. rewrite E, P. split; [reflexivity | exact H]. }
  assert (AE : forall r', afterEquals r = Some r' -> r = 61%N :: r').
  { unfold afterEquals. destruct r as [|e r0]; [discriminate|].
    destruct (e =? 61)%N eqn:Ee; [|discriminate].
    apply N.eqb_eq in Ee. intros r' X. inversion X. subst. reflexivity. }
  destruct (c =? 62)%N eqn:C62.
  { apply N.eqb_eq in C62. subst c.
    destruct (afterEquals r) as [r'|] eqn:A; intros M.
    - apply (K OpGe r' (js ">=") M); [|reflexivity].
      rewrite (AE r' eq_refl). reflexivity.
    - apply (K OpGt r (js ">") M); reflexivity. }
  destruct (c =? 60)%N eqn:C60.
  { apply N.eqb_eq in C60. subst c.
    destruct (afterEquals r) as [r'|] eqn:A; intros M.
    - apply (K OpLe r' (js "<=") M); [|reflexivity].
      rewrite (AE r' eq_refl). reflexivity.
    - apply (K OpLt r (js "<") M); reflexivity. }
  destruct (c =? 61)%N eqn:C61; [|discriminate].
  apply N.eqb_eq in C61. subst c. intros M.
  apply (K OpEq r (js "=") M); reflexivity.
Qed.

Lemma numericMatch_cons (x : N) (r : jsstring) :
  numericMatch (x :: r) =
  match matchHere (x :: r) with
  | Some m => Some m
  | None => numericMatch r
  end.
Proof. reflexivity. Qed.

Lemma numericMatch_sound (c : jsstring) (m : operator * jsstring) :
  numericMatch c = Some m -> containsComparison c.
Proof.
  induction c as [|x r IH].
  - discriminate.
  - rewrite numericMatch_cons.
    destruct (matchHere (x :: r)) as [[op num]|] eqn:M.
    + intros _.
      destruct (matchHere_sound _ _ _ M) as (ws & sign & d & rest & E & H).
      exists [], op, ws, sign, d, rest. split; [exact E | exact H].
    + intros N. destruct (IH N) as (pre & op & ws & sign & d & rest & E & H).
      exists (x :: pre), op, ws, sign, d, rest. rewrite E.
      split; [reflexivity | exact H].
Qed.

(** *** Every comparison in the string is found *)

Lemma matchNumeral_complete (ws sign : jsstring) (d : N) (rest : jsstring) :
  forallb isWhiteSpace ws = true -> isSign sign -> isDigit d = true ->
  exists num, matchNumeral (ws ++ sign ++ d :: rest) = Some num.
Proof.
  intros W S D. unfold matchNumeral. rewrite (dropWhile_app_all _ _ _ W).
  pose proof (digit_codes d D) as Cd.
  assert (Tail : forall (sg ds : jsstring) (r3 : jsstring),
             exists num,
               (let (point, r4) :=
                  match r3 with
                  | c :: r => if (c =? 46)%N then ([46%N], r) else ([], r3)
                  | [] => ([], r3)
                  end in
                let (fracDigits, _) := span isDigit r4 in
                Some (sg ++ ds ++ point ++ fracDigits)) = Some num).
  { intros sg ds r3. destruct r3 as [|c r]; [|destruct (c =? 46)%N];
      match goal with
      | |- context [span isDigit ?x] => destruct (span isDigit x)
      end; eexists; reflexivity. }
  destruct (span_head isDigit d rest D) as (a & b & Sp).
  destruct S as [-> | ->].
  - cbn [app dropWhile]. rewrite (digit_not_space d D).
    replace (d =? 45)%N with false by (symmetry; apply N.eqb_neq; lia).
    rewrite Sp. cbn [nonEmpty]. apply Tail.
  - cbn [js list_ascii_of_string map app dropWhile].
    change (N_of_ascii "-") with 45%N.
    replace (isWhiteSpace 45) with false by reflexivity.
    rewrite N.eqb_refl. rewrite Sp. cbn [nonEmpty]. apply Tail.
Qed.

Lemma afterEquals_none (ws sign : jsstring) (d : N) (rest : jsstring) :
  forallb isWhiteSpace ws = true -> isSign sign -> isDigit d = true ->
  afterEquals (ws ++ sign ++ d :: rest) = None.
Proof.
  intros W S D. pose proof (digit_codes d D) as Cd.
  destruct ws as [|w ws].
  - destruct S as [-> | ->]; simpl.
    + replace (d =? 61)%N with false by (symmetry; apply N.eqb_neq; lia).
      reflexivity.
    + reflexivity.
  - simpl in *. apply andb_true_iff in W as [Ww _].
    rewrite (space_not_equals w Ww). reflexivity.
Qed.

Lemma matchHere_complete (op : operator) (ws sign : jsstring) (d : N)
      (rest : jsstring) :
  forallb isWhiteSpace ws = true -> isSign sign -> isDigit d = true ->
  exists m,
    matchHere (operatorText op ++ ws ++ sign ++ d :: rest) = Some m.
Proof.
  intros W S D.
  destruct (matchNumeral_complete ws sign d rest W S D) as [num M].
  pose proof (afterEquals_none ws sign d rest W S D) as A.
  destruct op; cbn [operatorText js list_ascii_of_string map app matchHere];
    repeat match goal with
           | |- context [N_of_ascii ?a] =>
               let v := eval vm_compute in (N_of_ascii a) in
               change (N_of_ascii a) with v
           end;
    cbn [N.eqb Pos.eqb afterEquals]; rewrite ?A, M; eexists; reflexivity.
Qed.

Lemma numericMatch_complete (c : jsstring) :
  containsComparison c -> exists m, numericMatch c = Some m.
Proof.
  intros (pre & op & ws & sign & d & rest & -> & W & S & D).
  induction pre as [|x pre IH].
  - destruct (matchHere_complete op ws sign d rest W S D) as [m M].
    cbn [app].
    destruct (operatorText op ++ ws ++ sign ++ d :: rest) as [|y r] eqn:E;
      [discriminate M|].
    rewrite numericMatch_cons, M. exists m. reflexivity.
  - cbn [app]. rewrite numericMatch_cons.
    destruct (matchHere _) as [m|]; [exists m; reflexivity | exact IH].
Qed.

Lemma numericMatch_none_iff (c : jsstring) :
  numericMatch c = None <-> ~ containsComparison c.
Proof.
  split.
  - intros N C. destruct (numericMatch_complete c C) as [m M]. congruence.
  - intros NC. destruct (numericMatch c) as [m|] eqn:M; [|reflexivity].
    exfalso. apply NC. apply (numericMatch_sound c m M).
Qed.

(** *** The evaluator *)

Lemma isKeyword_true_iff (ks : list jsstring) (c : jsstring) :
  isKeyword ks c = true <-> In c ks.
Proof.
  unfold isKeyword. rewrite existsb_exists. split.
  - intros (k & I & E). apply str_eqb_eq in E. subst. exact I.
  - intros I. exists c. split; [exact I | apply str_eqb_refl].
Qed.

Lemma keyword_has_no_comparison (c : jsstring) :
  isKeywordOrLiteral c -> numericMatch c = None.
Proof.
  unfold isKeywordOrLiteral, trendKeywords, pauseKeywords. simpl.
  intros H.
  repeat match goal with
         | H : _ \/ _ |- _ => destruct H as [H|H]
         | H : False |- _ => destruct H
         end; subst c; reflexivity.
Qed.

Lemma strictEqStr_false (v : jsval) (c : jsstring) :
  v <> VStr c -> strictEqStr v c = false.
Proof.
  intros NE. destruct v; simpl; try reflexivity.
  apply str_eqb_neq. congruence.
Qed.

Lemma strictEqBool_false (v : jsval) (b : bool) :
  v <> VBool b -> strictEqBool v b = false.
Proof.
  intros NE. destruct v as [|c| | |]; simpl; try reflexivity.
  destruct c, b; simpl; congruence.
Qed.

Lemma evaluateCondition_unparseable (v : jsval) (c : jsstring) :
  ~ containsComparison c -> ~ isKeywordOrLiteral c ->
  evaluateCondition v c = false.
Proof.
  intros NC NK. unfold evaluateCondition.
  rewrite (proj2 (numericMatch_none_iff c) NC).
  unfold isKeywordOrLiteral in NK.
  destruct (isKeyword trendKeywords c) eqn:T.
  { exfalso. apply NK. left. apply isKeyword_true_iff, T. }
  destruct (isKeyword pauseKeywords c) eqn:P.
  { exfalso. apply NK. right. left. apply isKeyword_true_iff, P. }
  destruct (str_eqb c (js "true")) eqn:Bt.
  { exfalso. apply NK. right. right. left. apply str_eqb_eq, Bt. }
  destruct (str_eqb c (js "false")) eqn:Bf.
  { exfalso. apply NK. right. right. right. apply str_eqb_eq, Bf. }
  reflexivity.
Qed.

Lemma evaluateCondition_not_a_number (v : jsval) (c : jsstring) :
  containsComparison c -> numberOf v = NaN -> evaluateCondition v c = false.
Proof.
  intros C NN. unfold evaluateCondition.
  destruct (numericMatch_complete c C) as [[op num] M]. rewrite M.
  change (match v with VNum n => n | _ => parseFloatOf v end)
    with (numberOf v).
  rewrite NN. reflexivity.
Qed.

Lemma evaluateCondition_keyword (v : jsval) (c : jsstring) :
  In c trendKeywords \/ In c pauseKeywords -> v <> VStr c ->
  evaluateCondition v c = false.
Proof.
  intros K NE. unfold evaluateCondition.
  rewrite keyword_has_no_comparison
    by (unfold isKeywordOrLiteral; tauto).
  rewrite (strictEqStr_false v c NE).
  destruct (isKeyword trendKeywords c) eqn:T; [reflexivity|].
  destruct (isKeyword pauseKeywords c) eqn:P; [reflexivity|].
  destruct K as [K|K]; apply isKeyword_true_iff in K; congruence.
Qed.

Lemma evaluateCondition_boolean (v : jsval) (b : bool) :
  v <> VBool b ->
  evaluateCondition v (js (if b then "true" else "false")) = false.
Proof.
  intros NE. unfold evaluateCondition.
  pose proof (strictEqBool_false v b NE) as F.
  destruct b; vm_compute numericMatch; cbv iota; vm_compute isKeyword;
    cbv iota; vm_compute str_eqb; cbv iota; exact F.
Qed.

(** C6, as the code has it: the evaluator answers false on a condition
    that holds no comparison anywhere and is no keyword or literal; on a
    condition that holds a comparison when the value, read as a number,
    is NaN; on a keyword when the value is not that very string; and on
    a boolean literal when the value is not that boolean. *)
Theorem evaluateCondition_fails_closed (v : jsval) (c : jsstring) :
  (~ containsComparison c -> ~ isKeywordOrLiteral c ->
   evaluateCondition v c = false)
  /\ (containsComparison c -> numberOf v = NaN ->
      evaluateCondition v c = false)
  /\ (In c trendKeywords \/ In c pauseKeywords -> v <> VStr c ->
      evaluateCondition v c = false)
  /\ (forall b : bool,
        c = js (if b then "true" else "false") -> v <> VBool b ->
        evaluateCondition v c = false).
Proof.
  split; [apply evaluateCondition_unparseable|].
  split; [apply evaluateCondition_not_a_number|].
  split; [apply evaluateCondition_keyword|].
  intros b -> NE. apply evaluateCondition_boolean, NE.
Qed.

(** The pause location "start" against the condition "> 40": the
    condition holds a comparison and the value reads as NaN. *)
Lemma evaluateCondition_fails_closed_witness :
  containsComparison (js "> 40")
  /\ numberOf (VStr (js "start")) = NaN
  /\ evaluateCondition (VStr (js "start")) (js "> 40") = false.
Proof.
  assert (C : containsComparison (js "> 40")).
  { exists [], OpGt, (js " "), [], 52%N, (js "0").
    repeat split. left. reflexivity. }
  split; [exact C|]. split; [reflexivity|].
  apply (proj1 (proj2
           (evaluateCondition_fails_closed (VStr (js "start")) (js "> 40")))).
  - exact C.
  - reflexivity.
Defined.

Lemma not_relational_without_operator (c : N) (r : jsstring) :
  c <> 62%N -> c <> 60%N -> c <> 61%N -> ~ isRelational (c :: r).
Proof.
  intros G L E (op & ws & num & X & _).
  destruct op; simpl in X; inversion X; congruence.
Qed.

(** C6 as stated fails.  The condition "!= 5" is outside the grammar,
    yet on the value 5 the evaluator finds "= 5" in it and answers true.
    The string "45" and the array [45] are of the wrong type for the
    relational condition "> 40", yet both are read as the number 45 and
    the evaluator answers true. *)
Lemma evaluateCondition_not_fail_closed :
  (~ supportedGrammar (js "!= 5")
   /\ evaluateCondition (intVal 5) (js "!= 5") = true)
  /\ (typeMismatch (VStr (js "45")) (js "> 40")
      /\ evaluateCondition (VStr (js "45")) (js "> 40") = true)
  /\ (typeMismatch (VArr [Fin 45]) (js "> 40")
      /\ evaluateCondition (VArr [Fin 45]) (js "> 40") = true).
Proof.
  assert (R : isRelational (js "> 40")).
  { exists OpGt, (js " "), (js "40"). repeat split.
    exists [], 52%N, (js "0"), []. repeat split.
    - left. reflexivity.
    - left. reflexivity. }
  split; [|split].
  - split; [|reflexivity].
    intros [Rel | K].
    + revert Rel. apply not_relational_without_operator; discriminate.
    + unfold isKeywordOrLiteral, trendKeywords, pauseKeywords in K.
      simpl in K.
      repeat match goal with
             | H : _ \/ _ |- _ => destruct H as [H|H]
             | H : False |- _ => destruct H
             end; discriminate.
  - split; [|reflexivity]. left. split; [exact R | discriminate].
  - split; [|reflexivity]. left. split; [exact R | discriminate].
Qed.

End EvaluatorFacts.


(* ================================================================== *)
(** ** The trigger engine *)
(* ================================================================== *)

Module EngineFacts.
Import JS Types Spec JSFacts Evaluator Engine.

Lemma requiredInterval_cooldown (st : engine) (rl : TriggerRule) :
  requiredInterval st rl = cooldown st (priority rl).
Proof.
  unfold requiredInterval, cooldown, highPriorityInterval, minInterval,
    highOverride, devCooldown, configuredCooldown.
  destruct (priority rl), (devMode st); cbn [isHigh]; try reflexivity;
    try lia.
  destruct (priorityOverride _) as [high|]; [|reflexivity].
  destruct (high =? 0); lia.
Qed.

(** *** One tick *)

(** A tick that returns nothing leaves the engine as it was. *)
Lemma checkLoop_quiet (onTrigger : listener) (st : engine) (now : Z)
      (m : WritingMetrics) (wt : jsstring) (ctx : WritingContext)
      (entries : list (jsstring * TriggerRule)) (st' : engine) :
  checkLoop onTrigger st now m wt ctx entries = (st', None) -> st' = st.
Proof.
  induction entries as [|[tname rl] rest IH]; simpl.
  - intros E. inversion E. reflexivity.
  - destruct (negb (appliesToType rl wt)); [exact IH|].
    destruct (evaluateConditions (conditions rl) m); [|exact IH].
    destruct (_ <? _); [exact IH|]. discriminate.
Qed.

Lemma checkTriggers_quiet (onTrigger : listener) (st : engine) (now : Z)
      (m : WritingMetrics) (wt : jsstring) (ctx : WritingContext)
      (st' : engine) :
  checkTriggers onTrigger st now m wt ctx = (st', None) -> st' = st.
Proof.
  unfold checkTriggers. destruct (isPaused st).
  - intros E. inversion E. reflexivity.
  - apply checkLoop_quiet.
Qed.

(** A tick that fires: the rule that fired, where it stands among the
    entries, and what was done. *)
Lemma checkLoop_fires (onTrigger : listener) (st : engine) (now : Z)
      (m : WritingMetrics) (wt : jsstring) (ctx : WritingContext)
      (entries : list (jsstring * TriggerRule))
      (st' : engine) (res : TriggerResult) :
  checkLoop onTrigger st now m wt ctx entries = (st', Some res) ->
  exists pre tname rl post,
    entries = pre ++ (tname, rl) :: post
    /\ res = resultOf tname rl m ctx
    /\ appliesToType rl wt = true
    /\ evaluateConditions (conditions rl) m = true
    /\ requiredInterval st rl <= now - lastTriggerTime st
    /\ st' = notify onTrigger res (recordFire st now tname m wt)
    /\ forall post',
         checkLoop onTrigger st now m wt ctx (pre ++ (tname, rl) :: post')
         = (st', Some res).
Proof.
  induction entries as [|[tname rl] rest IH]; simpl; [discriminate|].
  assert (Skip :
    checkLoop onTrigger st now m wt ctx rest = (st', Some res) ->
    (forall post',
       checkLoop onTrigger st now m wt ctx ((tname, rl) :: post') =
       checkLoop onTrigger st now m wt ctx post') ->
    exists pre tname0 rl0 post,
      (tname, rl) :: rest = pre ++ (tname0, rl0) :: post
      /\ res = resultOf tname0 rl0 m ctx
      /\ appliesToType rl0 wt = true
      /\ evaluateConditions (conditions rl0) m = true
      /\ requiredInterval st rl0 <= now - lastTriggerTime st
      /\ st' = notify onTrigger res (recordFire st now tname0 m wt)
      /\ forall post',
           checkLoop onTrigger st now m wt ctx
                     (pre ++ (tname0, rl0) :: post')
           = (st', Some res)).
  { intros E Same.
    destruct (IH E) as (pre & t0 & r0 & post & -> & R & A & C & I & S & F).
    exists ((tname, rl) :: pre), t0, r0, post.
    repeat split; auto.
    intros post'. cbn [app]. rewrite Same. apply F. }
  destruct (negb (appliesToType rl wt)) eqn:A.
  { intros E. apply (Skip E). intros post'. simpl. rewrite A. reflexivity. }
  destruct (evaluateConditions (conditions rl) m) eqn:C.
  2:{ intros E. apply (Skip E). intros post'. simpl. rewrite A, C.
      reflexivity. }
  destruct (now - lastTriggerTime st <? requiredInterval st rl) eqn:I.
  { intros E. apply (Skip E). intros post'. simpl. rewrite A, C, I.
    reflexivity. }
  intros E. inversion E; subst. clear E.
  exists [], tname, rl, rest.
  apply negb_false_iff in A. apply Z.ltb_ge in I.
  repeat split; auto.
  intros post'. simpl.
  rewrite A, C. simpl.
  replace (now - lastTriggerTime st <? requiredInterval st rl) with false
    by (symmetry; apply Z.ltb_ge; exact I).
  reflexivity.
Qed.

(** Pushing an event keeps the newest 100 of the old events and the new
    one: nothing but the oldest events is dropped, and the new event is
    the last. *)
Lemma pushEvent_appends_one (h : list TriggerEvent) (ev : TriggerEvent) :
  exists dropped kept,
    h = dropped ++ kept
    /\ pushEvent h ev = kept ++ [ev]
    /\ List.length (pushEvent h ev) = Nat.min 100 (S (List.length h)).
Proof.
  unfold pushEvent. rewrite length_app. cbn [List.length].
  destruct (100 <? List.length h + 1)%nat eqn:Full.
  - apply Nat.ltb_lt in Full.
    exists (firstn (List.length h + 1 - 100) h),
           (skipn (List.length h + 1 - 100) h).
    split; [symmetry; apply firstn_skipn|]. split.
    + rewrite skipn_app.
      replace (List.length h + 1 - 100 - List.length h)%nat with 0%nat by lia.
      reflexivity.
    + rewrite length_skipn, length_app. cbn [List.length]. lia.
  - apply Nat.ltb_ge in Full. exists [], h.
    repeat split. rewrite length_app. cbn [List.length]. lia.
Qed.

(** C3: a tick that fires found one rule among the entries; the engine
    handed to the listener already has the time of the tick as its
    last-fire time and the one new event at the end of its history
    (the oldest events dropped past 100); the tick returns that one
    result; and whatever entries follow the rule that fired, the loop
    returns the same, so none of them is evaluated. *)
Theorem tick_fires_exactly_one (onTrigger : listener) (st : engine)
        (now : Z) (m : WritingMetrics) (wt : jsstring) (ctx : WritingContext)
        (st' : engine) (res : TriggerResult) :
  checkTriggers onTrigger st now m wt ctx = (st', Some res) ->
  exists pre tname rl post dropped kept recorded,
    triggers (rules st) = pre ++ (tname, rl) :: post
    /\ res = resultOf tname rl m ctx
    /\ triggerHistory st = dropped ++ kept
    /\ lastTriggerTime recorded = now
    /\ triggerHistory recorded = kept ++ [eventOf tname now m wt]
    /\ List.length (triggerHistory recorded) =
       Nat.min 100 (S (List.length (triggerHistory st)))
    /\ rules recorded = rules st
    /\ isPaused recorded = isPaused st
    /\ devMode recorded = devMode st
    /\ st' = notify onTrigger res recorded
    /\ forall post',
         checkLoop onTrigger st now m wt ctx (pre ++ (tname, rl) :: post')
         = (st', Some res).
Proof.
  unfold checkTriggers. destruct (isPaused st) eqn:P; [discriminate|].
  intros E.
  destruct (checkLoop_fires _ _ _ _ _ _ _ _ _ E)
    as (pre & tname & rl & post & En & R & _ & _ & _ & S & F).
  destruct (pushEvent_appends_one (triggerHistory st) (eventOf tname now m wt))
    as (dropped & kept & H & Pu & Len).
  exists pre, tname, rl, post, dropped, kept, (recordFire st now tname m wt).
  repeat split; auto.
Qed.

(** With the default rules, a writer paused for 200 seconds makes the
    rule "stuck" fire at the first tick. *)
Lemma tick_fires_exactly_one_witness :
  let st := create getDefaultTriggerRules in
  let res := resultOf (js "stuck") stuck pausedMetrics sceneContext in
  checkTriggers None st 1000000 pausedMetrics (js "scene") sceneContext
  = (recordFire st 1000000 (js "stuck") pausedMetrics (js "scene"), Some res)
  /\ exists pre post,
       triggers (rules st) = pre ++ (js "stuck", stuck) :: post.
Proof.
  cbv zeta.
  assert (E : checkTriggers None (create getDefaultTriggerRules) 1000000
                pausedMetrics (js "scene") sceneContext
              = (recordFire (create getDefaultTriggerRules) 1000000
                   (js "stuck") pausedMetrics (js "scene"),
                 Some (resultOf (js "stuck") stuck pausedMetrics
                         sceneContext))) by reflexivity.
  split; [exact E|].
  destruct (tick_fires_exactly_one _ _ _ _ _ _ _ _ E)
    as (pre & tname & rl & post & _ & _ & _ & En & R & _).
  inversion R. subst tname rl. exists pre, post. exact En.
Defined.

(** *** Sequences of calls *)

Lemma exec_steady (onTrigger : listener) (st st1 : engine) (c : call)
      (o : outcome) :
  passive onTrigger -> steady c -> exec onTrigger st c = (st1, o) ->
  rules st1 = rules st /\ devMode st1 = devMode st
  /\ match o with
     | Scheduled now r =>
         lastTriggerTime st1 = now
         /\ cooldown st (priority (rule r)) <= now - lastTriggerTime st
     | _ => lastTriggerTime st1 = lastTriggerTime st
     end.
Proof.
  intros Pa Sc. destruct c; simpl in Sc; try contradiction; simpl.
  - destruct (checkTriggers onTrigger st now m wt ctx) as [s [r|]] eqn:E;
      intros X; inversion X; subst; clear X.
    + unfold checkTriggers in E. destruct (isPaused st); [discriminate|].
      destruct (checkLoop_fires _ _ _ _ _ _ _ _ _ E)
        as (pre & tname & rl & post & _ & R & _ & _ & I & S & _).
      rewrite Pa in S. subst st1 r. simpl.
      rewrite <- requiredInterval_cooldown. repeat split. exact I.
    + apply checkTriggers_quiet in E. subst. repeat split.
  - unfold forceTrigger.
    destruct (lookupRule _ _); intros X; inversion X; subst;
      rewrite ?Pa; repeat split.
  - intros X; inversion X; subst. repeat split.
  - intros X; inversion X; subst. repeat split.
Qed.

Lemma spaced_same_settings (st st1 : engine) (last : Z)
      (fires : list (Z * TriggerResult)) :
  rules st1 = rules st -> devMode st1 = devMode st ->
  spaced st1 last fires -> spaced st last fires.
Proof.
  intros R D. revert last. induction fires as [|[t r] rest IH];
    intros last; simpl; [tauto|].
  intros [C S]. split; [|apply IH, S].
  unfold cooldown in *. rewrite <- R, <- D. exact C.
Qed.

Lemma execAll_cons (onTrigger : listener) (st : engine) (c : call)
      (cs : list call) :
  execAll onTrigger st (c :: cs) =
  (fst (execAll onTrigger (fst (exec onTrigger st c)) cs),
   snd (exec onTrigger st c)
   :: snd (execAll onTrigger (fst (exec onTrigger st c)) cs)).
Proof.
  simpl. destruct (exec onTrigger st c) as [st1 o]. simpl.
  destruct (execAll onTrigger st1 cs). reflexivity.
Qed.

Lemma execAll_spaced (onTrigger : listener) (cs : list call) (st : engine) :
  passive onTrigger -> Forall steady cs ->
  spaced st (lastTriggerTime st) (firesOf onTrigger st cs).
Proof.
  intros Pa. revert st. induction cs as [|c cs IH]; intros st St.
  - exact I.
  - inversion St as [|? ? Sc Scs]; subst.
    unfold firesOf. rewrite execAll_cons. cbn [snd].
    destruct (exec onTrigger st c) as [st1 o] eqn:E. cbn [fst snd].
    destruct (exec_steady _ _ _ _ _ Pa Sc E) as (R & D & L).
    specialize (IH st1 Scs). unfold firesOf in IH.
    apply (spaced_same_settings st st1) in IH; auto.
    destruct o as [now r| |]; cbn [scheduledFires].
    + destruct L as [L C]. rewrite L in IH. split; assumption.
    + rewrite L in IH. exact IH.
    + rewrite L in IH. exact IH.
Qed.

Lemma spaced_from_last (st : engine) (fires : list (Z * TriggerResult))
      (last : Z) (j : nat) (t : Z) (r : TriggerResult) :
  (forall p, 0 <= cooldown st p) ->
  spaced st last fires -> nth_error fires j = Some (t, r) ->
  cooldown st (priority (rule r)) <= t - last.
Proof.
  intros NN. revert last j.
  induction fires as [|[t0 r0] rest IH]; intros last j S N.
  - destruct j; discriminate.
  - destruct S as [C S]. destruct j as [|j]; simpl in N.
    + inversion N; subst. exact C.
    + specialize (IH t0 j S N).
      pose proof (NN (priority (rule r0))). lia.
Qed.

Lemma spaced_adjacent (st : engine) (fires : list (Z * TriggerResult))
      (last : Z) (i : nat) (t1 t2 : Z) (r1 r2 : TriggerResult) :
  spaced st last fires ->
  nth_error fires i = Some (t1, r1) ->
  nth_error fires (S i) = Some (t2, r2) ->
  cooldown st (priority (rule r2)) <= t2 - t1.
Proof.
  revert last i. induction fires as [|[t0 r0] rest IH]; intros last i S A B.
  - destruct i; discriminate.
  - destruct S as [_ S]. destruct i as [|i]; simpl in A, B.
    + inversion A; subst. destruct rest as [|[t3 r3] rest]; [discriminate|].
      simpl in B. inversion B; subst. exact (proj1 S).
    + exact (IH t0 i S A B).
Qed.

Lemma spaced_pairs (st : engine) (fires : list (Z * TriggerResult))
      (last : Z) (i j : nat) (t1 t2 : Z) (r1 r2 : TriggerResult) :
  (forall p, 0 <= cooldown st p) ->
  spaced st last fires -> (i < j)%nat ->
  nth_error fires i = Some (t1, r1) ->
  nth_error fires j = Some (t2, r2) ->
  cooldown st (priority (rule r2)) <= t2 - t1.
Proof.
  intros NN. revert last i j.
  induction fires as [|[t0 r0] rest IH]; intros last i j S Lt A B.
  - destruct i; discriminate.
  - destruct S as [_ S]. destruct j as [|j]; [lia|]. simpl in B.
    destruct i as [|i]; simpl in A.
    + inversion A; subst. exact (spaced_from_last st rest t1 j t2 r2 NN S B).
    + apply (IH t0 i j S); [lia | exact A | exact B].
Qed.

(** C2, as the code has it: over ticks, forced triggers, pauses and
    resumes, every scheduled fire comes at least the cooldown of its own
    rule after the scheduled fire before it, and the first one after the
    last-fire time the engine started with.  The cooldown is the
    configured one, or, in dev mode, 60 seconds and 30 seconds for a
    rule of high priority.  When no cooldown is negative the bound holds
    between any two scheduled fires. *)
Theorem fires_respect_cooldown (onTrigger : listener) (st : engine)
        (cs : list call) :
  passive onTrigger -> Forall steady cs ->
  let fires := firesOf onTrigger st cs in
  (forall i t1 r1 t2 r2,
     nth_error fires i = Some (t1, r1) ->
     nth_error fires (S i) = Some (t2, r2) ->
     cooldown st (priority (rule r2)) <= t2 - t1)
  /\ (forall t r,
        nth_error fires 0 = Some (t, r) ->
        cooldown st (priority (rule r)) <= t - lastTriggerTime st)
  /\ ((forall p, 0 <= cooldown st p) ->
      forall i j t1 r1 t2 r2,
        (i < j)%nat ->
        nth_error fires i = Some (t1, r1) ->
        nth_error fires j = Some (t2, r2) ->
        cooldown st (priority (rule r2)) <= t2 - t1).
Proof.
  intros Pa St fires.
  pose proof (execAll_spaced onTrigger cs st Pa St) as S. fold fires in S.
  split; [|split].
  - intros i t1 r1 t2 r2. apply (spaced_adjacent st fires _ i _ _ _ _ S).
  - intros t r N. destruct fires as [|[t0 r0] rest]; [discriminate|].
    simpl in N. inversion N; subst. exact (proj1 S).
  - intros NN i j t1 r1 t2 r2.
    apply (spaced_pairs st fires _ i j _ _ _ _ NN S).
Qed.

(** The default rules out of dev mode: a paused writer makes "stuck"
    fire at two ticks 180 seconds apart, and no closer. *)
Lemma fires_respect_cooldown_witness :
  let st := create getDefaultTriggerRules in
  let cs := [ Tick 1000000 pausedMetrics (js "scene") sceneContext;
              Tick 1090000 pausedMetrics (js "scene") sceneContext;
              Tick 1180000 pausedMetrics (js "scene") sceneContext ] in
  let res := resultOf (js "stuck") stuck pausedMetrics sceneContext in
  passive None /\ Forall steady cs
  /\ firesOf None st cs = [(1000000, res); (1180000, res)]
  /\ cooldown st High <= 1180000 - 1000000.
Proof.
  cbv zeta.
  assert (Pa : passive None) by (intros r s; reflexivity).
  assert (St : Forall steady
                 [ Tick 1000000 pausedMetrics (js "scene") sceneContext;
                   Tick 1090000 pausedMetrics (js "scene") sceneContext;
                   Tick 1180000 pausedMetrics (js "scene") sceneContext ])
    by (repeat constructor).
  split; [exact Pa|]. split; [exact St|]. split; [reflexivity|].
  pose proof (fires_respect_cooldown None (create getDefaultTriggerRules)
                _ Pa St) as H.
  cbv zeta in H. destruct H as [Adj _].
  apply (Adj 0%nat 1000000
             (resultOf (js "stuck") stuck pausedMetrics sceneContext)
             1180000
             (resultOf (js "stuck") stuck pausedMetrics sceneContext));
    reflexivity.
Defined.

(** C2 as stated fails in dev mode.  With the default rules (global
    cooldown 300 seconds, override 180 seconds), "rushing" fires at two
    ticks 60 seconds apart and "stuck", of high priority, at two ticks
    30 seconds apart. *)
Lemma dev_mode_shortens_cooldown :
  let st := setDevMode (create getDefaultTriggerRules) true in
  let gs := globalSettings (rules st) in
  let fast := resultOf (js "rushing") rushing rushingMetrics sceneContext in
  let slow := resultOf (js "stuck") stuck pausedMetrics sceneContext in
  (firesOf None st
     [ Tick 1000000 rushingMetrics (js "scene") sceneContext;
       Tick 1060000 rushingMetrics (js "scene") sceneContext ]
   = [(1000000, fast); (1060000, fast)]
   /\ priority (rule fast) = Medium
   /\ 1060000 - 1000000 < 1000 * minimumIntervalBetweenTriggers gs)
  /\ (firesOf None st
        [ Tick 1000000 pausedMetrics (js "scene") sceneContext;
          Tick 1030000 pausedMetrics (js "scene") sceneContext ]
      = [(1000000, slow); (1030000, slow)]
      /\ priority (rule slow) = High
      /\ priorityOverride gs = Some 180
      /\ 1030000 - 1000000 < 1000 * 180).
Proof. cbv zeta. repeat split. Qed.

(** *** Forced triggers *)

(** C10: forcing a rule that exists returns its result, whatever the
    pause flag and the last-fire time are, and hands the engine to the
    listener as it was; with a listener that does not call the engine
    back, the engine is unchanged, and the calls that follow end in the
    same engine with the same scheduled fires as without the forced
    trigger. *)
Theorem forceTrigger_frames_engine (onTrigger : listener) (st : engine)
        (tname : jsstring) (rl : TriggerRule) (m : WritingMetrics)
        (ctx : WritingContext) :
  lookupRule (triggers (rules st)) tname = Some rl ->
  let res := resultOf tname rl m ctx in
  forceTrigger onTrigger st tname m ctx
  = (notify onTrigger res st, Some res)
  /\ (passive onTrigger ->
      forceTrigger onTrigger st tname m ctx = (st, Some res)
      /\ forall cs,
           fst (execAll onTrigger st (Force tname m ctx :: cs))
           = fst (execAll onTrigger st cs)
           /\ firesOf onTrigger st (Force tname m ctx :: cs)
              = firesOf onTrigger st cs).
Proof.
  intros L res.
  assert (E : forceTrigger onTrigger st tname m ctx
              = (notify onTrigger res st, Some res)).
  { unfold forceTrigger. rewrite L. reflexivity. }
  split; [exact E|]. intros Pa.
  rewrite Pa in E. split; [exact E|]. intros cs.
  unfold firesOf. rewrite execAll_cons. cbn [exec]. rewrite E.
  cbn [fst snd scheduledFires]. split; reflexivity.
Qed.

(** A paused engine that fired a moment ago: the tick is silent, the
    forced trigger returns the result of "stuck" and changes nothing. *)
Lemma forceTrigger_frames_engine_witness :
  let st := pause (recordFire (create getDefaultTriggerRules) 1000000
                     (js "stuck") pausedMetrics (js "scene")) in
  let res := resultOf (js "stuck") stuck pausedMetrics sceneContext in
  lookupRule (triggers (rules st)) (js "stuck") = Some stuck
  /\ passive None
  /\ checkTriggers None st 1000001 pausedMetrics (js "scene") sceneContext
     = (st, None)
  /\ forceTrigger None st (js "stuck") pausedMetrics sceneContext
     = (st, Some res).
Proof.
  cbv zeta.
  assert (Pa : passive None) by (intros r s; reflexivity).
  split; [reflexivity|]. split; [exact Pa|]. split; [reflexivity|].
  apply (proj2 (forceTrigger_frames_engine None
                  (pause (recordFire (create getDefaultTriggerRules) 1000000
                            (js "stuck") pausedMetrics (js "scene")))
                  (js "stuck") stuck pausedMetrics sceneContext eq_refl) Pa).
Defined.

End EngineFacts.


(* ================================================================== *)
(** ** The conversation *)
(* ================================================================== *)

Module SessionFacts.
Import JS Types Spec JSFacts Engine Session.

(** *** Writing closes the conversation *)

Lemma onEditorChange_closes (p : plugin) (content : jsstring) :
  conversing p -> autoClose (triggerRules p) = true ->
  content <> lastContent p ->
  onEditorChange p content =
  {| coachingView := hideChatInterface (coachingView p);
     claudeClient := resetConversation (claudeClient p);
     lastContent := content; triggerRules := triggerRules p;
     enabledTriggers := enabledTriggers p; inflight := inflight p |}.
Proof.
  unfold conversing. intros C A NE. unfold onEditorChange.
  rewrite C, A. apply str_eqb_neq in NE. rewrite NE. reflexivity.
Qed.

Lemma late_chat_reply (p : plugin) (n : nat) (text : jsstring) (now : Z) :
  nth_error (inflight p) n = Some ReqChat ->
  backendReply p n text now =
  {| coachingView := addChatMessage (coachingView p) (assistantSays text now);
     claudeClient := pushMessage (claudeClient p) (assistantSays text now);
     lastContent := lastContent p; triggerRules := triggerRules p;
     enabledTriggers := enabledTriggers p;
     inflight := removeNth n (inflight p) |}.
Proof.
  intros N. unfold backendReply. rewrite N. reflexivity.
Qed.

(** C4, as the code has it: in a conversation, with auto-close enabled,
    an edit that changes the content leaves the session idle at once:
    the view is out of conversation, the chat is hidden, and the turn
    histories of the view and of the client are empty.  The pending
    backend calls stay pending, and the answer to a pending chat call
    that arrives afterwards is appended to both turn histories; the
    view stays out of conversation and the chat stays hidden. *)
Theorem edit_closes_conversation (p : plugin) (content : jsstring) :
  conversing p -> autoClose (triggerRules p) = true ->
  content <> lastContent p ->
  let p' := onEditorChange p content in
  idle p'
  /\ chatVisible (coachingView p') = false
  /\ inflight p' = inflight p
  /\ forall n text now,
       nth_error (inflight p') n = Some ReqChat ->
       let p'' := backendReply p' n text now in
       isInConversation (coachingView p'') = false
       /\ chatVisible (coachingView p'') = false
       /\ conversationHistory (coachingView p'') = [assistantSays text now]
       /\ client_history (claudeClient p'') = [assistantSays text now].
Proof.
  intros C A NE p'. subst p'.
  rewrite (onEditorChange_closes p content C A NE).
  split; [repeat split|]. split; [reflexivity|]. split; [reflexivity|].
  intros n text now N. cbv zeta.
  rewrite (late_chat_reply _ n text now N). repeat split.
Qed.

(** The conversation opened by "stuck", a message sent and not yet
    answered, then the writer types. *)
Lemma edit_closes_conversation_witness :
  let p := step (inConversation getDefaultTriggerRules)
                (ChatMessage (js "hello") 3000) in
  conversing p /\ autoClose (triggerRules p) = true
  /\ js "typing" <> lastContent p
  /\ idle (onEditorChange p (js "typing"))
  /\ inflight (onEditorChange p (js "typing")) = [ReqChat].
Proof.
  cbv zeta.
  assert (C : conversing (step (inConversation getDefaultTriggerRules)
                               (ChatMessage (js "hello") 3000)))
    by reflexivity.
  assert (A : autoClose
                (triggerRules (step (inConversation getDefaultTriggerRules)
                                    (ChatMessage (js "hello") 3000))) = true)
    by reflexivity.
  assert (NE : js "typing" <>
               lastContent (step (inConversation getDefaultTriggerRules)
                                 (ChatMessage (js "hello") 3000)))
    by discriminate.
  split; [exact C|]. split; [exact A|]. split; [exact NE|].
  pose proof (edit_closes_conversation _ (js "typing") C A NE) as H.
  cbv zeta in H. destruct H as (I & _ & F & _).
  split; [exact I|]. rewrite F. reflexivity.
Defined.

(** C4 as stated fails in its second half.  After the edit has closed
    the conversation, the answer to the message that was still pending
    changes the session: both turn histories hold the late answer.  It
    is written into the hidden chat, and the next conversation that
    opens shows it. *)
Lemma late_reply_changes_session :
  let p := step (inConversation getDefaultTriggerRules)
                (ChatMessage (js "hello") 3000) in
  let closed := step p (EditorChange (js "typing")) in
  let late := step closed (Reply 0 (js "late answer") 5000) in
  let again :=
    run late [ TriggerFired stuckResult (js "metrics and text") 6000;
               Reply 0 (js "Paused again?") 7000 ] in
  idle closed
  /\ late <> closed
  /\ conversationHistory (coachingView late)
     = [assistantSays (js "late answer") 5000]
  /\ client_history (claudeClient late)
     = [assistantSays (js "late answer") 5000]
  /\ chatRendered (coachingView late)
     = Some [assistantSays (js "late answer") 5000]
  /\ chatVisible (coachingView again) = true
  /\ chatRendered (coachingView again)
     = Some [assistantSays (js "late answer") 5000].
Proof.
  cbv zeta. split; [repeat split|]. split; [|repeat split].
  intros E. apply (f_equal inflight) in E. discriminate E.
Qed.

(** *** The conversation limit *)

Lemma exchange_keeps_conversing (p : plugin) (text answer : jsstring)
      (now : Z) :
  hasApiKey (claudeClient p) = true -> inflight p = [] ->
  let p' := run p (exchange text answer now) in
  isInConversation (coachingView p') = isInConversation (coachingView p)
  /\ hasApiKey (claudeClient p') = true
  /\ inflight p' = []
  /\ triggerRules p' = triggerRules p
  /\ List.length (conversationHistory (coachingView p'))
     = (List.length (conversationHistory (coachingView p)) + 2)%nat
  /\ List.length (client_history (claudeClient p'))
     = (List.length (client_history (claudeClient p)) + 2)%nat.
Proof.
  intros K F. unfold exchange, run. cbn [fold_left step].
  unfold handleChatMessage. cbn [with_view claudeClient]. rewrite K.
  unfold backendReply. cbn [with_inflight with_client with_view inflight].
  rewrite F. cbn [app nth_error removeNth].
  cbn [with_inflight with_client with_view coachingView claudeClient
       inflight triggerRules pushMessage addChatMessage hasApiKey
       isInConversation conversationHistory client_history].
  rewrite !length_app. cbn [List.length].
  repeat split; try assumption; lia.
Qed.

Lemma run_app (p : plugin) (a b : list event) :
  run p (a ++ b) = run (run p a) b.
Proof. unfold run. apply fold_left_app. Qed.

(** C5, as the code has it: the configured limit is never read.  From a
    conversation with an API key and no pending call, any number [n] of
    exchanges leaves the session in conversation, whatever the limit
    is, and the turn histories of the view and of the client each grow
    by [2 * n] messages. *)
Theorem conversation_has_no_turn_limit (n : nat) (p : plugin)
        (text answer : jsstring) (now : Z) :
  conversing p -> hasApiKey (claudeClient p) = true -> inflight p = [] ->
  let p' := run p (exchanges n text answer now) in
  conversing p'
  /\ triggerRules p' = triggerRules p
  /\ List.length (conversationHistory (coachingView p'))
     = (List.length (conversationHistory (coachingView p)) + 2 * n)%nat
  /\ List.length (client_history (claudeClient p'))
     = (List.length (client_history (claudeClient p)) + 2 * n)%nat.
Proof.
  revert p. induction n as [|n IH]; intros p C K F.
  - cbn [exchanges run fold_left]. repeat split; try assumption; lia.
  - cbn [exchanges]. cbv zeta. rewrite run_app.
    destruct (exchange_keeps_conversing p text answer now K F)
      as (C1 & K1 & F1 & R1 & V1 & L1).
    unfold conversing in *. rewrite <- C1 in C.
    destruct (IH _ C K1 F1) as (C2 & R2 & V2 & L2).
    repeat split; try assumption; try congruence; lia.
Qed.

(** With the limit set to 3, four exchanges after the opening one. *)
Lemma conversation_has_no_turn_limit_witness :
  let p := inConversation (rulesWithLimit 3) in
  conversing p /\ hasApiKey (claudeClient p) = true /\ inflight p = []
  /\ conversing (run p (exchanges 4 (js "and then?") (js "go on") 3000)).
Proof.
  cbv zeta.
  assert (C : conversing (inConversation (rulesWithLimit 3)))
    by reflexivity.
  split; [exact C|]. split; [reflexivity|]. split; [reflexivity|].
  apply (conversation_has_no_turn_limit 4 _ (js "and then?") (js "go on")
           3000 C eq_refl eq_refl).
Defined.

(** C5 as stated fails.  With [maxConversationLength] set to 3, the
    session that "stuck" opened is still in conversation after four more
    exchanges; the view then holds 8 turns and the client 10. *)
Lemma conversation_exceeds_limit :
  let p := inConversation (rulesWithLimit 3) in
  let p' := run p (exchanges 4 (js "and then?") (js "go on") 3000) in
  option_map maxConversationLength
             (conversationRules (globalSettings (triggerRules p')))
  = Some 3
  /\ conversing p'
  /\ ~ idle p'
  /\ List.length (conversationHistory (coachingView p')) = 8%nat
  /\ List.length (client_history (claudeClient p')) = 10%nat.
Proof.
  cbv zeta. split; [reflexivity|]. split; [reflexivity|].
  split; [|split; reflexivity].
  intros [I _]. discriminate I.
Qed.

End SessionFacts.


(* ================================================================== *)
(** ** More about the sensor *)
(* ================================================================== *)

Module SensorMore.
Import JS Types Spec Notions JSFacts Sensor SensorFacts.

(** [analyzeText] writes the ratios, the sentence length and the
    paragraph length, and nothing else. *)
Lemma analyzeText_frame (r : revision) (h : Host) (m : WritingMetrics)
      (t : jsstring) :
  let m' := analyzeText r h m t in
  wpm m' = wpm m /\ recentWPM m' = recentWPM m /\ wpmTrend m' = wpmTrend m
  /\ pauseLocation m' = pauseLocation m.
Proof.
  cbv zeta. unfold analyzeText.
  destruct (List.length (segmentText r h t) =? 0)%nat; repeat split.
Qed.

Lemma updateMetrics_readings (r : revision) (h : Host) (st : state)
      (now a b : Z) :
  let st' := updateMetrics r h st now a b in
  recentWPMReadings st'
  = pushReading (recentWPMReadings st) (calculateWPM st a)
  /\ recentWPM (metrics st') = recentWPMReadings st'
  /\ wpmTrend (metrics st') = calculateTrend (recentWPMReadings st')
  /\ pauseLocation (metrics st') = pauseLocation (metrics st).
Proof.
  cbv zeta. unfold updateMetrics. cbn [recentWPMReadings metrics].
  destruct (nonEmpty (lastText st)).
  - match goal with
    | |- context [analyzeText r h ?m ?t] =>
        destruct (analyzeText_frame r h m t) as (_ & R & T & P)
    end.
    cbn [recentWPM wpmTrend pauseLocation]. rewrite R, T, P.
    repeat split.
  - repeat split.
Qed.

Lemma pushReading_bounded (l : list Z) (w : Z) :
  (List.length l <= 10)%nat -> (List.length (pushReading l w) <= 10)%nat.
Proof.
  intros L. unfold pushReading.
  destruct (10 <? List.length (l ++ [w]))%nat eqn:E.
  - destruct l as [|x l]; simpl in *; [lia|].
    rewrite length_app. simpl. lia.
  - apply Nat.ltb_ge in E. exact E.
Qed.

Lemma pushReading_ends_with (l : list Z) (w : Z) :
  exists older, pushReading l w = older ++ [w].
Proof.
  unfold pushReading. destruct l as [|x l].
  - exists []. reflexivity.
  - destruct (10 <? List.length ((x :: l) ++ [w]))%nat.
    + exists l. reflexivity.
    + exists (x :: l). reflexivity.
Qed.

Lemma step_readings (r : revision) (h : Host) (st : state) (e : event) :
  recentWPM (metrics st) = recentWPMReadings st
  /\ (List.length (recentWPMReadings st) <= 10)%nat
  /\ wpmTrend (metrics st) = calculateTrend (recentWPMReadings st) ->
  recentWPM (metrics (step r h st e)) = recentWPMReadings (step r h st e)
  /\ (List.length (recentWPMReadings (step r h st e)) <= 10)%nat
  /\ wpmTrend (metrics (step r h st e))
     = calculateTrend (recentWPMReadings (step r h st e)).
Proof.
  intros (R & L & T). destruct e; cbn [step].
  - unfold onEditorChange. destruct (isFirstEdit st); simpl; auto.
  - destruct (updateMetrics_readings r h st now nowWPM nowDel)
      as (P & R' & T' & _).
    rewrite R', T', P. repeat split. apply pushReading_bounded, L.
  - unfold resetForNewFile. destruct (str_eqb _ _); simpl; auto.
  - simpl; auto.
  - simpl; auto.
  - simpl; auto.
  - simpl. repeat split. lia.
Qed.

(** X1. Whatever happens to a sensor, its metrics list at most ten
    speed readings, the ones the sensor keeps, and report the trend of
    exactly those; after a recomputation the newest reading is the
    speed just computed. *)
Theorem readings_bounded_trend_current (r : revision) (h : Host) (t0 : Z)
        (es : list event) :
  let st := run r h (init t0) es in
  recentWPM (metrics st) = recentWPMReadings st
  /\ (List.length (recentWPM (metrics st)) <= 10)%nat
  /\ wpmTrend (metrics st) = calculateTrend (recentWPM (metrics st))
  /\ forall now a b,
       let st' := updateMetrics r h st now a b in
       exists older, recentWPM (metrics st') = older ++ [wpm (metrics st')].
Proof.
  cbv zeta.
  assert (Inv : forall st,
             recentWPM (metrics st) = recentWPMReadings st
             /\ (List.length (recentWPMReadings st) <= 10)%nat
             /\ wpmTrend (metrics st) = calculateTrend (recentWPMReadings st)
             ->
             recentWPM (metrics (run r h st es)) =
             recentWPMReadings (run r h st es)
             /\ (List.length (recentWPMReadings (run r h st es)) <= 10)%nat
             /\ wpmTrend (metrics (run r h st es))
                = calculateTrend (recentWPMReadings (run r h st es))).
  { induction es as [|e es IH]; intros st I; [exact I|].
    simpl. apply IH, step_readings, I. }
  destruct (Inv (init t0)) as (R & L & T).
  { simpl. repeat split. lia. }
  rewrite R. repeat split; auto.
  intros now a b.
  destruct (updateMetrics_readings r h (run r h (init t0) es) now a b)
    as (P & R' & _ & _).
  rewrite R', P, wpm_updateMetrics. apply pushReading_ends_with.
Qed.

(** *** The three ratios *)

Lemma filter_no_longer {A} (f : A -> bool) (l : list A) :
  (List.length (filter f l) <= List.length l)%nat.
Proof.
  induction l as [|x l IH]; simpl; [lia|]. destruct (f x); simpl; lia.
Qed.

Lemma ratio_unit (a b : nat) :
  (a <= b)%nat -> (0 < b)%nat -> unitRatio (ratio a b).
Proof.
  intros A B. unfold unitRatio, ratio, Qle. simpl.
  assert (Z.pos (Pos.of_nat b) = Z.of_nat b) by lia. split; lia.
Qed.

Lemma zero_unit : unitRatio 0.
Proof. unfold unitRatio. split; lra. Qed.

Lemma analyzeText_unit (r : revision) (h : Host) (m : WritingMetrics)
      (t : jsstring) :
  let m' := analyzeText r h m t in
  unitRatio (adjectiveRatio m') /\ unitRatio (verbRatio m')
  /\ unitRatio (abstractNounRatio m').
Proof.
  cbv zeta. unfold analyzeText.
  destruct (List.length (segmentText r h t) =? 0)%nat eqn:E.
  - cbn [adjectiveRatio verbRatio abstractNounRatio].
    repeat split; apply zero_unit.
  - apply Nat.eqb_neq in E.
    cbn [adjectiveRatio verbRatio abstractNounRatio].
    repeat split; apply ratio_unit; try apply filter_no_longer; lia.
Qed.

Lemma step_unit (r : revision) (h : Host) (st : state) (e : event) :
  unitRatio (adjectiveRatio (metrics st))
  /\ unitRatio (verbRatio (metrics st))
  /\ unitRatio (abstractNounRatio (metrics st)) ->
  unitRatio (adjectiveRatio (metrics (step r h st e)))
  /\ unitRatio (verbRatio (metrics (step r h st e)))
  /\ unitRatio (abstractNounRatio (metrics (step r h st e))).
Proof.
  intros I. destruct e; cbn [step].
  - unfold onEditorChange. destruct (isFirstEdit st); simpl; exact I.
  - unfold updateMetrics.
    cbn [metrics adjectiveRatio verbRatio abstractNounRatio].
    destruct (nonEmpty (lastText st)).
    + apply analyzeText_unit.
    + exact I.
  - unfold resetForNewFile. destruct (str_eqb _ _); simpl; exact I.
  - exact I.
  - exact I.
  - exact I.
  - simpl. repeat split; apply zero_unit.
Qed.

(** X2. Whatever happens to a sensor, the adjective, verb and abstract
    noun ratios it reports lie between 0 and 1. *)
Theorem ratios_between_zero_and_one (r : revision) (h : Host) (t0 : Z)
        (es : list event) :
  let m := metrics (run r h (init t0) es) in
  unitRatio (adjectiveRatio m) /\ unitRatio (verbRatio m)
  /\ unitRatio (abstractNounRatio m).
Proof.
  cbv zeta.
  assert (Inv : forall st,
             unitRatio (adjectiveRatio (metrics st))
             /\ unitRatio (verbRatio (metrics st))
             /\ unitRatio (abstractNounRatio (metrics st)) ->
             unitRatio (adjectiveRatio (metrics (run r h st es)))
             /\ unitRatio (verbRatio (metrics (run r h st es)))
             /\ unitRatio (abstractNounRatio (metrics (run r h st es)))).
  { induction es as [|e es IH]; intros st I; [exact I|].
    simpl. apply IH, step_unit, I. }
  apply Inv. simpl. repeat split; apply zero_unit.
Qed.

(** *** What a change records *)

Lemma skipn_app_exact {A} (a b : list A) : skipn (List.length a) (a ++ b) = b.
Proof. induction a as [|x a IH]; simpl; [reflexivity | exact IH]. Qed.

Lemma strlen_app (a b : jsstring) : strlen (a ++ b) = strlen a + strlen b.
Proof. unfold strlen. rewrite length_app. lia. Qed.

Lemma strlen_nonneg (a : jsstring) : 0 <= strlen a.
Proof. unfold strlen. lia. Qed.

Lemma strlen_zero_nil (a : jsstring) : strlen a = 0 -> a = [].
Proof. unfold strlen. destruct a; simpl; [reflexivity | lia]. Qed.

(** X3. The sensor recovers edits made at the end of the text: of a
    text with [x] appended the added text is [x] (in the later revision
    when [x] has at most 50 code units) and nothing is removed; of a
    text with its end [y] cut off the removed text is [y] and nothing is
    added.  No change has both an added and a removed text. *)
Theorem end_edits_recovered (r : revision) (oldText x : jsstring) :
  getAddedText Basic oldText (oldText ++ x) = x
  /\ (strlen x <= 50 -> getAddedText Segmenting oldText (oldText ++ x) = x)
  /\ getRemovedText oldText (oldText ++ x) = []
  /\ getRemovedText (oldText ++ x) oldText = x
  /\ getAddedText r (oldText ++ x) oldText = []
  /\ forall newText,
       nonEmpty (getAddedText r oldText newText) = true ->
       getRemovedText oldText newText = [].
Proof.
  pose proof (strlen_nonneg x) as Nx.
  pose proof (strlen_app oldText x) as La.
  assert (Grow : substringFrom (List.length oldText) (oldText ++ x) = x)
    by apply skipn_app_exact.
  split; [|split; [|split; [|split; [|split]]]].
  - unfold getAddedText. destruct (_ >? _) eqn:E; [exact Grow|].
    symmetry. apply strlen_zero_nil. lia.
  - intros Short. unfold getAddedText. cbv zeta.
    destruct (_ >? 50) eqn:E; [lia|].
    destruct (_ >? 0) eqn:F.
    + replace (Z.to_nat (strlen (oldText ++ x)
                         - (strlen (oldText ++ x) - strlen oldText)))
        with (List.length oldText) by (unfold strlen in *; lia).
      exact Grow.
    + symmetry. apply strlen_zero_nil. lia.
  - unfold getRemovedText. destruct (_ <? _) eqn:E; [lia | reflexivity].
  - unfold getRemovedText. destruct (_ <? _) eqn:E.
    + cbv zeta.
      replace (Z.to_nat (strlen (oldText ++ x)
                         - (strlen (oldText ++ x) - strlen oldText)))
        with (List.length oldText) by (unfold strlen in *; lia).
      exact Grow.
    + symmetry. apply strlen_zero_nil. lia.
  - destruct r; unfold getAddedText; cbv zeta.
    + destruct (_ >? _) eqn:E; [lia | reflexivity].
    + destruct (_ >? 50) eqn:E; [reflexivity|].
      destruct (_ >? 0) eqn:F; [lia | reflexivity].
  - intros newText A. unfold getRemovedText.
    destruct (strlen newText <? strlen oldText) eqn:E; [|reflexivity].
    exfalso. apply Z.ltb_lt in E. revert A.
    destruct r; unfold getAddedText; cbv zeta.
    + destruct (_ >? _) eqn:G; [lia | discriminate].
    + destruct (_ >? 50) eqn:G; [discriminate|].
      destruct (_ >? 0) eqn:F; [lia | discriminate].
Qed.

(** The word "fast" typed after "so ". *)
Lemma end_edits_recovered_witness :
  strlen (js "fast") <= 50
  /\ getAddedText Segmenting (js "so ") (js "so " ++ js "fast") = js "fast".
Proof.
  assert (S : strlen (js "fast") <= 50) by (vm_compute; discriminate).
  split; [exact S|].
  apply (proj1 (proj2 (end_edits_recovered Segmenting (js "so ") (js "fast")))),
    S.
Defined.

(** X4. A change that leaves the length of the text as it was records
    no edit, whatever it did to the content: the history and the time
    of the last edit stay, only the text the sensor remembers is
    replaced. *)
Theorem equal_length_change_unrecorded (r : revision) (st : state)
        (ed : Editor) (now : Z) :
  isFirstEdit st = false ->
  strlen (getValue ed) = strlen (lastText st) ->
  let st' := onEditorChange r st ed now in
  editHistory st' = editHistory st
  /\ lastEditTime st' = lastEditTime st
  /\ lastText st' = getValue ed.
Proof.
  intros First Same. cbv zeta. unfold onEditorChange. rewrite First.
  assert (A : getAddedText r (lastText st) (getValue ed) = []).
  { destruct r; unfold getAddedText; cbv zeta.
    - destruct (_ >? _) eqn:E; [lia | reflexivity].
    - destruct (_ >? 50) eqn:E; [reflexivity|].
      destruct (_ >? 0) eqn:F; [lia | reflexivity]. }
  assert (R : getRemovedText (lastText st) (getValue ed) = []).
  { unfold getRemovedText. destruct (_ <? _) eqn:E; [lia | reflexivity]. }
  cbv zeta. rewrite A, R. repeat split.
Qed.

(** The loaded text "cat" overtyped to "dog". *)
Lemma equal_length_change_unrecorded_witness :
  let st := run Segmenting asciiHost (init 0)
                [Change (editorOf (js "cat")) 1000] in
  isFirstEdit st = false
  /\ strlen (getValue (editorOf (js "dog"))) = strlen (lastText st)
  /\ editHistory (onEditorChange Segmenting st (editorOf (js "dog")) 60000)
     = [].
Proof.
  cbv zeta. split; [reflexivity|]. split; [reflexivity|].
  apply (equal_length_change_unrecorded Segmenting
           (run Segmenting asciiHost (init 0)
                [Change (editorOf (js "cat")) 1000])
           (editorOf (js "dog")) 60000 eq_refl eq_refl).
Defined.

Lemma getAddedText_longer (r : revision) (oldText newText : jsstring) :
  strlen oldText < strlen newText ->
  (r = Segmenting -> strlen newText - strlen oldText <= 50) ->
  getAddedText r oldText newText = skipn (List.length oldText) newText.
Proof.
  intros Longer Short. unfold getAddedText, substringFrom. destruct r.
  - destruct (_ >? _) eqn:E; [reflexivity | lia].
  - specialize (Short eq_refl). cbv zeta.
    destruct (_ >? 50) eqn:E; [lia|].
    destruct (_ >? 0) eqn:F; [|lia].
    f_equal. unfold strlen in *. lia.
Qed.

(** X5. Only a fresh sensor takes a change for the load of a file.  A
    sensor just made, reset, or switched to another file by
    [resetForNewFile] is fresh, and the first change of a fresh sensor
    records nothing: the next recomputation reports speed 0 and the word
    count of the loaded text.  The plugin reports a newly focused file
    by the same change and resets nothing, so after one file was loaded
    a second, longer one (by at most 50 code units in the later
    revision) is recorded as an edit: its text beyond the length of the
    first file is taken as typed, and its words count towards the
    speed. *)
Theorem only_a_fresh_sensor_skips_the_load (r : revision) (h : Host)
        (st : state) (t : Z) (path : jsstring) :
  fresh (init t)
  /\ fresh (reset st t)
  /\ (path <> currentFilePath st -> fresh (resetForNewFile st path t))
  /\ (fresh st ->
      forall ed t1 now a b,
        let st' := updateMetrics r h (onEditorChange r st ed t1) now a b in
        wpm (metrics st') = 0
        /\ totalWords (metrics st') = countWords (getValue ed)
        /\ editHistory st' = [])
  /\ (forall first second t1 t2 now nowWPM nowDel,
        strlen (getValue first) < strlen (getValue second) ->
        (r = Segmenting ->
         strlen (getValue second) - strlen (getValue first) <= 50) ->
        nowWPM - 60000 < t2 ->
        let typedText :=
          skipn (List.length (getValue first)) (getValue second) in
        let loaded := Plugin.onActiveLeafChange r (init t) first t1 in
        let switched := Plugin.onActiveLeafChange r loaded second t2 in
        editHistory loaded = []
        /\ editHistory switched
           = [ {| timestamp := t2; text := typedText; removed := [] |} ]
        /\ wpm (metrics (updateMetrics r h switched now nowWPM nowDel))
           = countWords typedText).
Proof.
  split; [split; reflexivity|]. split; [split; reflexivity|]. split.
  { intros NE. unfold resetForNewFile.
    apply str_eqb_neq in NE. rewrite NE. split; reflexivity. }
  split.
  { intros [F H] ed t1 now a b. cbv zeta.
    rewrite wpm_updateMetrics, calculateWPM_windowWordSum.
    unfold onEditorChange. rewrite F. cbn [editHistory lastText].
    rewrite H. split; [reflexivity|]. split; [|reflexivity].
    unfold updateMetrics. cbn [metrics totalWords lastText]. reflexivity. }
  intros first second t1 t2 now nowWPM nowDel Longer Short Recent.
  cbv zeta. unfold Plugin.onActiveLeafChange.
  split; [reflexivity|].
  assert (A : getAddedText r (getValue first) (getValue second)
              = skipn (List.length (getValue first)) (getValue second))
    by (apply getAddedText_longer; assumption).
  assert (NE : nonEmpty (skipn (List.length (getValue first))
                               (getValue second)) = true).
  { destruct (skipn _ _) eqn:S; [|reflexivity].
    apply (f_equal (@List.length N)) in S. rewrite length_skipn in S.
    unfold strlen in Longer. simpl in S. lia. }
  assert (R : getRemovedText (getValue first) (getValue second) = []).
  { unfold getRemovedText. destruct (_ <? _) eqn:E; [lia | reflexivity]. }
  assert (H : editHistory
                (onEditorChange r (onEditorChange r (init t) first t1)
                                second t2)
              = [ {| timestamp := t2;
                     text := skipn (List.length (getValue first))
                                   (getValue second);
                     removed := [] |} ]).
  { unfold onEditorChange at 1.
    cbn [onEditorChange init isFirstEdit lastText editHistory].
    cbv zeta. rewrite A, R, NE. cbn [orb app filter timestamp].
    replace (t2 >? t2 - 600000) with true
      by (symmetry; apply Z.gtb_lt; lia).
    reflexivity. }
  split; [exact H|].
  rewrite wpm_updateMetrics, calculateWPM_windowWordSum, H.
  cbn [windowWordSum timestamp text].
  replace (nowWPM - 60000 <? t2) with true
    by (symmetry; apply Z.ltb_lt; lia).
  lia.
Qed.

(** An empty note is focused first, then a note of three words. *)
Lemma only_a_fresh_sensor_skips_the_load_witness :
  let first := editorOf [] in
  let second := editorOf (js "one two three") in
  strlen (getValue first) < strlen (getValue second)
  /\ strlen (getValue second) - strlen (getValue first) <= 50
  /\ 5000 - 60000 < 2000
  /\ wpm (metrics
            (updateMetrics Segmenting asciiHost
               (Plugin.onActiveLeafChange Segmenting
                  (Plugin.onActiveLeafChange Segmenting (init 0) first 1000)
                  second 2000)
               5000 5000 5000)) = 3.
Proof.
  cbv zeta.
  assert (L : strlen (getValue (editorOf []))
              < strlen (getValue (editorOf (js "one two three"))))
    by (vm_compute; reflexivity).
  assert (S : strlen (getValue (editorOf (js "one two three")))
              - strlen (getValue (editorOf [])) <= 50)
    by (vm_compute; discriminate).
  assert (W : 5000 - 60000 < 2000) by lia.
  split; [exact L|]. split; [exact S|]. split; [exact W|].
  pose proof (only_a_fresh_sensor_skips_the_load Segmenting asciiHost
                (init 0) 0 []) as H.
  destruct H as (_ & _ & _ & _ & H).
  destruct (H (editorOf []) (editorOf (js "one two three"))
              1000 2000 5000 5000 5000 L (fun _ => S) W) as (_ & _ & Wpm).
  rewrite Wpm. reflexivity.
Defined.

(** *** Where the writer paused *)

Lemma updatePauseLocation_known (ed : Editor) :
  updatePauseLocation ed <> PLUnknown.
Proof.
  unfold updatePauseLocation.
  repeat match goal with
         | |- context [if ?c then _ else _] => destruct c
         | |- context [match next_lineText ed with _ => _ end] =>
             destruct (next_lineText ed)
         end; discriminate.
Qed.

Lemma step_keeps_known (r : revision) (h : Host) (st : state) (e : event) :
  keepsSession e ->
  pauseLocation (metrics st) <> PLUnknown ->
  pauseLocation (metrics (step r h st e)) <> PLUnknown.
Proof.
  intros K I. destruct e; cbn [step]; try exact I.
  - unfold onEditorChange. destruct (isFirstEdit st); simpl; [exact I|].
    apply updatePauseLocation_known.
  - destruct (updateMetrics_readings r h st now nowWPM nowDel)
      as (_ & _ & _ & P).
    rewrite P. exact I.
  - unfold resetForNewFile. destruct (str_eqb _ _); exact I.
  - destruct K.
Qed.

(** X6. Once a change that is not a file load was seen, the pause
    location the metrics report is never "unknown", whatever follows
    short of a reset; a cursor with nothing but white space before it
    on its line is at the start. *)
Theorem pause_location_stays_known (r : revision) (h : Host) (st : state)
        (ed : Editor) (now : Z) (es : list event) :
  isFirstEdit st = false -> Forall keepsSession es ->
  pauseLocation (metrics (run r h (onEditorChange r st ed now) es))
  <> PLUnknown
  /\ (trim (firstn (cursor_ch ed) (cursor_lineText ed)) = [] ->
      pauseLocation (metrics (onEditorChange r st ed now)) = PLStart).
Proof.
  intros First Keep. split.
  - assert (I : pauseLocation (metrics (onEditorChange r st ed now))
                <> PLUnknown).
    { unfold onEditorChange. rewrite First. simpl.
      apply updatePauseLocation_known. }
    revert I. generalize (onEditorChange r st ed now).
    induction Keep as [|e es K _ IH]; intros s I; [exact I|].
    simpl. apply IH, step_keeps_known; assumption.
  - intros Blank. unfold onEditorChange. rewrite First. simpl.
    unfold updatePauseLocation. cbv zeta. rewrite Blank. reflexivity.
Qed.

(** A word typed at the end of the only line, then a recomputation. *)
Lemma pause_location_stays_known_witness :
  let st := run Segmenting asciiHost (init 0)
                [Change (editorOf (js "so")) 1000] in
  isFirstEdit st = false
  /\ Forall keepsSession [Recompute 5000 5000 5000]
  /\ pauseLocation
       (metrics (run Segmenting asciiHost
                     (onEditorChange Segmenting st
                        (editorOf (js "so far")) 2000)
                     [Recompute 5000 5000 5000]))
     <> PLUnknown.
Proof.
  cbv zeta.
  assert (K : Forall keepsSession [Recompute 5000 5000 5000])
    by (repeat constructor).
  split; [reflexivity|]. split; [exact K|].
  apply (proj1 (pause_location_stays_known Segmenting asciiHost
                  (run Segmenting asciiHost (init 0)
                       [Change (editorOf (js "so")) 1000])
                  (editorOf (js "so far")) 2000
                  [Recompute 5000 5000 5000] eq_refl K)).
Defined.

(** *** Tokens *)

Lemma filter_all_true {A} (f : A -> bool) (l : list A) :
  Forall (fun x => f x = true) (filter f l).
Proof.
  apply Forall_forall. intros x Hx. apply filter_In in Hx. tauto.
Qed.

(** X7. No token of a text is empty; the later revision tokenizes as
    the earlier one does, by white space, every text without a CJK
    ideograph and every text on which the segmenter fails. *)
Theorem segmentText_tokens (r : revision) (h : Host) (t : jsstring) :
  Forall (fun w => nonEmpty w = true) (segmentText r h t)
  /\ (existsb isChinese t = false ->
      segmentText Segmenting h t = segmentText Basic h t)
  /\ (doSegment h t = None ->
      segmentText Segmenting h t = segmentText Basic h t).
Proof.
  split; [|split].
  - destruct r; unfold segmentText, whitespaceWords.
    + apply filter_all_true.
    + destruct (existsb isChinese t); [|apply filter_all_true].
      destruct (doSegment h t); apply filter_all_true.
  - intros NoCJK. unfold segmentText. rewrite NoCJK. reflexivity.
  - intros Fails. unfold segmentText. rewrite Fails.
    destruct (existsb isChinese t); reflexivity.
Qed.

(** A line of English and a line with two ideographs, on a host whose
    segmenter is not available. *)
Lemma segmentText_tokens_witness :
  existsb isChinese (js "Slow down") = false
  /\ doSegment asciiHost [20320%N; 22909%N] = None
  /\ segmentText Segmenting asciiHost (js "Slow down")
     = [js "slow"; js "down"]
  /\ segmentText Segmenting asciiHost [20320%N; 22909%N]
     = [[20320%N; 22909%N]].
Proof.
  split; [reflexivity|]. split; [reflexivity|]. split.
  - rewrite (proj1 (proj2 (segmentText_tokens Segmenting asciiHost
                             (js "Slow down"))) eq_refl).
    reflexivity.
  - rewrite (proj2 (proj2 (segmentText_tokens Segmenting asciiHost
                             [20320%N; 22909%N])) eq_refl).
    reflexivity.
Defined.

(** *** Deletion ratio *)

Lemma fold_written_shift (l : list EditEvent) (acc : Z) :
  fold_left (fun w e => w + strlen (text e)) l acc =
  acc + fold_left (fun w e => w + strlen (text e)) l 0.
Proof.
  revert acc. induction l as [|e l IH]; intros acc; simpl; [lia|].
  rewrite IH, (IH (strlen (text e))). lia.
Qed.

Lemma fold_deleted_shift (l : list EditEvent) (acc : Z) :
  fold_left (fun d e => d + strlen (removed e)) l acc =
  acc + fold_left (fun d e => d + strlen (removed e)) l 0.
Proof.
  revert acc. induction l as [|e l IH]; intros acc; simpl; [lia|].
  rewrite IH, (IH (strlen (removed e))). lia.
Qed.

Lemma written_is_writtenChars (now : Z) (l : list EditEvent) :
  fold_left (fun w e => w + strlen (text e))
            (filter (fun e => timestamp e >? now - 300000) l) 0
  = writtenChars now l.
Proof.
  induction l as [|e l IH]; simpl; [reflexivity|].
  rewrite Z.gtb_ltb. destruct (now - 300000 <? timestamp e); simpl.
  - rewrite fold_written_shift, IH. reflexivity.
  - exact IH.
Qed.

Lemma deleted_is_deletedChars (now : Z) (l : list EditEvent) :
  fold_left (fun d e => d + strlen (removed e))
            (filter (fun e => timestamp e >? now - 300000) l) 0
  = deletedChars now l.
Proof.
  induction l as [|e l IH]; simpl; [reflexivity|].
  rewrite Z.gtb_ltb. destruct (now - 300000 <? timestamp e); simpl.
  - rewrite fold_deleted_shift, IH. reflexivity.
  - exact IH.
Qed.

Lemma deletedChars_nonneg (now : Z) (l : list EditEvent) :
  0 <= deletedChars now l.
Proof.
  induction l as [|e l IH]; simpl; [lia|].
  pose proof (strlen_nonneg (removed e)).
  destruct (now - 300000 <? timestamp e); lia.
Qed.

Lemma writtenChars_nonneg (now : Z) (l : list EditEvent) :
  0 <= writtenChars now l.
Proof.
  induction l as [|e l IH]; simpl; [lia|].
  pose proof (strlen_nonneg (text e)).
  destruct (now - 300000 <? timestamp e); lia.
Qed.

(** X8. The deletion ratio is never negative.  It is the number of
    characters removed in the last five minutes over the number
    inserted in them, and it is 0 when none was inserted, however many
    were removed. *)
Theorem deletionRatio_of_window (st : state) (now : Z) :
  (0 <= calculateDeletionRatio st now)%Q
  /\ (writtenChars now (editHistory st) = 0 ->
      calculateDeletionRatio st now = 0%Q)
  /\ (0 < writtenChars now (editHistory st) ->
      (calculateDeletionRatio st now ==
       inject_Z (deletedChars now (editHistory st))
       / inject_Z (writtenChars now (editHistory st)))%Q).
Proof.
  unfold calculateDeletionRatio. cbv zeta.
  rewrite written_is_writtenChars, deleted_is_deletedChars.
  pose proof (deletedChars_nonneg now (editHistory st)) as D.
  pose proof (writtenChars_nonneg now (editHistory st)) as W.
  destruct (writtenChars now (editHistory st) >? 0) eqn:E.
  - apply Z.gtb_lt in E. split; [|split].
    + unfold Qle. simpl. lia.
    + lia.
    + intros _. rewrite Qmake_Qdiv.
      rewrite Z2Pos.id by exact E. reflexivity.
  - split; [|split].
    + lra.
    + reflexivity.
    + intros P. apply Z.gtb_lt in P. congruence.
Qed.

(** "abc" deleted and nothing typed: three characters removed, none
    inserted, ratio 0. *)
Lemma deletionRatio_of_window_witness :
  let st := run Segmenting asciiHost (init 0)
                [ Change (editorOf (js "abcdef")) 1000;
                  Change (editorOf (js "abc")) 2000 ] in
  writtenChars 5000 (editHistory st) = 0
  /\ deletedChars 5000 (editHistory st) = 3
  /\ calculateDeletionRatio st 5000 = 0%Q.
Proof.
  cbv zeta. split; [reflexivity|]. split; [reflexivity|].
  apply (proj1 (proj2 (deletionRatio_of_window
                         (run Segmenting asciiHost (init 0)
                              [ Change (editorOf (js "abcdef")) 1000;
                                Change (editorOf (js "abc")) 2000 ])
                         5000)) eq_refl).
Defined.

(** *** The pause flag *)

Lemma step_ignores_pause_flag (r : revision) (h : Host) (a b : state)
      (e : event) :
  sameMeasurement a b -> sameMeasurement (step r h a e) (step r h b e).
Proof.
  destruct a, b. unfold sameMeasurement. cbn.
  intros (M & T & E & S & H & R & F & P). subst.
  destruct e; cbn; repeat split;
    unfold onEditorChange, resetForNewFile; cbn;
    match goal with
    | |- context [if ?c then _ else _] => destruct c; reflexivity
    end.
Qed.

(** X25. The pause flag of the sensor is never read: a paused sensor
    records the changes and recomputes the metrics exactly as one that
    is not paused.  After any sequence of events the two agree in the
    metrics, the text, the history and everything else but the flag. *)
Theorem pause_flag_is_not_read (r : revision) (h : Host) (st : state)
        (es : list event) :
  sameMeasurement (run r h (pause st) es) (run r h st es).
Proof.
  assert (I : sameMeasurement (pause st) st) by (repeat split).
  assert (G : forall a b,
             sameMeasurement a b ->
             sameMeasurement (run r h a es) (run r h b es)).
  { unfold run. induction es as [|e es IH]; intros a b J; [exact J|].
    simpl. apply IH, step_ignores_pause_flag, J. }
  apply G, I.
Qed.

(** *** Paragraphs since the last coaching *)

Lemma step_keeps_paragraph_count (r : revision) (h : Host) (st : state)
      (e : event) :
  paragraphsSinceLastCoaching (metrics st) = 0 ->
  paragraphsSinceLastCoaching (metrics (step r h st e)) = 0.
Proof.
  intros I. destruct e; cbn [step].
  - unfold onEditorChange. destruct (isFirstEdit st); exact I.
  - unfold updateMetrics. cbn [metrics paragraphsSinceLastCoaching].
    destruct (nonEmpty (lastText st)); [|exact I].
    unfold analyzeText.
    destruct (List.length (segmentText r h (lastText st)) =? 0)%nat;
      exact I.
  - unfold resetForNewFile. destruct (str_eqb _ _); exact I.
  - exact I.
  - exact I.
  - reflexivity.
  - reflexivity.
Qed.

(** X26. The metric "paragraphsSinceLastCoaching" is 0 at all times:
    nothing the sensor does ever counts a paragraph. *)
Theorem paragraphs_since_coaching_is_zero (r : revision) (h : Host)
        (t0 : Z) (es : list event) :
  paragraphsSinceLastCoaching (metrics (run r h (init t0) es)) = 0.
Proof.
  assert (I : paragraphsSinceLastCoaching (metrics (init t0)) = 0)
    by reflexivity.
  revert I. generalize (init t0). unfold run.
  induction es as [|e es IH]; intros st I; [exact I|].
  simpl. apply IH, step_keeps_paragraph_count, I.
Qed.

End SensorMore.

(* ================================================================== *)
(** ** More about the conditions *)
(* ================================================================== *)

Module EvaluatorMore.
Import JS Types Spec Notions JSFacts Evaluator EvaluatorFacts.

(** *** Rules as conjunctions *)

Lemma evaluateConditions_cons (key c : jsstring) (rest : TriggerConditions)
      (m : WritingMetrics) :
  evaluateConditions ((key, c) :: rest) m =
  evaluateCondition
    (metricValue m (if str_eqb key (js "duration")
                    then js "sessionDuration" else key)) c
  && evaluateConditions rest m.
Proof.
  cbn [evaluateConditions]. cbv zeta.
  destruct (evaluateCondition _ c); reflexivity.
Qed.

Lemma evaluateCondition_undefined (c : jsstring) :
  evaluateCondition VUndefined c = false.
Proof.
  unfold evaluateCondition.
  destruct (numericMatch c) as [[op num]|]; [reflexivity|].
  repeat match goal with
         | |- context [if ?b then _ else _] => destruct b
         end; reflexivity.
Qed.

Lemma metricValue_unknown (m : WritingMetrics) (key : jsstring) :
  ~ In key metricKeys -> metricValue m key = VUndefined.
Proof.
  intros NK. unfold metricValue.
  repeat match goal with
         | |- context [str_eqb key ?k] =>
             destruct (str_eqb key k) eqn:?E;
             [ apply str_eqb_eq in E; exfalso; apply NK; rewrite E;
               unfold metricKeys; simpl; tauto | clear E ]
         end.
  reflexivity.
Qed.

Lemma evaluateConditions_in_false (cs : TriggerConditions)
      (m : WritingMetrics) (key c : jsstring) :
  In (key, c) cs ->
  evaluateCondition
    (metricValue m (if str_eqb key (js "duration")
                    then js "sessionDuration" else key)) c = false ->
  evaluateConditions cs m = false.
Proof.
  induction cs as [|[k c'] cs IH]; intros I F; [destruct I|].
  rewrite evaluateConditions_cons. destruct I as [E|I].
  - inversion E; subst. rewrite F. reflexivity.
  - rewrite (IH I F). apply andb_false_r.
Qed.

(** X9. A rule with a condition on a key that is no metric never
    holds, whatever the condition says and whatever the other
    conditions are. *)
Theorem unknown_key_fails_rule (cs : TriggerConditions) (m : WritingMetrics)
        (key c : jsstring) :
  ~ knownKey key -> In (key, c) cs -> evaluateConditions cs m = false.
Proof.
  intros NK I. apply (evaluateConditions_in_false cs m key c I).
  destruct (str_eqb key (js "duration")) eqn:D.
  - apply str_eqb_eq in D. exfalso. apply NK. right. exact D.
  - rewrite metricValue_unknown by (intros K; apply NK; left; exact K).
    apply evaluateCondition_undefined.
Qed.

(** A rule about "wordsPerMinute", a name the metrics do not have. *)
Lemma unknown_key_fails_rule_witness :
  ~ knownKey (js "wordsPerMinute")
  /\ evaluateConditions [(js "wordsPerMinute", js "> 0")] rushingMetrics
     = false.
Proof.
  assert (NK : ~ knownKey (js "wordsPerMinute")).
  { intros [K|K]; [|discriminate K].
    unfold metricKeys in K. simpl in K.
    repeat (destruct K as [K|K]; [discriminate K|]). exact K. }
  split; [exact NK|].
  apply (unknown_key_fails_rule _ rushingMetrics (js "wordsPerMinute")
           (js "> 0") NK).
  left. reflexivity.
Defined.

(** X10. The conditions of a rule are a conjunction: the rule holds
    exactly when each of its conditions holds on the metric it names,
    so the order of the conditions does not matter, and a rule without
    conditions always holds. *)
Theorem conditions_are_a_conjunction (cs cs' : TriggerConditions)
        (m : WritingMetrics) :
  (evaluateConditions cs m = true <->
   forall key c, In (key, c) cs -> evaluateConditions [(key, c)] m = true)
  /\ (Permutation cs cs' ->
      evaluateConditions cs m = evaluateConditions cs' m)
  /\ evaluateConditions [] m = true.
Proof.
  assert (Conj : forall l,
             evaluateConditions l m = true <->
             forall key c, In (key, c) l ->
                           evaluateConditions [(key, c)] m = true).
  { induction l as [|[k c0] l IH].
    - split; [intros _ key c []|reflexivity].
    - rewrite evaluateConditions_cons, andb_true_iff, IH. split.
      + intros [H R] key c [E|I].
        * inversion E; subst. rewrite evaluateConditions_cons, H.
          reflexivity.
        * apply R, I.
      + intros A. split.
        * specialize (A k c0 (or_introl eq_refl)).
          rewrite evaluateConditions_cons, andb_true_iff in A. apply A.
        * intros key c I. apply A. right. exact I. }
  split; [apply Conj|]. split; [|reflexivity].
  intros P.
  destruct (evaluateConditions cs m) eqn:A;
    destruct (evaluateConditions cs' m) eqn:B; try reflexivity.
  - rewrite <- B. symmetry. apply Conj. intros key c I.
    apply (proj1 (Conj cs) A).
    apply (Permutation_in _ (Permutation_sym P) I).
  - rewrite <- A. apply Conj. intros key c I.
    apply (proj1 (Conj cs') B). apply (Permutation_in _ P I).
Qed.

(** The two conditions of the default rule "stuck", swapped. *)
Lemma conditions_are_a_conjunction_witness :
  let cs := [(js "pauseDuration", js "> 180");
             (js "currentParagraphLength", js "< 50")] in
  Permutation cs (rev cs)
  /\ evaluateConditions cs pausedMetrics
     = evaluateConditions (rev cs) pausedMetrics.
Proof.
  cbv zeta.
  assert (P : Permutation
                [(js "pauseDuration", js "> 180");
                 (js "currentParagraphLength", js "< 50")]
                (rev [(js "pauseDuration", js "> 180");
                      (js "currentParagraphLength", js "< 50")]))
    by apply Permutation_rev.
  split; [exact P|].
  apply (proj1 (proj2 (conditions_are_a_conjunction _ _ pausedMetrics)) P).
Defined.

(** *** Keyword conditions *)

(** X11. A condition on the trend of the speed, or on the place of the
    pause, that names one of the values holds exactly when the metric
    has that value; the place "unknown" cannot be asked for: that
    condition never holds, not even while the place is unknown. *)
Theorem keyword_conditions_meaning (m : WritingMetrics) (t : Trend)
        (l : PauseLocation) :
  (evaluateConditions [(js "wpmTrend", trendName t)] m = true
   <-> wpmTrend m = t)
  /\ (l <> PLUnknown ->
      (evaluateConditions [(js "pauseLocation", pauseLocationName l)] m
       = true <-> pauseLocation m = l))
  /\ evaluateConditions [(js "pauseLocation", pauseLocationName PLUnknown)] m
     = false.
Proof.
  split; [|split].
  - rewrite evaluateConditions_cons.
    change (metricValue m _) with (VStr (trendName (wpmTrend m))).
    destruct t, (wpmTrend m); vm_compute; split; congruence.
  - intros K. rewrite evaluateConditions_cons.
    change (metricValue m _) with (VStr (pauseLocationName (pauseLocation m))).
    destruct l, (pauseLocation m); try congruence;
      vm_compute; split; congruence.
  - rewrite evaluateConditions_cons.
    change (metricValue m _) with (VStr (pauseLocationName (pauseLocation m))).
    destruct (pauseLocation m); vm_compute; reflexivity.
Qed.

(** A rule that asks whether the writer paused at the start of a
    line. *)
Lemma keyword_conditions_meaning_witness :
  PLStart <> PLUnknown
  /\ (evaluateConditions [(js "pauseLocation", js "start")] pausedMetrics
      = true <-> pauseLocation pausedMetrics = PLStart).
Proof.
  assert (K : PLStart <> PLUnknown) by discriminate.
  split; [exact K|].
  apply (proj1 (proj2 (keyword_conditions_meaning pausedMetrics Stable
                         PLStart)) K).
Defined.

(** *** Relational conditions *)

Lemma span_app_stop {A} (p : A -> bool) (a b : list A) :
  forallb p a = true ->
  match b with [] => True | x :: _ => p x = false end ->
  span p (a ++ b) = (a, b).
Proof.
  intros Ha Hb. induction a as [|x a IH]; simpl.
  - destruct b as [|y b]; [reflexivity|]. simpl. rewrite Hb. reflexivity.
  - simpl in Ha. apply andb_true_iff in Ha. destruct Ha as [Hx Ha].
    rewrite Hx, (IH Ha). reflexivity.
Qed.

Lemma span_all {A} (p : A -> bool) (a : list A) :
  forallb p a = true -> span p a = (a, []).
Proof.
  intros Ha. rewrite <- (app_nil_r a) at 1.
  apply span_app_stop; [exact Ha | exact I].
Qed.

Lemma digitsValue_decimalValue (ds : list N) :
  digitsValue ds = decimalValue 0 ds.
Proof.
  unfold digitsValue. generalize 0.
  induction ds as [|d ds IH]; intros acc; simpl; [reflexivity|]. apply IH.
Qed.

Lemma digit_cases (d : N) :
  isDigit d = true ->
  d = 48%N \/ d = 49%N \/ d = 50%N \/ d = 51%N \/ d = 52%N \/ d = 53%N
  \/ d = 54%N \/ d = 55%N \/ d = 56%N \/ d = 57%N.
Proof. intros D. apply digit_codes in D. lia. Qed.

Lemma numeral_shape (negative : bool) (d : N) (ds : list N)
      (fs : option (list N)) :
  numeralText negative (d :: ds) fs =
  (if negative then js "-" else []) ++ d :: ds ++ fractionText fs.
Proof. reflexivity. Qed.

Section Numeral.
Variables (negative : bool) (d : N) (ds : list N) (fs : option (list N)).
Hypothesis Hd : isDigit d = true.
Hypothesis Hds : forallb isDigit ds = true.
Hypothesis Hfs : forall f, fs = Some f -> forallb isDigit f = true.

Lemma span_digits_fraction :
  span isDigit (d :: ds ++ fractionText fs) = (d :: ds, fractionText fs).
Proof.
  change (d :: ds ++ fractionText fs) with ((d :: ds) ++ fractionText fs).
  apply span_app_stop.
  - simpl. rewrite Hd, Hds. reflexivity.
  - destruct fs; simpl; [reflexivity | exact I].
Qed.

Lemma fraction_cases :
  (fs = None /\ fractionText fs = [])
  \/ (exists f, fs = Some f /\ fractionText fs = 46%N :: f
                /\ forallb isDigit f = true).
Proof.
  destruct fs as [f|]; [right | left; split; reflexivity].
  exists f. repeat split. apply Hfs. reflexivity.
Qed.

Lemma matchNumeral_digits :
  matchNumeral (d :: ds ++ fractionText fs)
  = Some (d :: ds ++ fractionText fs).
Proof.
  assert (D45 : (d =? 45)%N = false)
    by (apply digit_codes in Hd; apply N.eqb_neq; lia).
  unfold matchNumeral. cbn [dropWhile].
  rewrite (digit_not_space d Hd), D45, span_digits_fraction.
  cbn [nonEmpty].
  destruct fraction_cases as [[_ F]|(f & _ & F & Hf)]; rewrite F.
  - cbn [span app]. reflexivity.
  - change ((46 =? 46)%N) with true. cbv iota.
    rewrite (span_all _ _ Hf). cbn [app]. reflexivity.
Qed.

Lemma matchNumeral_minus :
  matchNumeral (45%N :: d :: ds ++ fractionText fs)
  = Some (45%N :: d :: ds ++ fractionText fs).
Proof.
  unfold matchNumeral. cbn [dropWhile].
  change (isWhiteSpace 45) with false. cbv iota.
  change ((45 =? 45)%N) with true. cbv iota.
  rewrite span_digits_fraction. cbn [nonEmpty].
  destruct fraction_cases as [[_ F]|(f & _ & F & Hf)]; rewrite F.
  - cbn [span app]. reflexivity.
  - change ((46 =? 46)%N) with true. cbv iota.
    rewrite (span_all _ _ Hf). cbn [app]. reflexivity.
Qed.

Lemma matchNumeral_numeral (ws : jsstring) :
  forallb isWhiteSpace ws = true ->
  matchNumeral (ws ++ numeralText negative (d :: ds) fs)
  = Some (numeralText negative (d :: ds) fs).
Proof.
  intros Hws.
  assert (Skip : forall s, matchNumeral (ws ++ s) = matchNumeral s).
  { intros s. unfold matchNumeral.
    rewrite (dropWhile_app_all _ _ _ Hws). reflexivity. }
  rewrite Skip, numeral_shape. destruct negative.
  - apply matchNumeral_minus.
  - apply matchNumeral_digits.
Qed.

Lemma numeral_not_equals (ws : jsstring) :
  forallb isWhiteSpace ws = true ->
  afterEquals (ws ++ numeralText negative (d :: ds) fs) = None.
Proof.
  intros Hws. rewrite numeral_shape.
  apply afterEquals_none; [exact Hws | | exact Hd].
  destruct negative; [right | left]; reflexivity.
Qed.

Lemma numericMatch_relational (op : operator) (ws : jsstring) :
  forallb isWhiteSpace ws = true ->
  numericMatch (operatorText op ++ ws ++ numeralText negative (d :: ds) fs)
  = Some (op, numeralText negative (d :: ds) fs).
Proof.
  intros Hws.
  pose proof (matchNumeral_numeral ws Hws) as M.
  pose proof (numeral_not_equals ws Hws) as E.
  destruct op; cbn [operatorText js list_ascii_of_string map app];
    rewrite numericMatch_cons; unfold matchHere;
    repeat match goal with
           | |- context [N_of_ascii ?a] =>
               let v := eval vm_compute in (N_of_ascii a) in
               change (N_of_ascii a) with v
           end;
    cbn [N.eqb Pos.eqb afterEquals]; cbv iota;
    rewrite ?E, ?M; reflexivity.
Qed.

Lemma parseUnsigned_digits :
  exists v, parseUnsigned (d :: ds ++ fractionText fs) = Fin v
            /\ (v == numeralValue false (d :: ds) fs)%Q.
Proof.
  unfold parseUnsigned.
  assert (I : isPrefix (js "Infinity") (d :: ds ++ fractionText fs) = false).
  { destruct (digit_cases d Hd) as [E|[E|[E|[E|[E|[E|[E|[E|[E|E]]]]]]]]];
      rewrite E; reflexivity. }
  rewrite I, span_digits_fraction.
  destruct fraction_cases as [[N F]|(f & N & F & Hf)]; rewrite F, N.
  - cbn [nonEmpty negb andb]. eexists. split; [reflexivity|].
    unfold numeralValue. rewrite <- !digitsValue_decimalValue.
    cbn [List.length Qpower]. ring.
  - rewrite (span_all _ _ Hf). cbn [nonEmpty negb andb].
    eexists. split; [reflexivity|].
    unfold numeralValue. rewrite <- !digitsValue_decimalValue.
    cbn [Qpower]. ring.
Qed.

Lemma parseFloat_numeral :
  exists v, parseFloat (numeralText negative (d :: ds) fs) = Fin v
            /\ (v == numeralValue negative (d :: ds) fs)%Q.
Proof.
  destruct parseUnsigned_digits as (v & P & V).
  rewrite numeral_shape. unfold parseFloat, trimStart. destruct negative.
  - change (js "-" ++ d :: ds ++ fractionText fs)
      with (45%N :: d :: ds ++ fractionText fs).
    cbn [dropWhile]. change (isWhiteSpace 45) with false. cbv iota.
    rewrite P. exists (- v)%Q. split; [reflexivity|].
    unfold numeralValue in *. rewrite V. reflexivity.
  - cbn [app dropWhile]. rewrite (digit_not_space d Hd).
    exists v. split; [|exact V]. rewrite <- P.
    destruct (digit_cases d Hd) as [E|[E|[E|[E|[E|[E|[E|[E|[E|E]]]]]]]]];
      rewrite E; reflexivity.
Qed.

End Numeral.

Lemma compareNum_holds (op : operator) (q v : Q) :
  compareNum op (Fin q) (Fin v) = true <-> holds op q v.
Proof.
  destruct op; unfold compareNum, holds, num_leb, num_ltb, num_eqb.
  - rewrite negb_true_iff, <- not_true_iff_false, Qle_bool_iff. lra.
  - rewrite negb_true_iff, <- not_true_iff_false, Qle_bool_iff. lra.
  - rewrite orb_true_iff, negb_true_iff, <- not_true_iff_false,
      Qle_bool_iff, Qeq_bool_iff. lra.
  - rewrite orb_true_iff, negb_true_iff, <- not_true_iff_false,
      Qle_bool_iff, Qeq_bool_iff. lra.
  - apply Qeq_bool_iff.
Qed.

Lemma holds_compat (op : operator) (q v w : Q) :
  (v == w)%Q -> holds op q v <-> holds op q w.
Proof. intros E. destruct op; unfold holds; rewrite E; reflexivity. Qed.

Lemma zeros_are_digits (f : list N) :
  forallb (N.eqb 48) f = true -> forallb isDigit f = true.
Proof.
  induction f as [|c f IH]; [reflexivity|]. cbn [forallb]. intros H.
  apply andb_true_iff in H. destruct H as [E H].
  apply N.eqb_eq in E. subst c. rewrite (IH H). reflexivity.
Qed.

Lemma decimalValue_zeros (f : list N) :
  forallb (N.eqb 48) f = true -> decimalValue 0 f = 0.
Proof.
  induction f as [|c f IH]; [reflexivity|]. cbn [forallb]. intros H.
  apply andb_true_iff in H. destruct H as [E H].
  apply N.eqb_eq in E. subst c. exact (IH H).
Qed.

Lemma numeralValue_integer (negative : bool) (ds : list N)
      (fs : option (list N)) :
  (forall f, fs = Some f -> forallb (N.eqb 48) f = true) ->
  (numeralValue negative ds fs == inject_Z (numeralInteger negative ds))%Q.
Proof.
  intros Z0. unfold numeralValue, numeralInteger. cbv zeta.
  assert (F : decimalValue 0 match fs with Some f => f | None => [] end = 0).
  { destruct fs as [f|]; [|reflexivity].
    apply decimalValue_zeros, Z0. reflexivity. }
  rewrite F. unfold Qdiv. destruct negative.
  - rewrite inject_Z_opp. ring.
  - ring.
Qed.

(** X12. A relational condition between integers means what it says.
    The pattern reads a condition made of an operator, any white space
    and a decimal numeral as that operator and the whole numeral.  On a
    metric that is the integer [n], a numeral without a fraction, or
    with one of zeros only, makes the condition hold exactly when [n]
    stands in that relation to the integer the numeral denotes.  Both
    integers are at most 2^53 - 1 in magnitude: in that range the
    numbers of the code, IEEE doubles, are the integers themselves. *)
Theorem relational_condition_meaning (op : operator) (ws : jsstring)
        (negative : bool) (d : N) (ds : list N) (fs : option (list N))
        (n : Z) :
  forallb isWhiteSpace ws = true ->
  forallb isDigit (d :: ds) = true ->
  (forall f, fs = Some f -> forallb (N.eqb 48) f = true) ->
  safeInteger n ->
  safeInteger (numeralInteger negative (d :: ds)) ->
  let condition :=
    operatorText op ++ ws ++ numeralText negative (d :: ds) fs in
  numericMatch condition = Some (op, numeralText negative (d :: ds) fs)
  /\ (evaluateCondition (intVal n) condition = true
      <-> holds op (inject_Z n)
                (inject_Z (numeralInteger negative (d :: ds)))).
Proof.
  intros Hws Hall Hzeros _ _. cbv zeta.
  simpl in Hall. apply andb_true_iff in Hall. destruct Hall as [Hd Hds].
  assert (Hfs : forall f, fs = Some f -> forallb isDigit f = true)
    by (intros f E; apply zeros_are_digits, Hzeros, E).
  pose proof (numericMatch_relational negative d ds fs Hd Hds Hfs op ws Hws)
    as M.
  split; [exact M|].
  unfold evaluateCondition, intVal. rewrite M.
  destruct (parseFloat_numeral negative d ds fs Hd Hds Hfs) as (v & P & V).
  cbv zeta. rewrite P. cbn [isNaN].
  rewrite compareNum_holds. apply holds_compat.
  rewrite V. apply numeralValue_integer, Hzeros.
Qed.

(** The condition of the default rule "stuck" on the length of the
    paragraph, for a paragraph of 12 words. *)
Lemma relational_condition_meaning_witness :
  forallb isWhiteSpace (js " ") = true
  /\ forallb isDigit (js "50") = true
  /\ safeInteger 12
  /\ safeInteger (numeralInteger false (js "50"))
  /\ (evaluateCondition (intVal 12) (js "< 50") = true
      <-> holds OpLt (inject_Z 12) (inject_Z 50)).
Proof.
  assert (F : forall f, @None (list N) = Some f ->
                        forallb (N.eqb 48) f = true)
    by (intros f E; discriminate E).
  assert (S1 : safeInteger 12) by (unfold safeInteger; simpl; lia).
  assert (S2 : safeInteger (numeralInteger false (js "50")))
    by (vm_compute; discriminate).
  split; [reflexivity|]. split; [reflexivity|]. split; [exact S1|].
  split; [exact S2|].
  apply (proj2 (relational_condition_meaning OpLt (js " ") false 53%N
                  [48%N] None 12 eq_refl eq_refl F S1 S2)).
Defined.

End EvaluatorMore.

(* ================================================================== *)
(** ** More about the trigger engine *)
(* ================================================================== *)

Module EngineMore.
Import JS Types Spec Notions JSFacts Evaluator Engine EngineFacts.

(** *** Which rule a tick fires *)

Lemma checkLoop_find (onTrigger : listener) (st : engine) (now : Z)
      (m : WritingMetrics) (wt : jsstring) (ctx : WritingContext)
      (entries : list (jsstring * TriggerRule)) :
  checkLoop onTrigger st now m wt ctx entries =
  match find (eligible st now m wt) entries with
  | Some (tname, rl) =>
      (notify onTrigger (resultOf tname rl m ctx)
              (recordFire st now tname m wt),
       Some (resultOf tname rl m ctx))
  | None => (st, None)
  end.
Proof.
  induction entries as [|[tname rl] rest IH]; [reflexivity|].
  cbn [checkLoop find]. unfold eligible at 1. cbn [snd].
  destruct (appliesToType rl wt); cbn [negb andb]; [|exact IH].
  destruct (evaluateConditions (conditions rl) m); cbn [andb]; [|exact IH].
  cbv zeta. rewrite Z.leb_antisym.
  destruct (now - lastTriggerTime st <? requiredInterval st rl);
    cbn [negb]; [exact IH | reflexivity].
Qed.

(** X13. A tick of an engine that is not paused fires the first rule,
    in the order of the entries, that applies to the writing type,
    whose conditions hold and whose cooldown is over; priorities do not
    reorder the rules.  When there is no such rule, or the engine is
    paused, nothing fires and the engine stays as it was. *)
Theorem tick_fires_first_eligible (onTrigger : listener) (st : engine)
        (now : Z) (m : WritingMetrics) (wt : jsstring)
        (ctx : WritingContext) :
  checkTriggers onTrigger st now m wt ctx =
  if isPaused st then (st, None)
  else
    match find (eligible st now m wt) (triggers (rules st)) with
    | Some (tname, rl) =>
        (notify onTrigger (resultOf tname rl m ctx)
                (recordFire st now tname m wt),
         Some (resultOf tname rl m ctx))
    | None => (st, None)
    end.
Proof.
  unfold checkTriggers. destruct (isPaused st); [reflexivity|].
  apply checkLoop_find.
Qed.

(** *** The history *)

Lemma lastStamp_pushEvent (h : list TriggerEvent) (ev : TriggerEvent) :
  lastStamp (pushEvent h ev) = event_timestamp ev.
Proof.
  destruct (pushEvent_appends_one h ev) as (dropped & kept & _ & E & _).
  rewrite E. unfold lastStamp. rewrite map_app. apply last_last.
Qed.

Lemma exec_keeps_history (onTrigger : listener) (st : engine) (c : call) :
  passive onTrigger ->
  (List.length (triggerHistory st) <= 100)%nat
  /\ lastTriggerTime st = lastStamp (triggerHistory st) ->
  (List.length (triggerHistory (fst (exec onTrigger st c))) <= 100)%nat
  /\ lastTriggerTime (fst (exec onTrigger st c))
     = lastStamp (triggerHistory (fst (exec onTrigger st c))).
Proof.
  intros Pa I. destruct c; cbn [exec].
  - unfold checkTriggers. destruct (isPaused st); [exact I|].
    rewrite checkLoop_find.
    destruct (find _ _) as [[tname rl]|]; [|exact I].
    cbn [fst]. rewrite Pa. cbn [recordFire triggerHistory lastTriggerTime].
    rewrite lastStamp_pushEvent. split; [|reflexivity].
    destruct (pushEvent_appends_one (triggerHistory st)
                (eventOf tname now m wt)) as (d & k & _ & _ & L).
    unfold eventOf in L. rewrite L. lia.
  - unfold forceTrigger.
    destruct (lookupRule _ _); cbn [fst]; [rewrite Pa|]; exact I.
  - exact I.
  - exact I.
  - exact I.
  - exact I.
  - split; [simpl; lia | reflexivity].
Qed.

(** X14. With a listener that does not call the engine back, whatever
    calls are made on a new engine, its history never holds more than
    100 events, and the time of its last fire is the time stamp of the
    newest event of the history (0 while the history is empty). *)
Theorem history_bounded_and_stamped (onTrigger : listener)
        (rs : TriggerRules) (cs : list call) :
  passive onTrigger ->
  let st := fst (execAll onTrigger (create rs) cs) in
  (List.length (triggerHistory st) <= 100)%nat
  /\ lastTriggerTime st = lastStamp (triggerHistory st).
Proof.
  intros Pa. cbv zeta.
  assert (I : (List.length (triggerHistory (create rs)) <= 100)%nat
              /\ lastTriggerTime (create rs)
                 = lastStamp (triggerHistory (create rs)))
    by (split; [simpl; lia | reflexivity]).
  revert I. generalize (create rs).
  induction cs as [|c cs IH]; intros st I; [exact I|].
  rewrite execAll_cons. cbn [fst].
  apply IH, exec_keeps_history; assumption.
Qed.

(** The default rules, no listener, and a tick on which "stuck" fires. *)
Lemma history_bounded_and_stamped_witness :
  passive None
  /\ let st := fst (execAll None (create getDefaultTriggerRules)
                            [Tick 200000 pausedMetrics (js "scene")
                                  sceneContext]) in
     lastTriggerTime st = 200000
     /\ lastTriggerTime st = lastStamp (triggerHistory st).
Proof.
  assert (Pa : passive None) by (intros r s; reflexivity).
  split; [exact Pa|]. cbv zeta. split; [reflexivity|].
  apply (proj2 (history_bounded_and_stamped None getDefaultTriggerRules
                  [Tick 200000 pausedMetrics (js "scene") sceneContext]
                  Pa)).
Defined.

(** *** Pausing *)

Lemma execAll_app (onTrigger : listener) (a b : list call) (st : engine) :
  execAll onTrigger st (a ++ b) =
  (fst (execAll onTrigger (fst (execAll onTrigger st a)) b),
   snd (execAll onTrigger st a)
   ++ snd (execAll onTrigger (fst (execAll onTrigger st a)) b)).
Proof.
  revert st. induction a as [|c a IH]; intros st.
  - simpl. destruct (execAll onTrigger st b); reflexivity.
  - rewrite <- app_comm_cons, !execAll_cons, IH. reflexivity.
Qed.

Lemma paused_ticks_quiet (onTrigger : listener) (st : engine)
      (cs : list call) :
  isPaused st = true -> Forall isTick cs ->
  execAll onTrigger st cs = (st, map (fun _ => Quiet) cs).
Proof.
  intros P F. induction F as [|c cs T _ IH]; [reflexivity|].
  rewrite execAll_cons. destruct c; try destruct T.
  cbn [exec]. unfold checkTriggers. rewrite P. cbn [fst snd].
  rewrite IH. reflexivity.
Qed.

Lemma scheduledFires_quiet {A} (l : list A) :
  scheduledFires (map (fun _ => Quiet) l) = [].
Proof. induction l; [reflexivity | exact IHl]. Qed.

(** X15. A paused engine ignores its ticks: none fires, the listener
    is not called, and the history and the time of the last fire stay.
    Pausing an engine, ticking and resuming gives back the engine as it
    was, so a pause does not put off the end of a cooldown. *)
Theorem paused_engine_is_silent (onTrigger : listener) (st : engine)
        (cs : list call) :
  isPaused st = false -> Forall isTick cs ->
  execAll onTrigger (pause st) cs = (pause st, map (fun _ => Quiet) cs)
  /\ fst (execAll onTrigger st (Pause :: cs ++ [Resume])) = st
  /\ firesOf onTrigger st (Pause :: cs ++ [Resume]) = [].
Proof.
  intros P F.
  pose proof (paused_ticks_quiet onTrigger (pause st) cs eq_refl F) as Q.
  split; [exact Q|].
  unfold firesOf. rewrite execAll_cons. cbn [exec fst snd].
  rewrite execAll_app, Q. cbn [fst snd execAll exec scheduledFires].
  split.
  - destruct st. simpl in P. subst. reflexivity.
  - change [Quiet] with (map (fun _ : call => Quiet) [Resume]).
    rewrite <- map_app. apply scheduledFires_quiet.
Qed.

(** The default rules and a tick on which "stuck" would fire. *)
Lemma paused_engine_is_silent_witness :
  let st := create getDefaultTriggerRules in
  let tick := Tick 200000 pausedMetrics (js "scene") sceneContext in
  isPaused st = false
  /\ Forall isTick [tick]
  /\ firesOf None st [tick] <> []
  /\ firesOf None st [Pause; tick; Resume] = [].
Proof.
  cbv zeta.
  assert (F : Forall isTick
                [Tick 200000 pausedMetrics (js "scene") sceneContext])
    by (repeat constructor).
  split; [reflexivity|]. split; [exact F|]. split; [discriminate|].
  apply (proj2 (proj2 (paused_engine_is_silent None
                         (create getDefaultTriggerRules) _ eq_refl F))).
Defined.

(** *** The time until the next trigger *)

(** X16. The time until the next trigger is never negative, and it is
    0 exactly when the cooldown of the rules that are not of high
    priority is over; so a tick on which such a rule fires comes when
    that time is 0. *)
Theorem time_until_next_trigger (onTrigger : listener) (st st' : engine)
        (now : Z) (m : WritingMetrics) (wt : jsstring)
        (ctx : WritingContext) (res : TriggerResult) :
  0 <= getTimeUntilNextTrigger st now
  /\ (getTimeUntilNextTrigger st now = 0
      <-> cooldown st Medium <= now - lastTriggerTime st)
  /\ (checkTriggers onTrigger st now m wt ctx = (st', Some res) ->
      priority (rule res) <> High ->
      getTimeUntilNextTrigger st now = 0).
Proof.
  assert (C : cooldown st Medium = minInterval st).
  { unfold cooldown, minInterval, devCooldown, configuredCooldown.
    destruct (devMode st); [reflexivity | lia]. }
  unfold getTimeUntilNextTrigger. rewrite C.
  split; [lia|]. split; [lia|].
  unfold checkTriggers. destruct (isPaused st); [discriminate|].
  intros E NH.
  destruct (checkLoop_fires _ _ _ _ _ _ _ _ _ E)
    as (pre & tname & rl & post & _ & R & _ & _ & Due & _).
  rewrite R in NH. cbn [resultOf rule] in NH.
  unfold requiredInterval in Due.
  destruct (priority rl); cbn [isHigh] in Due; [congruence | lia | lia].
Qed.

(** The default rule "rushing", of medium priority, firing 300 seconds
    after the engine was made. *)
Lemma time_until_next_trigger_witness :
  let st := create getDefaultTriggerRules in
  let res := resultOf (js "rushing") rushing rushingMetrics sceneContext in
  checkTriggers None st 300000 rushingMetrics (js "scene") sceneContext
  = (recordFire st 300000 (js "rushing") rushingMetrics (js "scene"),
     Some res)
  /\ priority (rule res) <> High
  /\ getTimeUntilNextTrigger st 300000 = 0.
Proof.
  cbv zeta.
  assert (E : checkTriggers None (create getDefaultTriggerRules) 300000
                rushingMetrics (js "scene") sceneContext
              = (recordFire (create getDefaultTriggerRules) 300000
                   (js "rushing") rushingMetrics (js "scene"),
                 Some (resultOf (js "rushing") rushing rushingMetrics
                                sceneContext)))
    by (vm_compute; reflexivity).
  assert (NH : priority (rule (resultOf (js "rushing") rushing
                                 rushingMetrics sceneContext)) <> High)
    by discriminate.
  split; [exact E|]. split; [exact NH|].
  apply (proj2 (proj2 (time_until_next_trigger None _ _ _ _ _ _ _)) E NH).
Defined.

End EngineMore.

(* ================================================================== *)
(** ** More about the coaching session *)
(* ================================================================== *)

Module SessionMore.
Import JS Types Spec Notions JSFacts Engine Session SessionFacts.

(** *** The chat and the view *)

Lemma chatInStep_addChatMessage (v : View) (msg : ConversationMessage) :
  chatInStep v -> chatInStep (addChatMessage v msg).
Proof.
  intros [V R]. split; [exact V|]. cbn. intros C.
  unfold rerender. rewrite (R C). reflexivity.
Qed.

Lemma chatInStep_hideChatInterface (v : View) :
  chatInStep (hideChatInterface v).
Proof. split; [reflexivity | discriminate]. Qed.

Lemma chatInStep_showCoaching (v : View) (cm : CoachingMessage) :
  chatInStep v -> chatInStep (showCoaching (hideLoading v) cm).
Proof.
  intros I. unfold showCoaching.
  destruct (msg_type cm); [exact I|]. split; [reflexivity|].
  intros _. reflexivity.
Qed.

Lemma chatInStep_showLoading (v : View) :
  chatInStep v -> chatInStep (showLoading v).
Proof. intros I. unfold showLoading. destruct (loading v); exact I. Qed.

Lemma step_chatInStep (p : plugin) (e : event) :
  chatInStep (coachingView p) -> chatInStep (coachingView (step p e)).
Proof.
  intros I. destruct e; cbn [step].
  - unfold onEditorChange.
    destruct (_ && _); [|exact I].
    destruct (autoClose _); [apply chatInStep_hideChatInterface | exact I].
  - unfold handleTrigger. destruct (negb _); [exact I|].
    cbv zeta. cbn [claudeClient with_view].
    destruct (hasApiKey _).
    + apply chatInStep_showLoading, I.
    + apply chatInStep_showCoaching, chatInStep_showLoading, I.
  - unfold handleChatMessage. cbv zeta. cbn [claudeClient with_view].
    destruct (hasApiKey _).
    + apply chatInStep_addChatMessage, I.
    + apply chatInStep_addChatMessage, chatInStep_addChatMessage, I.
  - unfold backendReply. destruct (nth_error _ _) as [[res um|]|]; [| |exact I].
    + apply chatInStep_showCoaching, I.
    + apply chatInStep_addChatMessage, I.
  - unfold backendFailure.
    destruct (nth_error _ _) as [[res um|]|]; exact I.
  - apply chatInStep_hideChatInterface.
  - apply chatInStep_hideChatInterface.
  - exact I.
Qed.

(** X17. Through every sequence of events from the start of the plugin
    the chat is visible exactly while the view is in conversation, and
    it then shows the whole turn history of the view. *)
Theorem chat_shows_the_conversation (rs : TriggerRules)
        (enabled : list jsstring) (apiKey : bool) (es : list event) :
  chatInStep (coachingView (run (start rs enabled apiKey) es)).
Proof.
  assert (I : chatInStep (coachingView (start rs enabled apiKey)))
    by (split; [reflexivity | discriminate]).
  revert I. generalize (start rs enabled apiKey). unfold run.
  induction es as [|e es IH]; intros p I; [exact I|].
  simpl. apply IH, step_chatInStep, I.
Qed.

(** *** Without an API key *)

Lemma step_without_key (p : plugin) (e : event) :
  hasApiKey (claudeClient p) = false /\ inflight p = []
  /\ client_history (claudeClient p) = [] ->
  hasApiKey (claudeClient (step p e)) = false /\ inflight (step p e) = []
  /\ client_history (claudeClient (step p e)) = [].
Proof.
  intros (K & F & H). destruct e; cbn [step].
  - unfold onEditorChange. destruct (_ && _); [|repeat split; assumption].
    destruct (autoClose _); repeat split; assumption.
  - unfold handleTrigger. destruct (negb _); [repeat split; assumption|].
    cbv zeta. cbn [claudeClient with_view]. rewrite K.
    repeat split; assumption.
  - unfold handleChatMessage. cbv zeta. cbn [claudeClient with_view].
    rewrite K. repeat split; assumption.
  - unfold backendReply. rewrite F. destruct n; repeat split; assumption.
  - unfold backendFailure. rewrite F. destruct n; repeat split; assumption.
  - repeat split; assumption.
  - repeat split; assumption.
  - repeat split; assumption.
Qed.

(** X18. A plugin started without an API key never calls the backend,
    whatever happens: no request is ever pending and the client records
    no turn.  A trigger that is enabled is answered at once with the
    request to add a key, and opens the chat when its rule enables
    chat. *)
Theorem no_key_no_backend_call (rs : TriggerRules)
        (enabled : list jsstring) (es : list event)
        (res : TriggerResult) (userMessage : jsstring) (now : Z) :
  let p := run (start rs enabled false) es in
  inflight p = []
  /\ client_history (claudeClient p) = []
  /\ (includes (enabledTriggers p) (triggerName res) = true ->
      let v := coachingView (handleTrigger p res userMessage now) in
      (exists cm, panel v = Coaching cm /\ message cm = noKeyCoaching)
      /\ loading v = false
      /\ (enableChat (rule res) = true -> isInConversation v = true)).
Proof.
  cbv zeta.
  assert (I : hasApiKey (claudeClient (start rs enabled false)) = false
              /\ inflight (start rs enabled false) = []
              /\ client_history (claudeClient (start rs enabled false)) = [])
    by (repeat split).
  assert (J : hasApiKey (claudeClient (run (start rs enabled false) es))
              = false
              /\ inflight (run (start rs enabled false) es) = []
              /\ client_history
                   (claudeClient (run (start rs enabled false) es)) = []).
  { revert I. generalize (start rs enabled false). unfold run.
    induction es as [|e es IH]; intros p I; [exact I|].
    simpl. apply IH, step_without_key, I. }
  destruct J as (K & F & H). split; [exact F|]. split; [exact H|].
  intros En. unfold handleTrigger. rewrite En. cbv zeta.
  cbn [negb claudeClient with_view]. rewrite K.
  unfold coachingDone, showCoaching. cbn [with_view coachingView msg_type].
  destruct (enableChat (rule res)); cbn.
  - split; [eexists; split; reflexivity|]. split; [reflexivity|].
    reflexivity.
  - split; [eexists; split; reflexivity|]. split; [reflexivity|].
    discriminate.
Qed.

(** The rule "stuck" firing in a plugin without a key. *)
Lemma no_key_no_backend_call_witness :
  let p := run (start getDefaultTriggerRules [js "stuck"] false) [] in
  includes (enabledTriggers p) (triggerName stuckResult) = true
  /\ enableChat (rule stuckResult) = true
  /\ isInConversation
       (coachingView (handleTrigger p stuckResult (js "draft") 1000))
     = true.
Proof.
  cbv zeta. split; [reflexivity|]. split; [reflexivity|].
  apply (proj2 (proj2 (proj2 (proj2
           (no_key_no_backend_call getDefaultTriggerRules [js "stuck"] []
              stuckResult (js "draft") 1000)) eq_refl)) eq_refl).
Defined.

(** *** Calls of the backend that return *)

Lemma nth_error_newest {A} (l : list A) (x : A) :
  nth_error (l ++ [x]) (List.length l) = Some x.
Proof. induction l as [|y l IH]; [reflexivity | exact IH]. Qed.

Lemma removeNth_newest {A} (l : list A) (x : A) :
  removeNth (List.length l) (l ++ [x]) = l.
Proof.
  induction l as [|y l IH]; [reflexivity|]. simpl. rewrite IH. reflexivity.
Qed.

(** X19. When the backend fails on a chat message, the conversation is
    not rolled back: the view shows the error and stays as much in
    conversation as it was, and the message of the user stays in the
    turn histories of the view and of the client, unanswered. *)
Theorem failed_chat_keeps_the_turn (p : plugin) (text err : jsstring)
        (now : Z) :
  hasApiKey (claudeClient p) = true ->
  let p' := run p [ChatMessage text now;
                   Failure (List.length (inflight p)) err] in
  panel (coachingView p') = ErrorPanel err
  /\ isInConversation (coachingView p') = isInConversation (coachingView p)
  /\ conversationHistory (coachingView p')
     = conversationHistory (coachingView p) ++ [userSays text now]
  /\ client_history (claudeClient p')
     = client_history (claudeClient p) ++ [userSays text now]
  /\ inflight p' = inflight p.
Proof.
  intros K. cbv zeta. unfold run. cbn [fold_left step].
  unfold handleChatMessage. cbv zeta. cbn [claudeClient with_view].
  rewrite K. unfold backendFailure.
  cbn [inflight with_inflight with_client with_view].
  rewrite nth_error_newest, removeNth_newest.
  repeat split.
Qed.

(** A message sent in the conversation the rule "stuck" opened. *)
Lemma failed_chat_keeps_the_turn_witness :
  let p := inConversation getDefaultTriggerRules in
  hasApiKey (claudeClient p) = true
  /\ client_history
       (claudeClient
          (run p [ChatMessage (js "I am lost") 3000;
                  Failure (List.length (inflight p)) (js "API error: 529")]))
     = client_history (claudeClient p) ++ [userSays (js "I am lost") 3000].
Proof.
  cbv zeta. split; [reflexivity|].
  apply (proj1 (proj2 (proj2 (proj2
           (failed_chat_keeps_the_turn
              (inConversation getDefaultTriggerRules)
              (js "I am lost") (js "API error: 529") 3000 eq_refl))))).
Defined.

(** X20. The close button ends the conversation everywhere: the
    session is idle after it.  The two feedback buttons end it in the
    view only: the chat is hidden and the view forgets its turns, but
    the client keeps the turns it has. *)
Theorem dismissing_ends_conversation (p : plugin) :
  idle (step p ClickClose)
  /\ coachingVisible (coachingView (step p ClickClose)) = false
  /\ coachingView (step p ClickFeedback) = coachingView (step p ClickClose)
  /\ client_history (claudeClient (step p ClickFeedback))
     = client_history (claudeClient p)
  /\ (client_history (claudeClient p) <> [] ->
      ~ idle (step p ClickFeedback)).
Proof.
  split; [repeat split|]. split; [reflexivity|]. split; [reflexivity|].
  split; [reflexivity|]. intros NE (_ & _ & H). apply NE, H.
Qed.

(** The conversation the rule "stuck" opened, left by a feedback
    button. *)
Lemma dismissing_ends_conversation_witness :
  let p := inConversation getDefaultTriggerRules in
  client_history (claudeClient p) <> []
  /\ ~ idle (step p ClickFeedback).
Proof.
  cbv zeta.
  assert (NE : client_history
                 (claudeClient (inConversation getDefaultTriggerRules))
               <> []) by discriminate.
  split; [exact NE|].
  apply (proj2 (proj2 (proj2 (proj2
           (dismissing_ends_conversation
              (inConversation getDefaultTriggerRules))))) NE).
Defined.

(** X21. When the backend answers the coaching request of an enabled
    trigger, the answer is shown as the coaching message.  A rule that
    enables chat opens the conversation: the client starts over with
    the request and the answer as its two turns, while the turn history
    of the view stays as it was; any other rule leaves the conversation
    and both histories as they were. *)
Theorem coaching_reply_opens_chat (p : plugin) (res : TriggerResult)
        (userMessage text : jsstring) (now now' : Z) :
  hasApiKey (claudeClient p) = true ->
  includes (enabledTriggers p) (triggerName res) = true ->
  let p' := run p [TriggerFired res userMessage now;
                   Reply (List.length (inflight p)) text now'] in
  (exists cm, panel (coachingView p') = Coaching cm /\ message cm = text)
  /\ loading (coachingView p') = false
  /\ isInConversation (coachingView p')
     = enableChat (rule res) || isInConversation (coachingView p)
  /\ conversationHistory (coachingView p')
     = conversationHistory (coachingView p)
  /\ client_history (claudeClient p')
     = (if enableChat (rule res)
        then [userSays userMessage now'; assistantSays text now']
        else client_history (claudeClient p))
  /\ inflight p' = inflight p.
Proof.
  intros K En. cbv zeta. unfold run. cbn [fold_left step].
  unfold handleTrigger. rewrite En. cbv zeta.
  cbn [negb claudeClient with_view]. rewrite K.
  unfold backendReply. cbn [inflight with_inflight].
  rewrite nth_error_newest, removeNth_newest.
  unfold coachingDone, showCoaching.
  cbn [with_view with_client with_inflight coachingView claudeClient
       msg_type inflight].
  unfold showLoading.
  destruct (enableChat (rule res)), (loading (coachingView p)); cbn;
    (split; [eexists; split; reflexivity|]); repeat split.
Qed.

(** The rule "stuck" firing in a plugin that was just started. *)
Lemma coaching_reply_opens_chat_witness :
  let p := start getDefaultTriggerRules [js "stuck"] true in
  hasApiKey (claudeClient p) = true
  /\ includes (enabledTriggers p) (triggerName stuckResult) = true
  /\ isInConversation
       (coachingView
          (run p [TriggerFired stuckResult (js "draft") 1000;
                  Reply (List.length (inflight p)) (js "Stuck?") 2000]))
     = true.
Proof.
  cbv zeta. split; [reflexivity|]. split; [reflexivity|].
  apply (proj1 (proj2 (proj2
           (coaching_reply_opens_chat
              (start getDefaultTriggerRules [js "stuck"] true)
              stuckResult (js "draft") (js "Stuck?") 1000 2000
              eq_refl eq_refl)))).
Defined.

(** *** Forcing a trigger *)

(** X22. Forcing a trigger from the plugin handles it twice: once by
    the listener the engine calls and once more by the plugin itself.
    With an API key and the trigger enabled, two coaching requests for
    the same result are pending afterwards; a trigger that is not
    enabled leaves the plugin as it was. *)
Theorem forced_trigger_is_handled_twice (eng : engine) (p : plugin)
        (tname : jsstring) (rl : TriggerRule) (m : WritingMetrics)
        (ctx : WritingContext) (userMessage : jsstring) (now : Z) :
  lookupRule (triggers (rules eng)) tname = Some rl ->
  let res := resultOf tname rl m ctx in
  let p' := Plugin.forceTrigger eng p tname m ctx userMessage now in
  (includes (enabledTriggers p) tname = false -> p' = p)
  /\ (includes (enabledTriggers p) tname = true ->
      hasApiKey (claudeClient p) = true ->
      inflight p'
      = inflight p ++ [ReqCoaching res userMessage;
                       ReqCoaching res userMessage]
      /\ loading (coachingView p') = true).
Proof.
  intros L. cbv zeta. unfold Plugin.forceTrigger, forceTrigger.
  rewrite L. cbn [snd notify]. cbv zeta.
  fold (resultOf tname rl m ctx).
  unfold handleTrigger. cbn [resultOf triggerName].
  cbn [enabledTriggers with_view with_inflight claudeClient].
  split.
  - intros En. rewrite En. cbn [negb]. rewrite En. reflexivity.
  - intros En K. rewrite En. cbn [negb]. cbv zeta.
    cbn [claudeClient with_view]. rewrite K.
    cbn [enabledTriggers with_view with_inflight claudeClient].
    rewrite En. cbn [negb]. cbv zeta.
    cbn [claudeClient with_view with_inflight coachingView inflight].
    rewrite K. cbn [inflight with_inflight with_view coachingView].
    rewrite <- app_assoc. split; [reflexivity|].
    unfold showLoading.
    destruct (loading (coachingView p)) eqn:Ld; cbn [loading]; rewrite ?Ld;
      reflexivity.
Qed.

(** The command that forces "stuck", on the default rules. *)
Lemma forced_trigger_is_handled_twice_witness :
  let eng := create getDefaultTriggerRules in
  let p := start getDefaultTriggerRules [js "stuck"] true in
  lookupRule (triggers (rules eng)) (js "stuck") = Some stuck
  /\ includes (enabledTriggers p) (js "stuck") = true
  /\ hasApiKey (claudeClient p) = true
  /\ List.length
       (inflight (Plugin.forceTrigger eng p (js "stuck") pausedMetrics
                    sceneContext (js "draft") 1000)) = 2%nat.
Proof.
  cbv zeta. split; [reflexivity|]. split; [reflexivity|].
  split; [reflexivity|].
  rewrite (proj1 (proj2 (forced_trigger_is_handled_twice
                           (create getDefaultTriggerRules)
                           (start getDefaultTriggerRules [js "stuck"] true)
                           (js "stuck") stuck pausedMetrics sceneContext
                           (js "draft") 1000 eq_refl) eq_refl eq_refl)).
  reflexivity.
Defined.

End SessionMore.

(* ================================================================== *)
(** ** The prompts of the client *)
(* ================================================================== *)

Module ClientFacts.
Import JS Types Spec Notions JSFacts Client.

(** *** The methodology of the system prompt *)

(** X23. The methodology put into the system prompt is never longer
    than 10028 code units: one of at most 10000 is taken whole, of a
    longer one the first 10000 are taken and the note that it was cut
    is added. *)
Theorem methodology_is_capped (methodology : jsstring) :
  strlen (truncatedMethodology methodology) <= 10028
  /\ (strlen methodology <= 10000 ->
      truncatedMethodology methodology = methodology)
  /\ (10000 < strlen methodology ->
      firstn (Z.to_nat 10000) (truncatedMethodology methodology)
      = firstn (Z.to_nat 10000) methodology
      /\ strlen (truncatedMethodology methodology) = 10028
      /\ endsWith (truncatedMethodology methodology) truncationMarker
         = true).
Proof.
  assert (M : strlen truncationMarker = 28) by reflexivity.
  unfold truncatedMethodology.
  destruct (strlen methodology >? 10000) eqn:E.
  - apply Z.gtb_lt in E.
    assert (L : List.length (firstn (Z.to_nat 10000) methodology)
                = Z.to_nat 10000)
      by (rewrite length_firstn; unfold strlen in E; lia).
    assert (S : strlen (firstn (Z.to_nat 10000) methodology
                        ++ truncationMarker) = 10028).
    { unfold strlen in *. rewrite length_app, L. lia. }
    split; [lia|]. split; [lia|]. intros _. split; [|split].
    + rewrite firstn_app, L, Nat.sub_diag, firstn_firstn, Nat.min_id.
      cbn [firstn]. apply app_nil_r.
    + exact S.
    + unfold endsWith. rewrite length_app, L.
      replace (Z.to_nat 10000 + List.length truncationMarker
               - List.length truncationMarker)%nat
        with (List.length (firstn (Z.to_nat 10000) methodology)) by lia.
      rewrite skipn_app, skipn_all, Nat.sub_diag. cbn [skipn app].
      rewrite str_eqb_refl, andb_true_r. apply Nat.leb_le. lia.
  - assert (Le : strlen methodology <= 10000).
    { destruct (Z.gtb_spec (strlen methodology) 10000); [discriminate|lia]. }
    split; [lia|]. split; [reflexivity|]. lia.
Qed.

(** A methodology of one line. *)
Lemma methodology_is_capped_witness :
  strlen (js "Show, do not tell.") <= 10000
  /\ truncatedMethodology (js "Show, do not tell.")
     = js "Show, do not tell.".
Proof.
  assert (S : strlen (js "Show, do not tell.") <= 10000)
    by (vm_compute; discriminate).
  split; [exact S|].
  apply (proj1 (proj2 (methodology_is_capped (js "Show, do not tell."))) S).
Defined.

(** *** The excerpt of the user message *)

Lemma joinSpace_cons2 (p q : jsstring) (r : list jsstring) :
  joinSpace (p :: q :: r) = p ++ 32%N :: joinSpace (q :: r).
Proof. reflexivity. Qed.

Lemma strlen_joinSpace (l : list jsstring) :
  l <> [] -> strlen (joinSpace l) = spread l - 1.
Proof.
  induction l as [|p [|q r] IH]; intros NE; [congruence | |].
  - unfold spread, strlen. simpl. lia.
  - rewrite joinSpace_cons2. unfold strlen in *. rewrite length_app.
    cbn [List.length]. change (spread (p :: q :: r))
      with (strlen p + 1 + spread (q :: r)).
    unfold strlen. specialize (IH ltac:(discriminate)). lia.
Qed.

Lemma spread_nonneg (l : list jsstring) : 0 <= spread l.
Proof.
  induction l as [|p l IH]; simpl; [lia|]. unfold strlen. lia.
Qed.

Lemma spread_skipn (n : nat) (l : list jsstring) :
  spread (skipn n l) <= spread l.
Proof.
  revert n. induction l as [|p l IH]; intros [|n]; simpl; try lia.
  specialize (IH n). unfold strlen. lia.
Qed.

Lemma split_go_nonempty (sep : N -> bool) (s cur : jsstring) (b : bool) :
  split_go sep s cur b <> [].
Proof.
  revert cur b. induction s as [|c r IH]; intros cur b; simpl;
    [discriminate|].
  destruct (sep c); [destruct b|]; try apply IH. discriminate.
Qed.

Lemma spread_split_go (sep : N -> bool) (s cur : jsstring) (b : bool) :
  spread (split_go sep s cur b) <= strlen s + strlen cur + 1.
Proof.
  revert cur b. induction s as [|c r IH]; intros cur b.
  - simpl. unfold strlen. rewrite length_rev. simpl. lia.
  - cbn [split_go]. destruct (sep c).
    + destruct b.
      * specialize (IH cur true). unfold strlen in *.
        cbn [List.length]. lia.
      * change (spread (rev cur :: split_go sep r [] true))
          with (strlen (rev cur) + 1 + spread (split_go sep r [] true)).
        specialize (IH [] true). unfold strlen in *.
        rewrite length_rev. cbn [List.length] in *. lia.
    + specialize (IH (c :: cur) false). unfold strlen in *.
      cbn [List.length] in *. lia.
Qed.

Lemma split_go_single (sep : N -> bool) (s cur p : jsstring) :
  split_go sep s cur false = [p] -> p = rev cur ++ s.
Proof.
  revert cur. induction s as [|c r IH]; intros cur; simpl.
  - intros E. inversion E. rewrite app_nil_r. reflexivity.
  - destruct (sep c).
    + intros E. inversion E as [[E1 E2]].
      destruct (split_go_nonempty sep r [] true E2).
    + intros E. rewrite (IH _ E). simpl. rewrite <- app_assoc.
      reflexivity.
Qed.

Lemma existsb_rev {A} (f : A -> bool) (l : list A) :
  existsb f (rev l) = existsb f l.
Proof.
  induction l as [|x l IH]; [reflexivity|]. simpl.
  rewrite existsb_app, IH. simpl. rewrite orb_false_r. apply orb_comm.
Qed.

Lemma split_go_clean (sep : N -> bool) (s cur : jsstring) (b : bool) :
  existsb sep cur = false ->
  Forall (fun p => existsb sep p = false) (split_go sep s cur b).
Proof.
  revert cur b. induction s as [|c r IH]; intros cur b Cl.
  - constructor; [|constructor]. rewrite existsb_rev. exact Cl.
  - cbn [split_go]. destruct (sep c) eqn:Sc.
    + destruct b; [apply IH, Cl|].
      constructor; [rewrite existsb_rev; exact Cl | apply IH; reflexivity].
    + apply IH. simpl. rewrite Sc, Cl. reflexivity.
Qed.

Lemma wordStarts_clean (sep : N -> bool) (p rest : jsstring) (b : bool) :
  existsb sep p = false ->
  wordStarts sep b (p ++ rest) =
  if nonEmpty p
  then ((if b then 1 else 0) + wordStarts sep false rest)%nat
  else wordStarts sep b rest.
Proof.
  intros Cl. destruct p as [|c p]; [reflexivity|].
  cbn [nonEmpty]. revert c b Cl.
  induction p as [|d p IH]; intros c b Cl; simpl in Cl;
    apply orb_false_iff in Cl; destruct Cl as [Sc Cl].
  - simpl. rewrite Sc. reflexivity.
  - change ((c :: d :: p) ++ rest) with (c :: (d :: p) ++ rest).
    cbn [wordStarts]. rewrite Sc, (IH d false Cl). reflexivity.
Qed.

Lemma wordStarts_space (b : bool) (x : jsstring) :
  wordStarts isWhiteSpace b (32%N :: x) = wordStarts isWhiteSpace true x.
Proof. reflexivity. Qed.

Lemma wordStarts_joinSpace (l : list jsstring) :
  Forall (fun p => existsb isWhiteSpace p = false) l ->
  (wordStarts isWhiteSpace true (joinSpace l) <= List.length l)%nat.
Proof.
  induction l as [|p [|q r] IH]; intros Cl; [simpl; lia | |].
  - inversion Cl; subst. cbn [joinSpace List.length].
    rewrite <- (app_nil_r p), wordStarts_clean by assumption.
    destruct (nonEmpty p); simpl; lia.
  - inversion Cl; subst. rewrite joinSpace_cons2.
    rewrite wordStarts_clean by assumption.
    specialize (IH ltac:(assumption)). cbn [List.length] in *.
    destruct (nonEmpty p); rewrite wordStarts_space; lia.
Qed.

Lemma Forall_skipn {A} (P : A -> Prop) (n : nat) (l : list A) :
  Forall P l -> Forall P (skipn n l).
Proof.
  intros F. revert n. induction F as [|x l Px F IH]; intros [|n]; simpl;
    try constructor; try assumption. apply IH.
Qed.

Lemma kept_pieces (pieces : list jsstring) :
  pieces <> [] ->
  Forall (fun p => existsb isWhiteSpace p = false) pieces ->
  (wordStarts isWhiteSpace true (joinSpace (Sensor.sliceLast 500 pieces))
   <= 500)%nat
  /\ strlen (joinSpace (Sensor.sliceLast 500 pieces)) <= spread pieces - 1
  /\ (nonEmpty (joinSpace (Sensor.sliceLast 500 pieces)) = false ->
      pieces = [[]]).
Proof.
  intros NE Cl.
  assert (Len : List.length (Sensor.sliceLast 500 pieces)
                = Nat.min 500 (List.length pieces))
    by (unfold Sensor.sliceLast; rewrite length_skipn; lia).
  assert (Sp : spread (Sensor.sliceLast 500 pieces) <= spread pieces)
    by apply spread_skipn.
  assert (Clk : Forall (fun p => existsb isWhiteSpace p = false)
                       (Sensor.sliceLast 500 pieces))
    by apply Forall_skipn, Cl.
  assert (One : List.length pieces = 1%nat ->
                Sensor.sliceLast 500 pieces = pieces)
    by (intros O; unfold Sensor.sliceLast; rewrite O; reflexivity).
  assert (Pos : (0 < List.length pieces)%nat)
    by (destruct pieces; [congruence | simpl; lia]).
  revert Len Sp Clk One. generalize (Sensor.sliceLast 500 pieces).
  intros kept Len Sp Clk One.
  assert (NEk : kept <> []) by (intros E; rewrite E in Len; cbn [List.length] in Len; lia).
  split; [|split].
  - etransitivity; [apply wordStarts_joinSpace, Clk | lia].
  - rewrite (strlen_joinSpace kept NEk). lia.
  - intros J. destruct kept as [|p [|q r]]; [congruence | |].
    + cbn [joinSpace] in J. destruct p; [|discriminate].
      cbn [List.length] in Len. symmetry. apply One. lia.
    + rewrite joinSpace_cons2 in J. destruct p; discriminate.
Qed.

(** X24. The excerpt of the writing that goes into the user message
    holds at most 500 words and is never longer than the content.  It
    is empty, so that the placeholder stands for it, only when the
    content is empty: content of white space alone is sent as one
    space. *)
Theorem excerpt_is_bounded (recentContent : jsstring) :
  (wordStarts isWhiteSpace true (last500Words recentContent) <= 500)%nat
  /\ strlen (last500Words recentContent) <= strlen recentContent
  /\ (nonEmpty (last500Words recentContent) = false
      <-> recentContent = [])
  /\ (recentContent <> [] ->
      recentWriting recentContent = last500Words recentContent).
Proof.
  assert (Sp : spread (split_ws recentContent) <= strlen recentContent + 1).
  { pose proof (spread_split_go isWhiteSpace recentContent [] false) as H.
    unfold strlen in *. cbn [List.length] in H.
    unfold split_ws, split_runs. lia. }
  destruct (kept_pieces (split_ws recentContent)) as (W & L & Em).
  { apply split_go_nonempty. }
  { apply split_go_clean. reflexivity. }
  assert (Empty : nonEmpty (last500Words recentContent) = false
                  <-> recentContent = []).
  { split.
    - intros J. apply Em in J. unfold split_ws, split_runs in J.
      apply split_go_single in J. symmetry. exact J.
    - intros E. rewrite E. reflexivity. }
  split; [exact W|]. split; [unfold last500Words; lia|].
  split; [exact Empty|].
  intros NEc. unfold recentWriting. cbv zeta.
  destruct (nonEmpty (last500Words recentContent)) eqn:J; [reflexivity|].
  destruct (NEc (proj1 Empty eq_refl)).
Qed.

(** Content of three spaces. *)
Lemma excerpt_is_bounded_witness :
  js "   " <> []
  /\ recentWriting (js "   ") = js " ".
Proof.
  assert (NE : js "   " <> []) by discriminate.
  split; [exact NE|].
  rewrite (proj2 (proj2 (proj2 (excerpt_is_bounded (js "   ")))) NE).
  reflexivity.
Defined.

End ClientFacts.
